(** * facefusion_batch.py: a shallow embedding and its specification

    The script drives an external face-swapping tool once per target
    image.  This development embeds the script's own logic: the path
    arithmetic it borrows from [pathlib], the installation locator, the
    input validator, the target enumerator, the command builder, the
    job runner, the batch loop and [main]'s mapping to exit statuses.

    Modelling conventions.
    - A Python [str] is a Rocq [string], read as its UTF-8 encoding.
      Comparing encodings byte by byte orders strings as Python orders
      them by code point.  [lower] changes the ASCII capitals only;
      Python's also rewrites other letters, but into nothing that could
      complete one of the six ASCII extensions, so membership in the
      extension set is decided alike.
    - A [pathlib.Path] (POSIX flavour) is its root together with the
      list of its parts; [suffix] and [stem] follow the [rfind] rule of
      Python 3.4 to 3.13.
    - The file system, the lines written and the record of spawned
      child processes form the [World] that every effectful method
      threads; a raised exception is a [Raise] result.
    - The file system is idealised in three ways.  It is keyed by the
      text of a path: [..] is a name like any other, and two paths to
      one file are two keys.  It has no permissions: [os.mkdir] fails
      only for the reasons it gives on the existence and kind of a
      path and of its parent.  And [Path.exists()] always returns: the
      [OSError]s it re-raises (a name too long, a refused permission)
      are left out.  The theorems on what a batch or a construction
      does are therefore stated on the outcome of the calls involved
      (what [exists_] gives, what [os_mkdir] gives, that the jobs of a
      [batch_run] return) and not on these calls always going well.
    - What lies outside the script (the interpreter path, the home and
      working directories, the external tool, the user's interrupt) is
      collected in an [Env] record.  An interrupt is delivered where
      the script blocks: inside [subprocess.run] and inside
      [time.sleep].
    - [time.time()] and the elapsed-time line are left out. *)

From Stdlib Require Import String Ascii List ZArith Bool Lia Arith.
From Stdlib Require Import Sorting.Sorted Sorting.Permutation.
Import ListNotations.

Local Open Scope string_scope.
Local Open Scope list_scope.

(** ** Python [str] operations used by the script *)

Module Str.

(** [c.lower()] on one character: only the ASCII capitals change. *)
Definition lower_char (c : ascii) : ascii :=
  let n := nat_of_ascii c in
  if (65 <=? n)%nat && (n <=? 90)%nat then ascii_of_nat (n + 32) else c.

(** [s.lower()]. *)
Fixpoint lower (s : string) : string :=
  match s with
  | EmptyString => EmptyString
  | String c s' => String (lower_char c) (lower s')
  end.

(** [s.rfind(c)]: index of the last occurrence of [c], or [-1]. *)
Fixpoint rfind (c : ascii) (s : string) : Z :=
  match s with
  | EmptyString => (-1)%Z
  | String a s' =>
      let r := rfind c s' in
      if (0 <=? r)%Z then (r + 1)%Z
      else if Ascii.eqb a c then 0%Z else (-1)%Z
  end.

(** [s[:n]] for a non-negative [n]. *)
Fixpoint take (n : nat) (s : string) : string :=
  match n, s with
  | O, _ => EmptyString
  | S _, EmptyString => EmptyString
  | S n', String a s' => String a (take n' s')
  end.

(** [s[n:]] for a non-negative [n]. *)
Fixpoint drop (n : nat) (s : string) : string :=
  match n, s with
  | O, _ => s
  | S _, EmptyString => EmptyString
  | S n', String _ s' => drop n' s'
  end.

(** [s.split(sep)] for a one-character separator: always at least one
    field, empty fields kept. *)
Fixpoint split (sep : ascii) (s : string) : list string :=
  match s with
  | EmptyString => [EmptyString]
  | String a s' =>
      if Ascii.eqb a sep then EmptyString :: split sep s'
      else match split sep s' with
           | [] => [String a EmptyString]
           | f :: fs => String a f :: fs
           end
  end.

(** [sep.join(l)]. *)
Definition join (sep : string) (l : list string) : string :=
  String.concat sep l.

(** [needle in s]. *)
Fixpoint contains (needle s : string) : bool :=
  String.prefix needle s ||
  match s with
  | EmptyString => false
  | String _ s' => contains needle s'
  end.

(** [a < b] on lists of [str], as Python compares sequences: the first
    differing position decides, and a proper prefix is smaller. *)
Fixpoint list_ltb (a b : list string) : bool :=
  match a, b with
  | [], [] => false
  | [], _ :: _ => true
  | _ :: _, [] => false
  | x :: a', y :: b' =>
      match String.compare x y with
      | Lt => true
      | Gt => false
      | Eq => list_ltb a' b'
      end
  end.

End Str.

(** ** [pathlib.Path], POSIX flavour *)

Record Path : Type := mkPath {
  root : string;          (* "", "/" or "//" *)
  parts : list string     (* the components after the root *)
}.

Module PurePath.

Definition slash : ascii := "/"%char.
Definition dot : ascii := "."%char.

(** [posixpath.splitroot]: one leading slash, or exactly two, is the
    root; three or more collapse to one. *)
Definition splitroot (p : string) : string * string :=
  match p with
  | String a r1 =>
      if Ascii.eqb a slash then
        match r1 with
        | String b r2 =>
            if Ascii.eqb b slash then
              match r2 with
              | String c _ =>
                  if Ascii.eqb c slash then ("/", r1) else ("//", r2)
              | EmptyString => ("//", r2)
              end
            else ("/", r1)
        | EmptyString => ("/", r1)
        end
      else ("", p)
  | EmptyString => ("", p)
  end.

(** [Path(s)]: the components are the non-empty fields between slashes,
    a lone ["."] field being dropped. *)
Definition of_str (s : string) : Path :=
  let '(r, rel) := splitroot s in
  mkPath r (filter (fun x => negb (String.eqb x "") && negb (String.eqb x "."))
                   (Str.split slash rel)).

(** [str(p)]. *)
Definition str (p : Path) : string :=
  match parts p with
  | [] => if String.eqb (root p) "" then "." else root p
  | _ => root p ++ Str.join "/" (parts p)
  end.

(** [p / s] for a [str] operand: an absolute operand replaces [p]. *)
Definition div (p : Path) (s : string) : Path :=
  let q := of_str s in
  if String.eqb (root q) "" then mkPath (root p) (parts p ++ parts q) else q.

(** The child path that [iterdir] builds for a directory entry: the
    entry's name becomes the last part as it is. *)
Definition make_child (p : Path) (entry : string) : Path :=
  mkPath (root p) (parts p ++ [entry]).

(** [p.name]: the last part, or [""] when there is none. *)
Definition name (p : Path) : string := last (parts p) "".

(** [p.parent]. *)
Definition parent (p : Path) : Path := mkPath (root p) (removelast (parts p)).

(** [p.suffix]: from the last dot of the name on, unless that dot is
    the first or the last character of the name. *)
Definition suffix (p : Path) : string :=
  let nm := name p in
  let i := Str.rfind dot nm in
  if (0 <? i)%Z && (i <? Z.of_nat (String.length nm) - 1)%Z
  then Str.drop (Z.to_nat i) nm
  else "".

(** [p.stem]: the name without its suffix. *)
Definition stem (p : Path) : string :=
  let nm := name p in
  let i := Str.rfind dot nm in
  if (0 <? i)%Z && (i <? Z.of_nat (String.length nm) - 1)%Z
  then Str.take (Z.to_nat i) nm
  else nm.

(** The sequence that path comparison looks at: the root, when there is
    one, then the parts. *)
Definition cparts (p : Path) : list string :=
  (if String.eqb (root p) "" then [] else [root p]) ++ parts p.

(** [p < q]. *)
Definition ltb (p q : Path) : bool := Str.list_ltb (cparts p) (cparts q).

(** [p == q]. *)
Definition eqb (p q : Path) : bool :=
  String.eqb (root p) (root q) &&
  (if list_eq_dec String.string_dec (parts p) (parts q) then true else false).

End PurePath.

Notation "p // s" := (PurePath.div p s) (at level 40, left associativity).

(** [sorted(l)] on paths.  Python's sort is stable and only asks
    [y < x]; so is this insertion sort. *)
Fixpoint insort (x : Path) (l : list Path) : list Path :=
  match l with
  | [] => [x]
  | y :: l' => if PurePath.ltb y x then y :: insort x l' else x :: y :: l'
  end.

Definition sorted (l : list Path) : list Path := fold_right insort [] l.

(** ** The world outside the script *)

Inductive Kind : Type := RegularFile | Directory.

(** A file system, as far as the script observes it: what a path
    resolves to, and the entry names a directory lists (in the order
    the operating system happens to give them). *)
Record FS : Type := mkFS {
  kind_of : Path -> option Kind;
  listdir : Path -> list string
}.

(** The exceptions that can travel through the script. *)
Inductive Exn : Type :=
| FileNotFoundError (msg : string)
| ValueError (msg : string)
| AttributeError (msg : string)
| NotADirectoryError (msg : string)
| FileExistsError (msg : string)
| OtherException (msg : string)
| KeyboardInterrupt.

(** [isinstance(e, Exception)]: everything here except
    [KeyboardInterrupt], which derives from [BaseException] only. *)
Definition is_Exception (e : Exn) : bool :=
  match e with
  | KeyboardInterrupt => false
  | _ => true
  end.

(** What [subprocess.run(..., check=False)] hands back. *)
Record CompletedProcess : Type := mkCompleted {
  returncode : Z;
  cp_stdout : string;
  cp_stderr : string
}.

Inductive Outcome : Type :=
| Returned (r : CompletedProcess)
| Raised (e : Exn).

(** The lines the script writes, one constructor per [print] call of
    the source (the text decoration is left out, the data is kept). *)
Inductive Line : Type :=
| FoundAt (p : Path)
| OutputPrepared (p : Path)
| Skipping (name : string)
| CommandLine (cmd : list string)
| SuccessLine (name output_filename : string)
| WarningLine (output_filename : string)
| StdoutTail (s : string)
| FailedLine (name : string)
| StderrLine (s : string)
| ErrorProcessing (name : string) (e : Exn)
| BatchHeader (total : nat)
| Processing (idx total : nat) (name : string)
| Summary (successful failed total : nat)
| ErrorLine (e : Exn)
| InterruptedLine
| UnexpectedLine (e : Exn)
| Traceback.

Record World : Type := mkWorld {
  fs : FS;
  printed : list Line;                        (* oldest first *)
  spawned : list (list string * string)       (* child processes: argv, cwd *)
}.

Record Env : Type := mkEnv {
  sys_executable : string;
  home : Path;                                 (* Path.home() *)
  cwd : Path;                                  (* Path.cwd() *)
  (** the external tool: its outcome and what it leaves on disk *)
  subprocess_run : FS -> list string -> string -> Outcome * FS;
  (** whether the user interrupts the pause that follows job [idx] *)
  sigint_in_sleep : nat -> bool
}.

(** ** The state-and-exception monad of the script *)

Inductive Result (A : Type) : Type :=
| Ok (a : A)
| Raise (e : Exn).
Arguments Ok {A} a.
Arguments Raise {A} e.

Definition M (A : Type) : Type := World -> Result A * World.

Definition ret {A} (a : A) : M A := fun w => (Ok a, w).

Definition bind {A B} (m : M A) (k : A -> M B) : M B :=
  fun w => match m w with
           | (Ok a, w') => k a w'
           | (Raise e, w') => (Raise e, w')
           end.

Definition raise {A} (e : Exn) : M A := fun w => (Raise e, w).

Notation "x <- m ;; k" := (bind m (fun x => k))
  (at level 61, m at next level, right associativity).
Notation "m ;;; k" := (bind m (fun _ => k))
  (at level 61, right associativity).

(** [try: body / except Exception as e: handler e]. *)
Definition try_except {A} (body : M A) (handler : Exn -> M A) : M A :=
  fun w => match body w with
           | (Ok a, w') => (Ok a, w')
           | (Raise e, w') =>
               if is_Exception e then handler e w' else (Raise e, w')
           end.

Definition print (l : Line) : M unit :=
  fun w => (Ok tt, mkWorld (fs w) (printed w ++ [l]) (spawned w)).

Definition when (b : bool) (m : M unit) : M unit := if b then m else ret tt.

(** *** File-system primitives *)

Definition exists_ (f : FS) (p : Path) : bool :=
  match kind_of f p with Some _ => true | None => false end.

Definition is_file (f : FS) (p : Path) : bool :=
  match kind_of f p with Some RegularFile => true | _ => false end.

Definition is_dir (f : FS) (p : Path) : bool :=
  match kind_of f p with Some Directory => true | _ => false end.

(** [list(p.iterdir())]. *)
Definition iterdir (f : FS) (p : Path) : Result (list Path) :=
  match kind_of f p with
  | None => Raise (FileNotFoundError (PurePath.str p))
  | Some RegularFile => Raise (NotADirectoryError (PurePath.str p))
  | Some Directory => Ok (map (PurePath.make_child p) (listdir f p))
  end.

Definition path_exists (p : Path) : M bool :=
  fun w => (Ok (exists_ (fs w) p), w).

Definition path_is_dir (p : Path) : M bool :=
  fun w => (Ok (is_dir (fs w) p), w).

Definition path_iterdir (p : Path) : M (list Path) :=
  fun w => (iterdir (fs w) p, w).

(** [os.mkdir(p)]: refused when [p] exists, when its parent is missing
    and when its parent is not a directory. *)
Definition os_mkdir (p : Path) : M unit :=
  fun w =>
    let f := fs w in
    match kind_of f p with
    | Some _ => (Raise (FileExistsError (PurePath.str p)), w)
    | None =>
        match kind_of f (PurePath.parent p) with
        | None => (Raise (FileNotFoundError (PurePath.str p)), w)
        | Some RegularFile => (Raise (NotADirectoryError (PurePath.str p)), w)
        | Some Directory =>
            (Ok tt,
             mkWorld
               (mkFS
                  (fun q => if PurePath.eqb q p then Some Directory else kind_of f q)
                  (fun q => if PurePath.eqb q (PurePath.parent p)
                            then listdir f q ++ [PurePath.name p]
                            else listdir f q))
               (printed w) (spawned w))
        end
    end.

(** The [except OSError] clause of [Path.mkdir] under [exist_ok=True]:
    the error is dropped when [p] is a directory after all. *)
Definition mkdir_exist_ok (p : Path) (e : Exn) : M unit :=
  d <- path_is_dir p ;;
  if d then ret tt else raise e.

(** [p.mkdir(parents=False, exist_ok=True)]. *)
Definition mkdir_plain (p : Path) : M unit :=
  fun w => match os_mkdir p w with
           | (Ok u, w') => (Ok u, w')
           | (Raise (FileNotFoundError m), w') => (Raise (FileNotFoundError m), w')
           | (Raise e, w') => mkdir_exist_ok p e w'
           end.

(** [p.mkdir(parents=True, exist_ok=True)]: a missing parent is made
    first, by the same call on [p.parent], and [p] is then made by the
    plain call; [n] bounds the depth of that recursion, the number of
    parts of [p] being enough. *)
Fixpoint mkdir_parents (n : nat) (p : Path) : M unit :=
  fun w => match os_mkdir p w with
           | (Ok u, w') => (Ok u, w')
           | (Raise (FileNotFoundError m), w') =>
               if PurePath.eqb (PurePath.parent p) p
               then (Raise (FileNotFoundError m), w')
               else match n with
                    | O => (Raise (FileNotFoundError m), w')
                    | S n' =>
                        (mkdir_parents n' (PurePath.parent p) ;;;
                         mkdir_plain p) w'
                    end
           | (Raise e, w') => mkdir_exist_ok p e w'
           end.

Definition path_mkdir (p : Path) : M unit :=
  mkdir_parents (List.length (parts p)) p.

(** ** The script *)

(** The command-line arguments, as [argparse] hands them to [main]. *)
Record Args : Type := mkArgs {
  arg_source : string;
  arg_target_dir : string;
  arg_output_dir : string;
  arg_facefusion_path : option string;
  arg_execution_provider : string;
  arg_face_swapper_model : string;
  arg_verbose : bool
}.

Section Blocking.

Variable env : Env.

(** [subprocess.run(cmd, cwd=..., capture_output=True, text=True,
    check=False)]: the call is recorded, the tool acts on the file
    system, and its outcome is returned or raised. *)
Definition run_subprocess (cmd : list string) (dir : string) : M CompletedProcess :=
  fun w =>
    let '(o, f') := subprocess_run env (fs w) cmd dir in
    let w' := mkWorld f' (printed w) (spawned w ++ [(cmd, dir)]) in
    match o with
    | Returned r => (Ok r, w')
    | Raised e => (Raise e, w')
    end.

(** [time.sleep(0.5)] after job [idx]. *)
Definition time_sleep (idx : nat) : M unit :=
  if sigint_in_sleep env idx then raise KeyboardInterrupt else ret tt.

End Blocking.

Module FaceFusionBatch.

(** The instance while [__init__] is still assigning its attributes:
    an attribute that has not been assigned yet is absent. *)
Record Partial : Type := mkPartial {
  p_source_image : option Path;
  p_target_dir : option Path;
  p_output_dir : option Path;
  p_facefusion_path : option Path;
  p_execution_provider : option string;
  p_face_swapper_model : option string;
  p_verbose : option bool
}.

(** The instance once every attribute is assigned. *)
Record t : Type := mk {
  source_image : Path;
  target_dir : Path;
  output_dir : Path;
  facefusion_path : Path;
  execution_provider : string;
  face_swapper_model : string;
  verbose : bool
}.

Section Methods.

Variable env : Env.

(** [self.verbose] on a possibly incomplete instance. *)
Definition getattr_verbose (self : Partial) : M bool :=
  match p_verbose self with
  | Some b => ret b
  | None => raise (AttributeError
                     "'FaceFusionBatch' object has no attribute 'verbose'")
  end.

(** The candidates of [_find_facefusion], in the order of the source. *)
Definition possible_paths : list Path :=
  [ home env // "facefusion";
    cwd env // "facefusion";
    PurePath.of_str "/opt/facefusion";
    home env // "projects" // "facefusion" ].

Definition not_found_message : string :=
  "FaceFusion installation not found. Please specify the path using --facefusion-path or "
  ++ "install it in one of the default locations: ~/facefusion, ./facefusion, /opt/facefusion".

(** The [for] loop of [_find_facefusion] followed by its [raise]. *)
Fixpoint find_loop (self : Partial) (candidates : list Path) : M Path :=
  match candidates with
  | [] => raise (FileNotFoundError not_found_message)
  | path :: rest =>
      e1 <- path_exists path ;;
      e2 <- (if e1 then path_exists (path // "facefusion.py") else ret false) ;;
      if e2 then
        v <- getattr_verbose self ;;
        when v (print (FoundAt path)) ;;;
        ret path
      else find_loop self rest
  end.

Definition _find_facefusion (self : Partial) : M Path :=
  find_loop self possible_paths.

Definition image_extensions : list string :=
  [".jpg"; ".jpeg"; ".png"; ".bmp"; ".tiff"; ".webp"].

(** [x in image_extensions]. *)
Definition in_extensions (x : string) : bool :=
  existsb (String.eqb x) image_extensions.

(** The body of the loop of [_get_target_images] on the entries. *)
Definition keep_image (f : FS) (file : Path) : bool :=
  is_file f file && in_extensions (Str.lower (PurePath.suffix file)).

Definition _get_target_images (self : t) : M (list Path) :=
  files <- path_iterdir (target_dir self) ;;
  fun w => (Ok (sorted (filter (keep_image (fs w)) files)), w).

Definition _validate_inputs (self : t) : M unit :=
  e1 <- path_exists (source_image self) ;;
  if negb e1 then
    raise (FileNotFoundError
             ("Source image not found: " ++ PurePath.str (source_image self)))
  else
  e2 <- path_exists (target_dir self) ;;
  if negb e2 then
    raise (FileNotFoundError
             ("Target directory not found: " ++ PurePath.str (target_dir self)))
  else
  e3 <- path_exists (facefusion_path self // "facefusion.py") ;;
  if negb e3 then
    raise (FileNotFoundError
             ("facefusion.py not found in: " ++ PurePath.str (facefusion_path self)))
  else
  target_images <- _get_target_images self ;;
  match target_images with
  | [] => raise (ValueError
                   ("No valid image files found in target directory: "
                    ++ PurePath.str (target_dir self)))
  | _ :: _ => ret tt
  end.

Definition _prepare_output_dir (self : t) : M unit :=
  path_mkdir (output_dir self) ;;;
  when (verbose self) (print (OutputPrepared (output_dir self))).

(** [__init__], assignment by assignment. *)
Definition __init__ (a : Args) : M t :=
  let self1 := mkPartial (Some (PurePath.of_str (arg_source a)))
                         None None None None None None in
  let self2 := mkPartial (p_source_image self1)
                         (Some (PurePath.of_str (arg_target_dir a)))
                         None None None None None in
  let self3 := mkPartial (p_source_image self2) (p_target_dir self2)
                         (Some (PurePath.of_str (arg_output_dir a)))
                         None None None None in
  ffp <- match arg_facefusion_path a with
         | Some s =>
             (* an empty string is falsy, like [None] *)
             if String.eqb s "" then _find_facefusion self3
             else ret (PurePath.of_str s)
         | None => _find_facefusion self3
         end ;;
  let self := mk (PurePath.of_str (arg_source a))
                 (PurePath.of_str (arg_target_dir a))
                 (PurePath.of_str (arg_output_dir a))
                 ffp
                 (arg_execution_provider a)
                 (arg_face_swapper_model a)
                 (arg_verbose a) in
  _validate_inputs self ;;;
  _prepare_output_dir self ;;;
  ret self.

Definition _build_command (self : t) (target_image output_path : Path) : list string :=
  let cmd :=
    [ sys_executable env;
      PurePath.str (facefusion_path self // "facefusion.py");
      "headless-run";
      "--source"; PurePath.str (source_image self);
      "--target"; PurePath.str target_image;
      "--output"; PurePath.str output_path;
      "--processors"; "face_swapper";
      "--face-swapper-model"; face_swapper_model self;
      "--execution-providers"; execution_provider self;
      "--skip-download" ] in
  if String.eqb (execution_provider self) "cuda"
  then cmd ++ ["--execution-device-id"; "0"]
  else cmd.

Definition output_filename (self : t) (target_image : Path) : string :=
  PurePath.stem (source_image self) ++ "_to_"
  ++ PurePath.stem target_image ++ PurePath.suffix target_image.

Definition output_path (self : t) (target_image : Path) : Path :=
  output_dir self // output_filename self target_image.

Definition process_single_image (self : t) (target_image : Path) : M bool :=
  let output_filename := output_filename self target_image in
  let output_path := output_path self target_image in
  ex <- path_exists output_path ;;
  if ex && negb (verbose self) then
    print (Skipping (PurePath.name target_image)) ;;;
    ret true
  else
    let cmd := _build_command self target_image output_path in
    when (verbose self) (print (CommandLine cmd)) ;;;
    try_except
      (result <- run_subprocess env cmd (PurePath.str (facefusion_path self)) ;;
       if (returncode result =? 0)%Z then
         ex' <- path_exists output_path ;;
         if ex' then
           print (SuccessLine (PurePath.name target_image) output_filename) ;;;
           ret true
         else
           print (WarningLine output_filename) ;;;
           when (verbose self && negb (String.eqb (cp_stdout result) ""))
                (print (StdoutTail
                          (Str.drop (String.length (cp_stdout result) - 500)
                                    (cp_stdout result)))) ;;;
           ret false
       else
         print (FailedLine (PurePath.name target_image)) ;;;
         when (verbose self) (print (StderrLine (cp_stderr result))) ;;;
         ret false)
      (fun e =>
         print (ErrorProcessing (PurePath.name target_image) e) ;;;
         ret false).

(** The [for] loop of [process_batch]: [idx] is the 1-based index of the
    head of [targets]. *)
Fixpoint batch_loop (self : t) (total idx : nat) (targets : list Path)
         (successful failed : nat) : M (nat * nat) :=
  match targets with
  | [] => ret (successful, failed)
  | target_image :: rest =>
      print (Processing idx total (PurePath.name target_image)) ;;;
      ok <- process_single_image self target_image ;;
      let successful' := if ok then S successful else successful in
      let failed' := if ok then failed else S failed in
      when (idx <? total)%nat (time_sleep env idx) ;;;
      batch_loop self total (S idx) rest successful' failed'
  end.

Definition process_batch (self : t) : M (nat * nat) :=
  target_images <- _get_target_images self ;;
  let total := List.length target_images in
  print (BatchHeader total) ;;;
  r <- batch_loop self total 1 target_images 0 0 ;;
  print (Summary (fst r) (snd r) total) ;;;
  ret r.

End Methods.

End FaceFusionBatch.

Section Main.

Variable env : Env.

(** [main] after argument parsing: the exit status and the final world. *)
Definition main (a : Args) (w : World) : Z * World :=
  match (processor <- FaceFusionBatch.__init__ env a ;;
         FaceFusionBatch.process_batch env processor) w with
  | (Ok (successful, failed), w') =>
      ((if (failed =? 0)%nat then 0 else 1)%Z, w')
  | (Raise e, w') =>
      match e with
      | FileNotFoundError _ | ValueError _ =>
          (1%Z, snd (print (ErrorLine e) w'))
      | KeyboardInterrupt =>
          (130%Z, snd (print InterruptedLine w'))
      | _ =>
          (1%Z, snd ((print (UnexpectedLine e) ;;;
                      when (arg_verbose a) (print Traceback)) w'))
      end
  end.

End Main.

(** ** Vocabulary of the specification *)

(** The six supported extensions, as the specification names them. *)
Definition supported_extensions : list string :=
  ["jpg"; "jpeg"; "png"; "bmp"; "tiff"; "webp"].

(** The extension of [p], compared without regard to case, is one of
    the supported ones. *)
Definition has_supported_extension (p : Path) : Prop :=
  exists e, In e supported_extensions
            /\ Str.lower (PurePath.suffix p) = ("." ++ e)%string.

(** [a] may stand before [b] in a list sorted with [<] on paths. *)
Definition path_le (a b : Path) : Prop := PurePath.ltb b a = false.

(** [a]'s file name is lexicographically at most [b]'s. *)
Definition name_le (a b : Path) : Prop :=
  String.leb (PurePath.name a) (PurePath.name b) = true.

(** How the job runner's result follows from the tool's outcome and
    from whether the output file exists afterwards. *)
Definition classify (o : Outcome) (output_exists : bool) : Result bool :=
  match o with
  | Returned r => Ok ((returncode r =? 0)%Z && output_exists)
  | Raised e => if is_Exception e then Ok false else Raise e
  end.

(** The names on the [Processing] lines of a transcript, in order. *)
Definition processing_names (ls : list Line) : list string :=
  flat_map (fun l => match l with Processing _ _ n => [n] | _ => [] end) ls.

(** The user never interrupts: neither the tool nor the pauses end in
    [KeyboardInterrupt]. *)
Definition uninterrupted (env : Env) : Prop :=
  (forall f cmd dir, fst (subprocess_run env f cmd dir) <> Raised KeyboardInterrupt)
  /\ (forall idx, sigint_in_sleep env idx = false).

(** The locator's test on one candidate: it exists and holds the
    entry point. *)
Definition installed (f : FS) (c : Path) : bool :=
  exists_ f c && exists_ f (c // "facefusion.py").

(** The installation path given on the command line, when it counts as
    given. *)
Definition explicit_path (a : Args) : option Path :=
  match arg_facefusion_path a with
  | Some s => if String.eqb s "" then None else Some (PurePath.of_str s)
  | None => None
  end.

(** The instance [__init__] builds from the arguments once the
    installation path is known. *)
Definition instance_of (a : Args) (ffp : Path) : FaceFusionBatch.t :=
  FaceFusionBatch.mk (PurePath.of_str (arg_source a))
                     (PurePath.of_str (arg_target_dir a))
                     (PurePath.of_str (arg_output_dir a))
                     ffp
                     (arg_execution_provider a)
                     (arg_face_swapper_model a)
                     (arg_verbose a).

Definition no_verbose_attribute : Exn :=
  AttributeError "'FaceFusionBatch' object has no attribute 'verbose'".

(** ** A concrete world, for evaluating the script *)

Module Demo.

(** A file system given by two tables keyed by [str(p)]. *)
Definition table_fs (nodes : list (string * Kind))
           (listing : list (string * list string)) : FS :=
  mkFS
    (fun p => option_map snd
                (find (fun e => String.eqb (fst e) (PurePath.str p)) nodes))
    (fun p => match find (fun e => String.eqb (fst e) (PurePath.str p)) listing with
              | Some e => snd e
              | None => []
              end).

Definition nodes : list (string * Kind) :=
  [ (".", Directory);
    ("face.jpg", RegularFile);
    ("targets", Directory);
    ("targets/b.PNG", RegularFile);
    ("targets/notes.txt", RegularFile);
    ("targets/sub.jpg", Directory);
    ("targets/a.jpg", RegularFile);
    ("pics", Directory);
    ("pics/notes.txt", RegularFile);
    ("pics/b.png", RegularFile);
    ("pics/a.jpg", RegularFile);
    ("done", Directory);
    ("done/face_to_a.jpg", RegularFile);
    ("done/face_to_b.png", RegularFile);
    ("empty", Directory);
    ("empty/notes.txt", RegularFile);
    ("/opt/ff", Directory);
    ("/opt/ff/facefusion.py", RegularFile) ].

Definition listing : list (string * list string) :=
  [ ("targets", ["b.PNG"; "notes.txt"; "sub.jpg"; "a.jpg"]);
    ("pics", ["notes.txt"; "b.png"; "a.jpg"]);
    ("done", ["face_to_b.png"; "face_to_a.jpg"]);
    ("empty", ["notes.txt"]) ].

Definition disk : FS := table_fs nodes listing.

(** The same disk with the tool installed in the home directory. *)
Definition disk_home : FS :=
  table_fs (("/home/u/facefusion", Directory)
            :: ("/home/u/facefusion/facefusion.py", RegularFile) :: nodes)
           listing.

(** [f] with a regular file written at [p]. *)
Definition write_file (f : FS) (p : Path) : FS :=
  mkFS (fun q => if PurePath.eqb q p then Some RegularFile else kind_of f q)
       (listdir f).

(** A stand-in for the tool: it writes the file named after [--output]
    and exits 0, except that it exits 1 on targets named [b.PNG] and
    exits 0 without writing anything when the model is [silent]. *)
Definition stub_tool (f : FS) (cmd : list string) (dir : string) : Outcome * FS :=
  if Str.contains "b.PNG" (nth 6 cmd "")
  then (Returned (mkCompleted 1 "" "boom"), f)
  else if String.eqb (nth 12 cmd "") "silent"
  then (Returned (mkCompleted 0 "" ""), f)
  else (Returned (mkCompleted 0 "" ""), write_file f (PurePath.of_str (nth 8 cmd ""))).

(** A tool that cannot even be launched. *)
Definition broken_tool (f : FS) (cmd : list string) (dir : string) : Outcome * FS :=
  (Raised (OtherException "[Errno 13] Permission denied"), f).

(** A run that the user interrupts during the first job. *)
Definition interrupted_tool (f : FS) (cmd : list string) (dir : string) : Outcome * FS :=
  (Raised KeyboardInterrupt, f).

Definition home_u : Path := PurePath.of_str "/home/u".
Definition work : Path := PurePath.of_str "/work".

Definition env : Env :=
  mkEnv "/usr/bin/python3" home_u work stub_tool (fun _ => false).

Definition env_broken : Env :=
  mkEnv "/usr/bin/python3" home_u work broken_tool (fun _ => false).

Definition env_interrupted : Env :=
  mkEnv "/usr/bin/python3" home_u work interrupted_tool (fun _ => false).

Definition world (f : FS) : World := mkWorld f [] [].

Definition args : Args :=
  mkArgs "face.jpg" "targets" "out" (Some "/opt/ff") "cpu" "inswapper_128" false.

Definition args_auto : Args :=
  mkArgs "face.jpg" "targets" "out" None "cpu" "inswapper_128" false.

Definition args_pics : Args :=
  mkArgs "face.jpg" "pics" "out" (Some "/opt/ff") "cpu" "inswapper_128" false.

Definition args_done : Args :=
  mkArgs "face.jpg" "pics" "done" (Some "/opt/ff") "cpu" "inswapper_128" false.

Definition args_empty : Args :=
  mkArgs "face.jpg" "empty" "out" (Some "/opt/ff") "cpu" "inswapper_128" false.

Definition self_done : FaceFusionBatch.t :=
  FaceFusionBatch.mk (PurePath.of_str "face.jpg") (PurePath.of_str "pics")
                     (PurePath.of_str "done") (PurePath.of_str "/opt/ff")
                     "cpu" "inswapper_128" false.

Definition self_done_verbose : FaceFusionBatch.t :=
  FaceFusionBatch.mk (PurePath.of_str "face.jpg") (PurePath.of_str "pics")
                     (PurePath.of_str "done") (PurePath.of_str "/opt/ff")
                     "cpu" "inswapper_128" true.

Definition self : FaceFusionBatch.t :=
  FaceFusionBatch.mk (PurePath.of_str "face.jpg") (PurePath.of_str "targets")
                     (PurePath.of_str "out") (PurePath.of_str "/opt/ff")
                     "cpu" "inswapper_128" false.

Definition self_cuda : FaceFusionBatch.t :=
  FaceFusionBatch.mk (PurePath.of_str "face.jpg") (PurePath.of_str "targets")
                     (PurePath.of_str "out") (PurePath.of_str "/opt/ff")
                     "cuda" "inswapper_128" false.

Definition self_silent : FaceFusionBatch.t :=
  FaceFusionBatch.mk (PurePath.of_str "face.jpg") (PurePath.of_str "targets")
                     (PurePath.of_str "out") (PurePath.of_str "/opt/ff")
                     "cpu" "silent" false.

Definition self_verbose : FaceFusionBatch.t :=
  FaceFusionBatch.mk (PurePath.of_str "face.jpg") (PurePath.of_str "targets")
                     (PurePath.of_str "out") (PurePath.of_str "/opt/ff")
                     "cpu" "inswapper_128" true.

End Demo.

(** ** Vocabulary of the further properties *)

(** [s] holds no path separator. *)
Fixpoint no_slash (s : string) : bool :=
  match s with
  | EmptyString => true
  | String a s' => negb (Ascii.eqb a PurePath.slash) && no_slash s'
  end.

(** [s] holds no dot. *)
Fixpoint no_dot (s : string) : bool :=
  match s with
  | EmptyString => true
  | String a s' => negb (Ascii.eqb a PurePath.dot) && no_dot s'
  end.

(** The child process the job runner spawns for [target]: the built
    command and the working directory. *)
Definition job (env : Env) (self : FaceFusionBatch.t) (target : Path)
  : list string * string :=
  (FaceFusionBatch._build_command env self target
     (FaceFusionBatch.output_path self target),
   PurePath.str (FaceFusionBatch.facefusion_path self)).

(** The tool leaves the disk as it finds it. *)
Definition tool_writes_nothing (env : Env) : Prop :=
  forall f cmd dir, snd (subprocess_run env f cmd dir) = f.

(** The tool does its work for each of the [targets] of [self],
    whatever the disk: it exits 0 and the output file of that target
    exists afterwards. *)
Definition tool_reliable (env : Env) (self : FaceFusionBatch.t)
           (targets : list Path) : Prop :=
  forall f t,
    In t targets ->
    exists r f',
      subprocess_run env f (fst (job env self t)) (snd (job env self t))
      = (Returned r, f')
      /\ returncode r = 0%Z
      /\ exists_ f' (FaceFusionBatch.output_path self t) = true.

(** The number of jobs that returned [True], and of those that
    returned [False]. *)
Definition successes (results : list bool) : nat :=
  List.length (filter (fun b => b) results).

Definition failures (results : list bool) : nat :=
  List.length (filter negb results).

(** A run of the batch loop over [targets] in which every job returns:
    job by job, [process_single_image] is called on the next target in
    the world the previous job left (after the line that announces it),
    returns [ok], and the pause that follows it, if there is one, is not
    interrupted.  [results] lists what the jobs returned, [w'] is the
    world after the last of them. *)
Inductive batch_run (env : Env) (self : FaceFusionBatch.t) (total : nat)
  : nat -> list Path -> World -> list bool -> World -> Prop :=
| batch_run_nil : forall idx w,
    batch_run env self total idx [] w [] w
| batch_run_cons : forall idx t rest w ok w2 results w',
    FaceFusionBatch.process_single_image env self t
      (mkWorld (fs w)
               (printed w ++ [Processing idx total (PurePath.name t)])
               (spawned w))
    = (Ok ok, w2) ->
    ((idx <? total)%nat = true -> sigint_in_sleep env idx = false) ->
    batch_run env self total (S idx) rest w2 results w' ->
    batch_run env self total idx (t :: rest) w (ok :: results) w'.

(** The world in which the loop of [process_batch] starts: the header
    is printed. *)
Definition after_header (w : World) (total : nat) : World :=
  mkWorld (fs w) (printed w ++ [BatchHeader total]) (spawned w).

(** The world [process_batch] returns: the summary is printed. *)
Definition after_summary (w : World) (s f total : nat) : World :=
  mkWorld (fs w) (printed w ++ [Summary s f total]) (spawned w).

(** The elements of [l] at the positions where [mask] holds [true], in
    order; positions beyond the end of [mask] are left out. *)
Fixpoint select {A} (mask : list bool) (l : list A) : list A :=
  match mask, l with
  | b :: mask', x :: l' => if b then x :: select mask' l' else select mask' l'
  | _, _ => []
  end.

(** * Properties *)

(** ** Strings and paths *)

Section StrFacts.

Lemma take_drop (n : nat) (s : string) : (Str.take n s ++ Str.drop n s)%string = s.
Proof.
  revert s; induction n as [|n IH]; intros [|a s]; simpl; try reflexivity.
  now rewrite IH.
Qed.

Lemma append_cancel_l (s a b : string) : (s ++ a)%string = (s ++ b)%string -> a = b.
Proof.
  induction s as [|c s IH]; simpl; intros H; [exact H|].
  injection H as H; auto.
Qed.

Lemma append_nil_r (s : string) : (s ++ "")%string = s.
Proof. induction s; simpl; congruence. Qed.

Lemma compare_refl (s : string) : String.compare s s = Eq.
Proof.
  pose proof (String.compare_antisym s s) as H.
  destruct (String.compare s s); simpl in H; congruence.
Qed.

Lemma ascii_compare_Lt (a b : ascii) :
  Ascii.compare a b = Lt <-> (N_of_ascii a < N_of_ascii b)%N.
Proof. unfold Ascii.compare. apply N.compare_lt_iff. Qed.

Lemma ascii_compare_Gt (a b : ascii) :
  Ascii.compare a b = Gt <-> (N_of_ascii b < N_of_ascii a)%N.
Proof. unfold Ascii.compare. apply N.compare_gt_iff. Qed.

Lemma leb_trans (a b c : string) :
  String.leb a b = true -> String.leb b c = true -> String.leb a c = true.
Proof.
  unfold String.leb.
  revert b c; induction a as [|x a IH]; intros [|y b] [|z c]; simpl;
    try congruence.
  destruct (Ascii.compare x y) eqn:Exy; try congruence;
    destruct (Ascii.compare y z) eqn:Eyz; try congruence;
    destruct (Ascii.compare x z) eqn:Exz; try congruence; intros H1 H2;
    repeat match goal with
           | H : Ascii.compare _ _ = Eq |- _ =>
               apply Ascii.compare_eq_iff in H; subst
           end;
    repeat match goal with
           | H : Ascii.compare _ _ = Lt |- _ =>
               apply (proj1 (ascii_compare_Lt _ _)) in H
           | H : Ascii.compare _ _ = Gt |- _ =>
               apply (proj1 (ascii_compare_Gt _ _)) in H
           end;
    try lia; try (eapply IH; eassumption).
Qed.

Lemma ltb_false_leb (x y : string) :
  String.ltb y x = false <-> String.leb x y = true.
Proof.
  unfold String.ltb, String.leb. rewrite (String.compare_antisym x y).
  destruct (String.compare y x); simpl; split; congruence.
Qed.

Lemma list_ltb_asym (a b : list string) :
  Str.list_ltb a b = true -> Str.list_ltb b a = false.
Proof.
  revert b; induction a as [|x a IH]; intros [|y b]; simpl; try congruence.
  rewrite (String.compare_antisym y x).
  destruct (String.compare x y); simpl; auto; congruence.
Qed.

Lemma list_ltb_common_prefix (pre : list string) (x y : string) :
  Str.list_ltb (pre ++ [x]) (pre ++ [y]) = String.ltb x y.
Proof.
  induction pre as [|c pre IH]; simpl.
  - unfold String.ltb. now destruct (String.compare x y).
  - now rewrite compare_refl.
Qed.

End StrFacts.

Section PathFacts.

Lemma stem_suffix (p : Path) :
  (PurePath.stem p ++ PurePath.suffix p)%string = PurePath.name p.
Proof.
  unfold PurePath.stem, PurePath.suffix.
  destruct (_ && _).
  - apply take_drop.
  - apply append_nil_r.
Qed.

Lemma name_make_child (d : Path) (n : string) :
  PurePath.name (PurePath.make_child d n) = n.
Proof. unfold PurePath.name, PurePath.make_child; simpl. apply last_last. Qed.

Lemma ltb_siblings (d : Path) (x y : string) :
  PurePath.ltb (PurePath.make_child d x) (PurePath.make_child d y)
  = String.ltb x y.
Proof.
  unfold PurePath.ltb, PurePath.cparts, PurePath.make_child; simpl.
  rewrite !app_assoc. apply list_ltb_common_prefix.
Qed.

End PathFacts.

(** ** [sorted] *)

Section SortedFacts.

Lemma insort_perm (x : Path) (l : list Path) : Permutation (x :: l) (insort x l).
Proof.
  induction l as [|y l IH]; simpl; [reflexivity|].
  destruct (PurePath.ltb y x); [|reflexivity].
  rewrite perm_swap. now constructor.
Qed.

Lemma sorted_perm (l : list Path) : Permutation l (sorted l).
Proof.
  induction l as [|x l IH]; simpl; [constructor|].
  rewrite <- insort_perm. now constructor.
Qed.

Lemma insort_HdRel (a x : Path) (l : list Path) :
  path_le a x -> HdRel path_le a l -> HdRel path_le a (insort x l).
Proof.
  intros Hax Hl. destruct l as [|y l]; simpl; [now constructor|].
  destruct (PurePath.ltb y x); constructor; auto.
  now inversion Hl.
Qed.

Lemma insort_Sorted (x : Path) (l : list Path) :
  Sorted path_le l -> Sorted path_le (insort x l).
Proof.
  induction 1 as [|y l Hs IH Hhd]; simpl.
  - repeat constructor.
  - destruct (PurePath.ltb y x) eqn:E.
    + constructor; [exact IH|].
      apply insort_HdRel; [|exact Hhd].
      unfold path_le, PurePath.ltb in *. now apply list_ltb_asym.
    + repeat constructor; auto.
Qed.

Lemma sorted_Sorted (l : list Path) : Sorted path_le (sorted l).
Proof.
  induction l as [|x l IH]; simpl; [constructor|]. now apply insort_Sorted.
Qed.

Lemma Sorted_weaken (R R' : Path -> Path -> Prop) (l : list Path) :
  (forall a b, In a l -> In b l -> R a b -> R' a b) ->
  Sorted R l -> Sorted R' l.
Proof.
  intros Himp Hs. induction Hs as [|x l Hs IH Hhd]; constructor.
  - apply IH. intros a b Ha Hb. apply Himp; now right.
  - destruct Hhd as [|y l Hxy]; constructor.
    apply Himp; simpl; auto.
Qed.

Lemma name_le_trans : Relations_1.Transitive name_le.
Proof. intros a b c. unfold name_le. apply leb_trans. Qed.

(** Sorting the children of one directory sorts them by name. *)
Lemma sorted_siblings (d : Path) (l : list Path) :
  (forall p, In p l -> exists n, p = PurePath.make_child d n) ->
  StronglySorted name_le (sorted l).
Proof.
  intros Hch. apply Sorted_StronglySorted; [exact name_le_trans|].
  apply Sorted_weaken with (R := path_le); [|apply sorted_Sorted].
  intros a b Ha Hb Hab.
  apply (Permutation_in _ (Permutation_sym (sorted_perm l))) in Ha, Hb.
  destruct (Hch _ Ha) as [na ->], (Hch _ Hb) as [nb ->].
  unfold path_le, name_le in *.
  rewrite ltb_siblings in Hab. rewrite !name_make_child.
  now apply ltb_false_leb.
Qed.

End SortedFacts.

(** ** The output file name (job runner) *)

Section OutputName.

Lemma output_filename_name (self : FaceFusionBatch.t) (target : Path) :
  FaceFusionBatch.output_filename self target
  = (PurePath.stem (FaceFusionBatch.source_image self) ++ "_to_"
     ++ PurePath.name target)%string.
Proof.
  unfold FaceFusionBatch.output_filename. now rewrite stem_suffix.
Qed.

Lemma stem_of_name (p q : Path) :
  PurePath.name p = PurePath.name q -> PurePath.stem p = PurePath.stem q.
Proof. unfold PurePath.stem. now intros ->. Qed.

Lemma output_filename_inj (self : FaceFusionBatch.t) (t1 t2 : Path) :
  FaceFusionBatch.output_filename self t1 = FaceFusionBatch.output_filename self t2 ->
  PurePath.name t1 = PurePath.name t2.
Proof.
  rewrite !output_filename_name. intros H.
  apply append_cancel_l in H. now apply (append_cancel_l "_to_") in H.
Qed.

End OutputName.

(** C1: for every source and target path the job runner's output file
    name is the source stem, then ["_to_"], then the target stem, then
    the target extension, and the path it checks and hands to the tool
    is that name under the output directory; source [s.jpg] and target
    [t.png] give [s_to_t.png]; the name depends on the source and the
    target path only, and two targets with distinct stems never get
    the same name. *)
Theorem C1_output_filename :
  (forall (self : FaceFusionBatch.t) (target : Path),
      FaceFusionBatch.output_filename self target
      = (PurePath.stem (FaceFusionBatch.source_image self) ++ "_to_"
         ++ PurePath.stem target ++ PurePath.suffix target)%string
      /\ FaceFusionBatch.output_path self target
         = FaceFusionBatch.output_dir self
           // (PurePath.stem (FaceFusionBatch.source_image self) ++ "_to_"
               ++ PurePath.stem target ++ PurePath.suffix target)%string)
  /\ (forall (td od ff : Path) (prov model : string) (v : bool),
         FaceFusionBatch.output_filename
           (FaceFusionBatch.mk (PurePath.of_str "s.jpg") td od ff prov model v)
           (PurePath.of_str "t.png")
         = "s_to_t.png")
  /\ (forall (src td od ff td' od' ff' : Path) (prov model prov' model' : string)
             (v v' : bool) (t : Path),
         FaceFusionBatch.output_filename
           (FaceFusionBatch.mk src td od ff prov model v) t
         = FaceFusionBatch.output_filename
             (FaceFusionBatch.mk src td' od' ff' prov' model' v') t)
  /\ (forall (self : FaceFusionBatch.t) (t1 t2 : Path),
         PurePath.stem t1 <> PurePath.stem t2 ->
         FaceFusionBatch.output_filename self t1
         <> FaceFusionBatch.output_filename self t2).
Proof.
  repeat split.
  intros self t1 t2 Hne Heq. apply Hne, stem_of_name.
  now apply (output_filename_inj self).
Qed.

Lemma C1_output_filename_witness :
  FaceFusionBatch.output_filename Demo.self (PurePath.of_str "targets/a.jpg")
  <> FaceFusionBatch.output_filename Demo.self (PurePath.of_str "targets/b.PNG").
Proof.
  apply (proj2 (proj2 (proj2 C1_output_filename))).
  vm_compute. discriminate.
Defined.

(** ** The command builder *)

(** C6: the command is a function of the installation path, the
    source, the target, the output, the provider and the model (and of
    the interpreter path); its first sixteen arguments are, in order,
    the interpreter, the entry point, [headless-run], [--source] and
    the source, [--target] and the target, [--output] and the output,
    [--processors face_swapper], the model, the provider and
    [--skip-download]; what follows them is [--execution-device-id 0]
    when the provider is ["cuda"] and nothing for any other provider;
    no other attribute of the instance enters the command. *)
Theorem C6_build_command (env : Env) (self : FaceFusionBatch.t)
        (target_image output_path : Path) :
  let cmd := FaceFusionBatch._build_command env self target_image output_path in
  firstn 16 cmd
  = [ sys_executable env;
      PurePath.str (FaceFusionBatch.facefusion_path self // "facefusion.py");
      "headless-run";
      "--source"; PurePath.str (FaceFusionBatch.source_image self);
      "--target"; PurePath.str target_image;
      "--output"; PurePath.str output_path;
      "--processors"; "face_swapper";
      "--face-swapper-model"; FaceFusionBatch.face_swapper_model self;
      "--execution-providers"; FaceFusionBatch.execution_provider self;
      "--skip-download" ]
  /\ (FaceFusionBatch.execution_provider self = "cuda" ->
      skipn 16 cmd = ["--execution-device-id"; "0"])
  /\ (FaceFusionBatch.execution_provider self <> "cuda" ->
      skipn 16 cmd = [] /\ List.length cmd = 16%nat)
  /\ (forall (td od td' od' : Path) (v v' : bool),
         FaceFusionBatch._build_command env
           (FaceFusionBatch.mk (FaceFusionBatch.source_image self) td od
              (FaceFusionBatch.facefusion_path self)
              (FaceFusionBatch.execution_provider self)
              (FaceFusionBatch.face_swapper_model self) v)
           target_image output_path
         = FaceFusionBatch._build_command env
             (FaceFusionBatch.mk (FaceFusionBatch.source_image self) td' od'
                (FaceFusionBatch.facefusion_path self)
                (FaceFusionBatch.execution_provider self)
                (FaceFusionBatch.face_swapper_model self) v')
             target_image output_path).
Proof.
  unfold FaceFusionBatch._build_command; cbv zeta.
  destruct (String.eqb_spec (FaceFusionBatch.execution_provider self) "cuda")
    as [E|E]; (split; [reflexivity|]).
  - split; [reflexivity|]. split; [congruence|reflexivity].
  - split; [congruence|]. split; [auto|reflexivity].
Qed.

Lemma C6_build_command_witness :
  skipn 16 (FaceFusionBatch._build_command Demo.env Demo.self_cuda
              (PurePath.of_str "targets/a.jpg") (PurePath.of_str "out/face_to_a.jpg"))
  = ["--execution-device-id"; "0"]
  /\ List.length (FaceFusionBatch._build_command Demo.env Demo.self
                    (PurePath.of_str "targets/a.jpg")
                    (PurePath.of_str "out/face_to_a.jpg")) = 16%nat.
Proof.
  split.
  - apply (proj1 (proj2 (C6_build_command Demo.env Demo.self_cuda _ _))).
    reflexivity.
  - apply (proj1 (proj2 (proj2 (C6_build_command Demo.env Demo.self _ _)))).
    vm_compute. discriminate.
Defined.

(** ** The target enumerator *)

Section Enumerator.

Lemma in_extensions_spec (x : string) :
  FaceFusionBatch.in_extensions x = true
  <-> exists e, In e supported_extensions /\ x = ("." ++ e)%string.
Proof.
  unfold FaceFusionBatch.in_extensions, FaceFusionBatch.image_extensions,
    supported_extensions.
  rewrite existsb_exists. split.
  - intros [y [Hy Hxy]]. apply String.eqb_eq in Hxy. subst y.
    simpl in Hy.
    repeat (destruct Hy as [<-|Hy]; [eexists; split; [|reflexivity]; simpl; tauto|]).
    contradiction.
  - intros [e [He ->]]. exists ("." ++ e)%string.
    split; [|apply String.eqb_refl].
    simpl in He. simpl.
    repeat (destruct He as [<-|He]; [tauto|]). contradiction.
Qed.

Lemma keep_image_spec (f : FS) (p : Path) :
  FaceFusionBatch.keep_image f p = true
  <-> is_file f p = true /\ has_supported_extension p.
Proof.
  unfold FaceFusionBatch.keep_image, has_supported_extension.
  now rewrite andb_true_iff, in_extensions_spec.
Qed.

Lemma make_child_inj (d : Path) (n n' : string) :
  PurePath.make_child d n = PurePath.make_child d n' -> n = n'.
Proof.
  unfold PurePath.make_child. intros H. injection H as H.
  apply app_inv_head in H. congruence.
Qed.

Lemma NoDup_map_inj {A B} (f : A -> B) (l : list A) :
  (forall x y, f x = f y -> x = y) -> NoDup l -> NoDup (map f l).
Proof.
  intros Hinj. induction 1 as [|x l Hx Hnd IH]; simpl; constructor; auto.
  rewrite in_map_iff. intros [y [Hy Hin]]. apply Hinj in Hy. now subst.
Qed.

Lemma get_target_images_eq (self : FaceFusionBatch.t) (w : World) :
  is_dir (fs w) (FaceFusionBatch.target_dir self) = true ->
  FaceFusionBatch._get_target_images self w
  = (Ok (sorted (filter (FaceFusionBatch.keep_image (fs w))
                        (map (PurePath.make_child (FaceFusionBatch.target_dir self))
                             (listdir (fs w) (FaceFusionBatch.target_dir self))))),
     w).
Proof.
  unfold FaceFusionBatch._get_target_images, bind, path_iterdir, iterdir, is_dir.
  destruct (kind_of (fs w) (FaceFusionBatch.target_dir self)) as [[|]|];
    congruence.
Qed.

End Enumerator.

(** C3: on a target directory [D] the enumerator returns a list whose
    members are exactly the entries of [D] that are regular files and
    whose extension, lower-cased, is one of jpg, jpeg, png, bmp, tiff,
    webp (so subdirectories and other extensions are left out), each
    entry at most once; the list is sorted by file name; and a directory
    without entries gives the empty list rather than an error. *)
Theorem C3_get_target_images (self : FaceFusionBatch.t) (w : World) :
  is_dir (fs w) (FaceFusionBatch.target_dir self) = true ->
  exists l,
    FaceFusionBatch._get_target_images self w = (Ok l, w)
    /\ (forall p, In p l <->
                  (exists n, In n (listdir (fs w) (FaceFusionBatch.target_dir self))
                             /\ p = PurePath.make_child
                                      (FaceFusionBatch.target_dir self) n)
                  /\ is_file (fs w) p = true
                  /\ has_supported_extension p)
    /\ (NoDup (listdir (fs w) (FaceFusionBatch.target_dir self)) -> NoDup l)
    /\ StronglySorted name_le l
    /\ (listdir (fs w) (FaceFusionBatch.target_dir self) = [] -> l = []).
Proof.
  intros Hd. eexists. split; [apply get_target_images_eq, Hd|].
  set (D := FaceFusionBatch.target_dir self).
  set (raw := filter _ _).
  assert (Hraw : forall p, In p raw <->
            (exists n, In n (listdir (fs w) D) /\ p = PurePath.make_child D n)
            /\ is_file (fs w) p = true /\ has_supported_extension p).
  { intros p. unfold raw. rewrite filter_In, in_map_iff, keep_image_spec.
    split.
    - intros [[n [<- Hn]] Hk]. split; [exists n; auto|exact Hk].
    - intros [[n [Hn ->]] Hk]. split; [exists n; auto|exact Hk]. }
  split; [|split; [|split]].
  - intros p. rewrite <- Hraw. split; intros H.
    + eapply Permutation_in; [apply Permutation_sym, sorted_perm|exact H].
    + eapply Permutation_in; [apply sorted_perm|exact H].
  - intros Hnd. eapply Permutation_NoDup; [apply sorted_perm|].
    unfold raw. apply NoDup_filter.
    apply NoDup_map_inj; [|exact Hnd].
    intros n n'. apply make_child_inj.
  - apply sorted_siblings with (d := D).
    intros p Hp. apply Hraw in Hp. destruct Hp as [[n [_ ->]] _]. now exists n.
  - unfold raw. intros ->. reflexivity.
Qed.

Lemma C3_get_target_images_witness :
  exists l,
    FaceFusionBatch._get_target_images Demo.self (Demo.world Demo.disk) = (Ok l, Demo.world Demo.disk)
    /\ (forall p, In p l <->
                  (exists n, In n ["b.PNG"; "notes.txt"; "sub.jpg"; "a.jpg"]
                             /\ p = PurePath.make_child (PurePath.of_str "targets") n)
                  /\ is_file Demo.disk p = true
                  /\ has_supported_extension p)
    /\ (NoDup ["b.PNG"; "notes.txt"; "sub.jpg"; "a.jpg"] -> NoDup l)
    /\ StronglySorted name_le l
    /\ (["b.PNG"; "notes.txt"; "sub.jpg"; "a.jpg"] = [] -> l = []).
Proof.
  apply (C3_get_target_images Demo.self (Demo.world Demo.disk)).
  vm_compute. reflexivity.
Defined.

Example get_target_images_demo :
  fst (FaceFusionBatch._get_target_images Demo.self (Demo.world Demo.disk))
  = Ok [PurePath.of_str "targets/a.jpg"; PurePath.of_str "targets/b.PNG"].
Proof. reflexivity. Qed.

Example get_target_images_none_supported :
  fst (FaceFusionBatch._get_target_images
         (FaceFusionBatch.mk (PurePath.of_str "face.jpg") (PurePath.of_str "empty")
            (PurePath.of_str "out") (PurePath.of_str "/opt/ff") "cpu" "inswapper_128" false)
         (Demo.world Demo.disk))
  = Ok [].
Proof. reflexivity. Qed.

(** ** The job runner *)

Section JobRunner.

Variable env : Env.
Variable self : FaceFusionBatch.t.

Lemma processing_names_app (a b : list Line) :
  processing_names (a ++ b) = processing_names a ++ processing_names b.
Proof. unfold processing_names. apply flat_map_app. Qed.

(** The job is skipped: nothing is spawned, the disk is left alone. *)
Lemma process_single_image_skip (target : Path) (w : World) :
  exists_ (fs w) (FaceFusionBatch.output_path self target) = true ->
  FaceFusionBatch.verbose self = false ->
  FaceFusionBatch.process_single_image env self target w
  = (Ok true,
     mkWorld (fs w) (printed w ++ [Skipping (PurePath.name target)]) (spawned w)).
Proof.
  intros Hex Hv.
  unfold FaceFusionBatch.process_single_image, bind, path_exists.
  rewrite Hex, Hv. reflexivity.
Qed.

(** The job is run: exactly one child process, and the result follows
    [classify]. *)
Lemma process_single_image_run (target : Path) (w : World) (o : Outcome) (f' : FS) :
  exists_ (fs w) (FaceFusionBatch.output_path self target)
  && negb (FaceFusionBatch.verbose self) = false ->
  subprocess_run env (fs w)
    (FaceFusionBatch._build_command env self target
       (FaceFusionBatch.output_path self target))
    (PurePath.str (FaceFusionBatch.facefusion_path self)) = (o, f') ->
  exists lines,
    FaceFusionBatch.process_single_image env self target w
    = (classify o (exists_ f' (FaceFusionBatch.output_path self target)),
       mkWorld f' (printed w ++ lines)
               (spawned w ++
                  [(FaceFusionBatch._build_command env self target
                      (FaceFusionBatch.output_path self target),
                    PurePath.str (FaceFusionBatch.facefusion_path self))]))
    /\ processing_names lines = [].
Proof.
  intros Hskip Hrun.
  unfold FaceFusionBatch.process_single_image, bind at 1, path_exists.
  rewrite Hskip.
  unfold try_except, bind, run_subprocess, when, print, ret, path_exists; simpl.
  destruct (FaceFusionBatch.verbose self); simpl; rewrite Hrun;
    destruct o as [r|e]; simpl.
  all: try (destruct (returncode r =? 0)%Z; simpl;
            [destruct (exists_ f' _); simpl;
             [|try destruct (negb (cp_stdout r =? "")%string); simpl]|]).
  all: try (destruct e; simpl).
  all: rewrite <- ?app_assoc; simpl;
    first [ eexists; split; [reflexivity|reflexivity]
          | exists []; rewrite app_nil_r; split; reflexivity ].
Qed.

Lemma process_single_image_outcome (target : Path) (w : World) :
  exists (r : Result bool) (w' : World) (lines : list Line),
    FaceFusionBatch.process_single_image env self target w = (r, w')
    /\ printed w' = printed w ++ lines
    /\ processing_names lines = []
    /\ ((exists b, r = Ok b)
        \/ (r = Raise KeyboardInterrupt
            /\ exists cmd dir, fst (subprocess_run env (fs w) cmd dir)
                               = Raised KeyboardInterrupt)).
Proof.
  destruct (exists_ (fs w) (FaceFusionBatch.output_path self target)
            && negb (FaceFusionBatch.verbose self)) eqn:Hskip.
  - apply andb_true_iff in Hskip. destruct Hskip as [Hex Hv].
    apply negb_true_iff in Hv.
    rewrite (process_single_image_skip _ _ Hex Hv).
    do 3 eexists. split; [reflexivity|]. simpl.
    split; [reflexivity|]. split; [reflexivity|]. left. eauto.
  - destruct (subprocess_run env (fs w)
                (FaceFusionBatch._build_command env self target
                   (FaceFusionBatch.output_path self target))
                (PurePath.str (FaceFusionBatch.facefusion_path self)))
      as [o f'] eqn:Hrun.
    destruct (process_single_image_run _ _ _ _ Hskip Hrun) as [lines [-> Hl]].
    do 3 eexists. split; [reflexivity|]. simpl.
    split; [reflexivity|]. split; [exact Hl|].
    destruct o as [r|e]; simpl; [left; eauto|].
    destruct e; simpl; try (left; eauto; fail).
    right. split; [reflexivity|]. do 2 eexists. rewrite Hrun. reflexivity.
Qed.

End JobRunner.

(** ** The batch loop *)

Section BatchLoop.

Variable env : Env.
Variable self : FaceFusionBatch.t.

(** One turn of the loop. *)
Lemma batch_loop_cons (total idx : nat) (t : Path) (rest : list Path)
      (s f : nat) (w : World) :
  FaceFusionBatch.batch_loop env self total idx (t :: rest) s f w
  = match FaceFusionBatch.process_single_image env self t
            (mkWorld (fs w)
                     (printed w ++ [Processing idx total (PurePath.name t)])
                     (spawned w)) with
    | (Ok ok, w2) =>
        match when (idx <? total)%nat (time_sleep env idx) w2 with
        | (Ok _, w3) =>
            FaceFusionBatch.batch_loop env self total (S idx) rest
              (if ok then S s else s) (if ok then f else S f) w3
        | (Raise e, w3) => (Raise e, w3)
        end
    | (Raise e, w2) => (Raise e, w2)
    end.
Proof. reflexivity. Qed.

Lemma pause_quiet (b : bool) (idx : nat) (w : World) :
  sigint_in_sleep env idx = false ->
  when b (time_sleep env idx) w = (Ok tt, w).
Proof.
  intros H. unfold when, time_sleep. rewrite H. now destruct b.
Qed.

Lemma pause_world (b : bool) (idx : nat) (w : World) (r : Result unit) (w' : World) :
  when b (time_sleep env idx) w = (r, w') -> w' = w.
Proof.
  unfold when, time_sleep, raise, ret.
  destruct b; [destruct (sigint_in_sleep env idx)|]; congruence.
Qed.

(** Every completed turn adds one to exactly one of the two counters. *)
Lemma batch_loop_tally (targets : list Path) :
  forall total idx s f w s' f' w',
    FaceFusionBatch.batch_loop env self total idx targets s f w = (Ok (s', f'), w') ->
    (s' + f' = s + f + List.length targets)%nat.
Proof.
  induction targets as [|t rest IH]; intros total idx s f w s' f' w' H.
  - cbn in H. injection H as <- <- _. simpl. lia.
  - rewrite batch_loop_cons in H.
    destruct (FaceFusionBatch.process_single_image _ _ _ _) as [[ok|e] w2];
      [|discriminate].
    destruct (when _ _ w2) as [[u|e] w3]; [|discriminate].
    apply IH in H. destruct ok; simpl; lia.
Qed.

(** Without an interrupt the loop reaches the end of the list, whatever
    the jobs return, announcing every target in order. *)
Lemma batch_loop_uninterrupted (targets : list Path) :
  uninterrupted env ->
  forall total idx s f w,
  exists s' f' w',
    FaceFusionBatch.batch_loop env self total idx targets s f w = (Ok (s', f'), w')
    /\ (s' + f' = s + f + List.length targets)%nat
    /\ processing_names (printed w')
       = processing_names (printed w) ++ map PurePath.name targets.
Proof.
  intros [Htool Hsleep].
  induction targets as [|t rest IH]; intros total idx s f w.
  - exists s, f, w. cbn. rewrite app_nil_r. repeat split. lia.
  - rewrite batch_loop_cons.
    destruct (process_single_image_outcome env self t
                (mkWorld (fs w)
                         (printed w ++ [Processing idx total (PurePath.name t)])
                         (spawned w)))
      as [r [w2 [lines [-> [Hp [Hl Hr]]]]]].
    destruct Hr as [[ok ->]|[_ [cmd [dir Hki]]]];
      [|exfalso; eapply Htool; exact Hki].
    rewrite (pause_quiet _ _ _ (Hsleep idx)).
    destruct (IH total (S idx) (if ok then S s else s) (if ok then f else S f) w2)
      as [s' [f' [w' [-> [Hsum Hnames]]]]].
    exists s', f', w'. split; [reflexivity|]. split.
    + destruct ok; simpl; lia.
    + rewrite Hnames, Hp. simpl printed.
      rewrite !processing_names_app, Hl. simpl.
      rewrite app_nil_r, <- app_assoc. reflexivity.
Qed.

(** When every output is already there and the run is not verbose, every
    job counts as a success and nothing is spawned or written. *)
Lemma batch_loop_all_skipped (targets : list Path) :
  FaceFusionBatch.verbose self = false ->
  (forall idx, sigint_in_sleep env idx = false) ->
  forall total idx s f w,
    (forall t, In t targets ->
               exists_ (fs w) (FaceFusionBatch.output_path self t) = true) ->
    exists w',
      FaceFusionBatch.batch_loop env self total idx targets s f w
      = (Ok ((s + List.length targets)%nat, f), w')
      /\ fs w' = fs w /\ spawned w' = spawned w.
Proof.
  intros Hv Hsleep.
  induction targets as [|t rest IH]; intros total idx s f w Hex.
  - exists w. cbn. rewrite Nat.add_0_r. auto.
  - rewrite batch_loop_cons.
    rewrite process_single_image_skip; [|apply Hex; now left|exact Hv].
    rewrite (pause_quiet _ _ _ (Hsleep idx)). cbn [fs printed spawned].
    destruct (IH total (S idx) (S s) f
                 (mkWorld (fs w)
                    ((printed w ++ [Processing idx total (PurePath.name t)])
                       ++ [Skipping (PurePath.name t)])
                    (spawned w)))
      as [w' [-> [Hf Hs]]].
    + intros t' Ht'. apply Hex. now right.
    + exists w'. simpl. rewrite <- plus_n_Sm. auto.
Qed.

End BatchLoop.

Section BatchController.

Variable env : Env.
Variable self : FaceFusionBatch.t.

Lemma get_target_images_world (w : World) (r : Result (list Path)) (w' : World) :
  FaceFusionBatch._get_target_images self w = (r, w') -> w' = w.
Proof.
  unfold FaceFusionBatch._get_target_images, bind, path_iterdir.
  destruct (iterdir _ _); congruence.
Qed.

Lemma process_batch_eq (w : World) (targets : list Path) :
  FaceFusionBatch._get_target_images self w = (Ok targets, w) ->
  FaceFusionBatch.process_batch env self w
  = match FaceFusionBatch.batch_loop env self (List.length targets) 1 targets 0 0
            (mkWorld (fs w) (printed w ++ [BatchHeader (List.length targets)])
                     (spawned w)) with
    | (Ok r, w2) =>
        (Ok r, mkWorld (fs w2)
                       (printed w2 ++ [Summary (fst r) (snd r) (List.length targets)])
                       (spawned w2))
    | (Raise e, w2) => (Raise e, w2)
    end.
Proof.
  intros H. unfold FaceFusionBatch.process_batch, bind at 1. rewrite H.
  unfold bind, print, ret; simpl.
  destruct (FaceFusionBatch.batch_loop _ _ _ _ _ _ _ _) as [[r|e] w2]; reflexivity.
Qed.

End BatchController.

(** ** Runs of the batch loop *)

Section BatchRun.

Variable env : Env.
Variable self : FaceFusionBatch.t.

Lemma pause_ok_iff (total idx : nat) (w : World) (r : Result unit) (w' : World) :
  when (idx <? total)%nat (time_sleep env idx) w = (r, w') ->
  w' = w
  /\ ((exists u, r = Ok u)
      <-> ((idx <? total)%nat = true -> sigint_in_sleep env idx = false))
  /\ (r = Raise KeyboardInterrupt
      <-> ((idx <? total)%nat = true /\ sigint_in_sleep env idx = true))
  /\ (forall e, r = Raise e -> e = KeyboardInterrupt).
Proof.
  unfold when, time_sleep, raise, ret.
  destruct (idx <? total)%nat; [destruct (sigint_in_sleep env idx)|];
    intros H; injection H as <- <-;
    (split; [reflexivity|]); (split; [|split]).
  - split; [intros [u Hu]; discriminate Hu|intros Hi; discriminate (Hi eq_refl)].
  - split; auto.
  - intros e He. now injection He.
  - split; eauto.
  - split; [discriminate|intros [_ Hf]; discriminate Hf].
  - intros e He. discriminate He.
  - split; [intros _ Hf; discriminate Hf|eauto].
  - split; [discriminate|intros [Hf _]; discriminate Hf].
  - intros e He. discriminate He.
Qed.

Lemma batch_run_length (total idx : nat) (targets : list Path) (w : World)
      (results : list bool) (w' : World) :
  batch_run env self total idx targets w results w' ->
  List.length results = List.length targets.
Proof. induction 1; simpl; congruence. Qed.

Lemma tally_length (results : list bool) :
  (successes results + failures results = List.length results)%nat.
Proof.
  unfold successes, failures.
  induction results as [|[|] l IH]; simpl; lia.
Qed.

(** A run in which every job returns makes the loop return, with the
    counts of its results. *)
Lemma batch_loop_of_run (total idx : nat) (targets : list Path) (w : World)
      (results : list bool) (w' : World) :
  batch_run env self total idx targets w results w' ->
  forall s f,
    FaceFusionBatch.batch_loop env self total idx targets s f w
    = (Ok ((s + successes results)%nat, (f + failures results)%nat), w').
Proof.
  induction 1 as [idx w|idx t rest w ok w2 results w' Hjob Hpause Hrun IH];
    intros s f.
  - cbn. unfold successes, failures. simpl. now rewrite !Nat.add_0_r.
  - rewrite batch_loop_cons, Hjob.
    destruct (when (idx <? total)%nat (time_sleep env idx) w2) as [r w3] eqn:Ep.
    destruct (pause_ok_iff _ _ _ _ _ Ep) as [-> [Hok _]].
    destruct (proj2 Hok Hpause) as [u ->].
    rewrite IH. unfold successes, failures.
    destruct ok; simpl; repeat f_equal; lia.
Qed.

(** When the loop returns, that was such a run. *)
Lemma run_of_batch_loop (targets : list Path) :
  forall total idx s f w s' f' w',
    FaceFusionBatch.batch_loop env self total idx targets s f w = (Ok (s', f'), w') ->
    exists results,
      batch_run env self total idx targets w results w'
      /\ s' = (s + successes results)%nat
      /\ f' = (f + failures results)%nat.
Proof.
  induction targets as [|t rest IH]; intros total idx s f w s' f' w' H.
  - cbn in H. injection H as <- <- <-. exists []. split; [constructor|].
    unfold successes, failures. simpl. lia.
  - rewrite batch_loop_cons in H.
    destruct (FaceFusionBatch.process_single_image _ _ _ _) as [[ok|e] w2] eqn:Ej;
      [|discriminate].
    destruct (when (idx <? total)%nat (time_sleep env idx) w2) as [r w3] eqn:Ep.
    destruct (pause_ok_iff _ _ _ _ _ Ep) as [-> [Hok _]].
    destruct r as [u|e]; [|discriminate].
    destruct (IH _ _ _ _ _ _ _ _ H) as [results [Hrun [-> ->]]].
    exists (ok :: results). split.
    + econstructor; [exact Ej|apply Hok; eauto|exact Hrun].
    + unfold successes, failures. destruct ok; simpl; lia.
Qed.

(** Every job of a run is announced, in order. *)
Lemma batch_run_processing (total idx : nat) (targets : list Path) (w : World)
      (results : list bool) (w' : World) :
  batch_run env self total idx targets w results w' ->
  processing_names (printed w')
  = processing_names (printed w) ++ map PurePath.name targets.
Proof.
  induction 1 as [idx w|idx t rest w ok w2 results w' Hjob Hpause Hrun IH].
  - simpl. now rewrite app_nil_r.
  - destruct (process_single_image_outcome env self t
                (mkWorld (fs w)
                         (printed w ++ [Processing idx total (PurePath.name t)])
                         (spawned w)))
      as [r [w2' [lines [E [Hp [Hl _]]]]]].
    rewrite Hjob in E. injection E as _ <-.
    rewrite IH, Hp. simpl printed.
    rewrite !processing_names_app, Hl. simpl.
    now rewrite app_nil_r, <- app_assoc.
Qed.

(** The loop on a list whose first part runs through goes on with the
    rest of the list. *)
Lemma batch_loop_app (total idx : nat) (pre : list Path) (w : World)
      (results : list bool) (w1 : World) :
  batch_run env self total idx pre w results w1 ->
  forall more s f,
    FaceFusionBatch.batch_loop env self total idx (pre ++ more) s f w
    = FaceFusionBatch.batch_loop env self total (idx + List.length pre) more
        (s + successes results) (f + failures results) w1.
Proof.
  induction 1 as [idx w|idx t rest w ok w2 results w' Hjob Hpause Hrun IH];
    intros more s f.
  - simpl. unfold successes, failures. simpl. now rewrite !Nat.add_0_r.
  - simpl app. rewrite batch_loop_cons, Hjob.
    destruct (when (idx <? total)%nat (time_sleep env idx) w2) as [r w3] eqn:Ep.
    destruct (pause_ok_iff _ _ _ _ _ Ep) as [-> [Hok _]].
    destruct (proj2 Hok Hpause) as [u ->].
    rewrite IH. unfold successes, failures.
    destruct ok; simpl; f_equal; lia.
Qed.

End BatchRun.

Lemma demo_uninterrupted : uninterrupted Demo.env.
Proof.
  split; [|reflexivity].
  intros f cmd dir. simpl. unfold Demo.stub_tool.
  destruct (Str.contains _ _); [discriminate|].
  destruct (String.eqb _ _); discriminate.
Qed.

(** C4: when the output file derived for a target already exists, a
    non-verbose job runner returns success, prints the skip line, spawns
    no child process and leaves the disk as it is; a verbose one does
    not skip: it spawns the tool, once, with the built command, although
    the output exists. *)
Theorem C4_skip_existing (env : Env) (self : FaceFusionBatch.t)
        (target : Path) (w : World) :
  exists_ (fs w) (FaceFusionBatch.output_path self target) = true ->
  (FaceFusionBatch.verbose self = false ->
   FaceFusionBatch.process_single_image env self target w
   = (Ok true,
      mkWorld (fs w) (printed w ++ [Skipping (PurePath.name target)]) (spawned w)))
  /\ (FaceFusionBatch.verbose self = true ->
      spawned (snd (FaceFusionBatch.process_single_image env self target w))
      = spawned w
        ++ [(FaceFusionBatch._build_command env self target
               (FaceFusionBatch.output_path self target),
             PurePath.str (FaceFusionBatch.facefusion_path self))]).
Proof.
  intros Hex. split; intros Hv.
  - now apply process_single_image_skip.
  - destruct (subprocess_run env (fs w)
                (FaceFusionBatch._build_command env self target
                   (FaceFusionBatch.output_path self target))
                (PurePath.str (FaceFusionBatch.facefusion_path self)))
      as [o f'] eqn:Hrun.
    destruct (process_single_image_run env self target w o f') as [lines [-> _]];
      [now rewrite Hv, andb_false_r|exact Hrun|reflexivity].
Qed.

Lemma C4_skip_existing_witness :
  FaceFusionBatch.process_single_image Demo.env Demo.self_done
    (PurePath.of_str "pics/a.jpg") (Demo.world Demo.disk)
  = (Ok true, mkWorld Demo.disk [Skipping "a.jpg"] [])
  /\ List.length
       (spawned (snd (FaceFusionBatch.process_single_image Demo.env
                        Demo.self_done_verbose (PurePath.of_str "pics/a.jpg")
                        (Demo.world Demo.disk)))) = 1%nat.
Proof.
  split.
  - apply (proj1 (C4_skip_existing Demo.env Demo.self_done
                    (PurePath.of_str "pics/a.jpg") (Demo.world Demo.disk)
                    eq_refl)).
    reflexivity.
  - rewrite (proj2 (C4_skip_existing Demo.env Demo.self_done_verbose
                      (PurePath.of_str "pics/a.jpg") (Demo.world Demo.disk)
                      eq_refl) eq_refl).
    reflexivity.
Defined.

(** C5: when the tool is run, the job succeeds exactly if the tool
    exits 0 and the output file exists afterwards: exit 0 without the
    output file is a failure, a non-zero exit is a failure, and an
    exception on launching the tool is a failure.  None of these stops
    the batch.  Whenever every job returns, whether [True] or [False],
    and no pause is interrupted, the batch controller hands every
    enumerated target to the job runner, in order, each in the world
    the previous job left, and returns the number of jobs that returned
    [True] and the number that returned [False].  Conversely, whenever
    the controller returns, it has done exactly that: one job per
    target, announced in order, the first count being that of the
    [True] results and the second that of the [False] results. *)
Theorem C5_classification (env : Env) (self : FaceFusionBatch.t) :
  (forall (target : Path) (w : World) (o : Outcome) (f' : FS),
      exists_ (fs w) (FaceFusionBatch.output_path self target)
      && negb (FaceFusionBatch.verbose self) = false ->
      subprocess_run env (fs w)
        (FaceFusionBatch._build_command env self target
           (FaceFusionBatch.output_path self target))
        (PurePath.str (FaceFusionBatch.facefusion_path self)) = (o, f') ->
      (forall r, o = Returned r -> returncode r = 0%Z ->
                 exists_ f' (FaceFusionBatch.output_path self target) = true ->
                 fst (FaceFusionBatch.process_single_image env self target w) = Ok true)
      /\ (forall r, o = Returned r -> returncode r = 0%Z ->
                    exists_ f' (FaceFusionBatch.output_path self target) = false ->
                    fst (FaceFusionBatch.process_single_image env self target w) = Ok false)
      /\ (forall r, o = Returned r -> returncode r <> 0%Z ->
                    fst (FaceFusionBatch.process_single_image env self target w) = Ok false)
      /\ (forall e, o = Raised e -> is_Exception e = true ->
                    fst (FaceFusionBatch.process_single_image env self target w) = Ok false))
  /\ (forall (w : World) (targets : list Path),
         FaceFusionBatch._get_target_images self w = (Ok targets, w) ->
         let total := List.length targets in
         (forall results w2,
             batch_run env self total 1 targets (after_header w total) results w2 ->
             FaceFusionBatch.process_batch env self w
             = (Ok (successes results, failures results),
                after_summary w2 (successes results) (failures results) total))
         /\ (forall s f w',
                FaceFusionBatch.process_batch env self w = (Ok (s, f), w') ->
                exists results w2,
                  batch_run env self total 1 targets (after_header w total) results w2
                  /\ s = successes results
                  /\ f = failures results
                  /\ List.length results = total
                  /\ (s + f)%nat = total
                  /\ w' = after_summary w2 s f total
                  /\ processing_names (printed w')
                     = processing_names (printed w) ++ map PurePath.name targets)).
Proof.
  split.
  - intros target w o f' Hskip Hrun.
    destruct (process_single_image_run env self target w o f' Hskip Hrun)
      as [lines [-> _]]. simpl.
    repeat split.
    + intros r -> Hrc ->. simpl. now rewrite Hrc.
    + intros r -> Hrc ->. simpl. now rewrite Hrc.
    + intros r -> Hrc. simpl. apply Z.eqb_neq in Hrc. now rewrite Hrc.
    + intros e -> He. simpl. now rewrite He.
  - intros w targets Hget total. subst total. split.
    + intros results w2 Hrun.
      rewrite (process_batch_eq env self w targets Hget).
      unfold after_header in Hrun.
      rewrite (batch_loop_of_run env self _ _ _ _ _ _ Hrun 0%nat 0%nat).
      reflexivity.
    + intros s f w' H.
      rewrite (process_batch_eq env self w targets Hget) in H.
      destruct (FaceFusionBatch.batch_loop env self _ 1 targets 0 0 _)
        as [[[s0 f0]|e] w2] eqn:El; [|discriminate].
      injection H as <- <- <-.
      destruct (run_of_batch_loop env self _ _ _ _ _ _ _ _ _ El)
        as [results [Hrun [-> ->]]].
      pose proof (batch_run_length env self _ _ _ _ _ _ Hrun) as Hlen.
      pose proof (batch_run_processing env self _ _ _ _ _ _ Hrun) as Hnames.
      exists results, w2. simpl.
      repeat split; auto.
      * rewrite <- Hlen. apply tally_length.
      * rewrite processing_names_app, Hnames. simpl.
        rewrite processing_names_app. simpl. now rewrite !app_nil_r.
Qed.

Lemma C5_classification_witness :
  fst (FaceFusionBatch.process_single_image Demo.env Demo.self
         (PurePath.of_str "targets/a.jpg") (Demo.world Demo.disk)) = Ok true
  /\ fst (FaceFusionBatch.process_single_image Demo.env Demo.self_silent
            (PurePath.of_str "targets/a.jpg") (Demo.world Demo.disk)) = Ok false
  /\ fst (FaceFusionBatch.process_single_image Demo.env Demo.self
            (PurePath.of_str "targets/b.PNG") (Demo.world Demo.disk)) = Ok false
  /\ fst (FaceFusionBatch.process_single_image Demo.env_broken Demo.self
            (PurePath.of_str "targets/a.jpg") (Demo.world Demo.disk)) = Ok false
  /\ fst (FaceFusionBatch.process_batch Demo.env_broken Demo.self
            (Demo.world Demo.disk)) = Ok (0%nat, 2%nat)
  /\ exists results w2,
      batch_run Demo.env Demo.self 2 1
        [PurePath.of_str "targets/a.jpg"; PurePath.of_str "targets/b.PNG"]
        (after_header (Demo.world Demo.disk) 2) results w2
      /\ 1%nat = successes results /\ 1%nat = failures results.
Proof.
  split; [|split; [|split; [|split; [|split]]]].
  - eapply (proj1 (proj1 (C5_classification Demo.env Demo.self)
                     (PurePath.of_str "targets/a.jpg") (Demo.world Demo.disk)
                     _ _ eq_refl eq_refl));
      [reflexivity|reflexivity|reflexivity].
  - eapply (proj1 (proj2 (proj1 (C5_classification Demo.env Demo.self_silent)
                     (PurePath.of_str "targets/a.jpg") (Demo.world Demo.disk)
                     _ _ eq_refl eq_refl)));
      [reflexivity|reflexivity|reflexivity].
  - eapply (proj1 (proj2 (proj2 (proj1 (C5_classification Demo.env Demo.self)
                     (PurePath.of_str "targets/b.PNG") (Demo.world Demo.disk)
                     _ _ eq_refl eq_refl))));
      [reflexivity|discriminate].
  - eapply (proj2 (proj2 (proj2 (proj1 (C5_classification Demo.env_broken Demo.self)
                     (PurePath.of_str "targets/a.jpg") (Demo.world Demo.disk)
                     _ _ eq_refl eq_refl))));
      [reflexivity|reflexivity].
  - set (w0 := after_header (Demo.world Demo.disk) 2).
    set (w1 := snd (FaceFusionBatch.process_single_image Demo.env_broken Demo.self
                      (PurePath.of_str "targets/a.jpg")
                      (mkWorld (fs w0) (printed w0 ++ [Processing 1 2 "a.jpg"])
                               (spawned w0)))).
    set (w2 := snd (FaceFusionBatch.process_single_image Demo.env_broken Demo.self
                      (PurePath.of_str "targets/b.PNG")
                      (mkWorld (fs w1) (printed w1 ++ [Processing 2 2 "b.PNG"])
                               (spawned w1)))).
    assert (Hrun : batch_run Demo.env_broken Demo.self 2 1
                     [PurePath.of_str "targets/a.jpg"; PurePath.of_str "targets/b.PNG"]
                     w0 [false; false] w2).
    { apply batch_run_cons with (w2 := w1); [reflexivity|intros _; reflexivity|].
      apply batch_run_cons with (w2 := w2);
        [reflexivity|intros _; reflexivity|apply batch_run_nil]. }
    rewrite (proj1 (proj2 (C5_classification Demo.env_broken Demo.self)
                      (Demo.world Demo.disk) _ eq_refl) _ _ Hrun).
    reflexivity.
  - destruct (proj2 (proj2 (C5_classification Demo.env Demo.self)
                       (Demo.world Demo.disk) _ eq_refl) 1%nat 1%nat
                    (snd (FaceFusionBatch.process_batch Demo.env Demo.self
                            (Demo.world Demo.disk))) eq_refl)
      as [results [w2 [Hrun [Hs [Hf _]]]]].
    exists results, w2. auto.
Defined.

Example batch_one_failure_does_not_stop :
  fst (FaceFusionBatch.process_batch Demo.env Demo.self (Demo.world Demo.disk))
  = Ok (1%nat, 1%nat).
Proof. reflexivity. Qed.

(** ** The installation locator *)

Section Locator.

(** With [self.verbose] assigned, the loop returns the first candidate
    that passes the test. *)
Lemma find_loop_assigned (self : FaceFusionBatch.Partial) (v : bool)
      (cands : list Path) (w : World) :
  FaceFusionBatch.p_verbose self = Some v ->
  FaceFusionBatch.find_loop self cands w
  = match find (installed (fs w)) cands with
    | Some c => (Ok c, if v then mkWorld (fs w) (printed w ++ [FoundAt c]) (spawned w)
                       else w)
    | None => (Raise (FileNotFoundError FaceFusionBatch.not_found_message), w)
    end.
Proof.
  intros Hv. induction cands as [|c cands IH]; [reflexivity|].
  simpl. unfold bind at 1, path_exists at 1, installed at 1.
  destruct (exists_ (fs w) c); simpl.
  - unfold bind at 1, path_exists at 1.
    destruct (exists_ (fs w) (c // "facefusion.py")); simpl; [|exact IH].
    unfold bind, FaceFusionBatch.getattr_verbose. rewrite Hv.
    destruct v; reflexivity.
  - unfold bind at 1, ret at 1. exact IH.
Qed.

(** Without it, the loop raises as soon as a candidate passes. *)
Lemma find_loop_unassigned (self : FaceFusionBatch.Partial)
      (cands : list Path) (w : World) :
  FaceFusionBatch.p_verbose self = None ->
  FaceFusionBatch.find_loop self cands w
  = (Raise (if existsb (installed (fs w)) cands
            then no_verbose_attribute
            else FileNotFoundError FaceFusionBatch.not_found_message),
     w).
Proof.
  intros Hv. induction cands as [|c cands IH]; [reflexivity|].
  simpl. unfold bind at 1, path_exists at 1, installed at 1.
  destruct (exists_ (fs w) c); simpl.
  - unfold bind at 1, path_exists at 1.
    destruct (exists_ (fs w) (c // "facefusion.py")); simpl; [|exact IH].
    unfold bind, FaceFusionBatch.getattr_verbose. rewrite Hv. reflexivity.
  - unfold bind at 1, ret at 1. exact IH.
Qed.

End Locator.

(** ** The input validator *)

Section Validator.

Variable self : FaceFusionBatch.t.

Lemma filter_all_false {A} (f : A -> bool) (l : list A) :
  (forall x, In x l -> f x = false) -> filter f l = [].
Proof.
  induction l as [|x l IH]; intros H; simpl; [reflexivity|].
  rewrite (H x (or_introl eq_refl)). apply IH. intros y Hy. apply H. now right.
Qed.

Lemma filter_some_true {A} (f : A -> bool) (l : list A) (x : A) :
  In x l -> f x = true -> filter f l <> [].
Proof.
  intros Hin Hf Hnil.
  assert (Hx : In x (filter f l)) by (apply filter_In; auto).
  rewrite Hnil in Hx. contradiction.
Qed.

Lemma validate_world (w : World) (r : Result unit) (w' : World) :
  FaceFusionBatch._validate_inputs self w = (r, w') -> w' = w.
Proof.
  unfold FaceFusionBatch._validate_inputs, bind, path_exists, raise, ret.
  destruct (negb (exists_ (fs w) (FaceFusionBatch.source_image self)));
    [congruence|].
  destruct (negb (exists_ (fs w) (FaceFusionBatch.target_dir self)));
    [congruence|].
  destruct (negb (exists_ (fs w) _)); [congruence|].
  destruct (FaceFusionBatch._get_target_images self w) as [[l|e] w1] eqn:E;
    apply get_target_images_world in E; subst w1; [|congruence].
  destruct l; congruence.
Qed.

Lemma validate_after_existence (w : World) :
  exists_ (fs w) (FaceFusionBatch.source_image self) = true ->
  exists_ (fs w) (FaceFusionBatch.target_dir self) = true ->
  exists_ (fs w) (FaceFusionBatch.facefusion_path self // "facefusion.py") = true ->
  FaceFusionBatch._validate_inputs self w
  = match FaceFusionBatch._get_target_images self w with
    | (Ok [], w1) =>
        (Raise (ValueError ("No valid image files found in target directory: "
                            ++ PurePath.str (FaceFusionBatch.target_dir self))), w1)
    | (Ok (_ :: _), w1) => (Ok tt, w1)
    | (Raise e, w1) => (Raise e, w1)
    end.
Proof.
  intros H1 H2 H3.
  unfold FaceFusionBatch._validate_inputs, bind, path_exists.
  rewrite H1; cbv beta iota delta [negb].
  rewrite H2; cbv beta iota delta [negb].
  rewrite H3; cbv beta iota delta [negb].
  destruct (FaceFusionBatch._get_target_images self w) as [[[|t l]|e] w1];
    reflexivity.
Qed.

End Validator.

(** ** [mkdir] *)

Section Mkdir.

Lemma path_eqb_refl (p : Path) : PurePath.eqb p p = true.
Proof.
  unfold PurePath.eqb. rewrite String.eqb_refl.
  now destruct (list_eq_dec string_dec (parts p) (parts p)).
Qed.

Lemma path_eqb_parts (p q : Path) : PurePath.eqb p q = true -> parts p = parts q.
Proof.
  unfold PurePath.eqb. intros H. apply andb_true_iff in H. destruct H as [_ H].
  now destruct (list_eq_dec string_dec (parts p) (parts q)).
Qed.

Lemma path_eqb_longer (p q : Path) :
  (List.length (parts p) < List.length (parts q))%nat -> PurePath.eqb q p = false.
Proof.
  intros Hlen. destruct (PurePath.eqb q p) eqn:E; [|reflexivity].
  apply path_eqb_parts in E. rewrite E in Hlen. lia.
Qed.

Lemma removelast_shorter {A} (x : A) (l : list A) :
  (List.length (removelast (x :: l)) < List.length (x :: l))%nat.
Proof.
  revert x; induction l as [|y l IH]; intros x; [simpl; lia|].
  change (removelast (x :: y :: l)) with (x :: removelast (y :: l)).
  specialize (IH y). simpl in *. lia.
Qed.

Lemma parent_shorter (p : Path) :
  PurePath.eqb (PurePath.parent p) p = false ->
  (List.length (parts (PurePath.parent p)) < List.length (parts p))%nat.
Proof.
  destruct p as [r ps]. unfold PurePath.parent; simpl. intros H.
  destruct ps as [|x ps].
  - simpl in H. now rewrite path_eqb_refl in H.
  - apply removelast_shorter.
Qed.

(** What [os.mkdir] does to the world. *)
Lemma os_mkdir_spec (p : Path) (w : World) (r : Result unit) (w' : World) :
  os_mkdir p w = (r, w') ->
  match r with
  | Raise e =>
      w' = w
      /\ match e with
         | FileExistsError _ => exists_ (fs w) p = true
         | NotADirectoryError _ => kind_of (fs w) p = None
         | FileNotFoundError _ => kind_of (fs w) p = None
         | _ => False
         end
  | Ok _ =>
      kind_of (fs w) p = None
      /\ is_dir (fs w) (PurePath.parent p) = true
      /\ is_dir (fs w') p = true
      /\ printed w' = printed w /\ spawned w' = spawned w
      /\ forall q, PurePath.eqb q p = false -> kind_of (fs w') q = kind_of (fs w) q
  end.
Proof.
  unfold os_mkdir, exists_, is_dir.
  destruct (kind_of (fs w) p) as [k|] eqn:Ek.
  - intros H; injection H as <- <-. auto.
  - destruct (kind_of (fs w) (PurePath.parent p)) as [[|]|] eqn:Ep;
      intros H; injection H as <- <-; auto.
    simpl. rewrite path_eqb_refl. repeat split; auto.
    intros q Hq. now rewrite Hq.
Qed.

(** [p.mkdir(parents=True, exist_ok=True)] either fails and leaves the
    world as it was, or succeeds, and then [p] is a directory, nothing
    deeper than [p] has changed, and nothing at all has changed when
    [p] was a directory before. *)
Lemma mkdir_parents_spec (n : nat) :
  forall (p : Path) (w : World) (r : Result unit) (w' : World),
    mkdir_parents n p w = (r, w') ->
    match r with
    | Raise _ => w' = w
    | Ok _ =>
        is_dir (fs w') p = true
        /\ printed w' = printed w /\ spawned w' = spawned w
        /\ (is_dir (fs w) p = true -> w' = w)
        /\ forall q, (List.length (parts p) < List.length (parts q))%nat ->
                     kind_of (fs w') q = kind_of (fs w) q
    end.
Proof.
  induction n as [|n IH]; intros p w r w' H; simpl in H;
    destruct (os_mkdir p w) as [[u|e] w1] eqn:Eos;
    pose proof (os_mkdir_spec _ _ _ _ Eos) as Hos; simpl in Hos.
  1, 3: injection H as <- <-;
        destruct Hos as [Hnone [_ [Hd [Hp [Hs Hfr]]]]];
        repeat split; auto;
        [ unfold is_dir; rewrite Hnone; discriminate
        | intros q Hq; apply Hfr; now apply path_eqb_longer ].
  - (* no fuel left: only the top of the path gets here *)
    destruct Hos as [-> He].
    destruct e; try contradiction;
      try (unfold mkdir_exist_ok, bind, path_is_dir, raise, ret in H;
           destruct (is_dir (fs w) p) eqn:Ed; injection H as <- <-;
           [repeat split; auto|reflexivity]).
    destruct (PurePath.eqb (PurePath.parent p) p); injection H as <- <-;
      reflexivity.
  - destruct Hos as [-> He].
    destruct e; try contradiction;
      try (unfold mkdir_exist_ok, bind, path_is_dir, raise, ret in H;
           destruct (is_dir (fs w) p) eqn:Ed; injection H as <- <-;
           [repeat split; auto|reflexivity]).
    destruct (PurePath.eqb (PurePath.parent p) p) eqn:Epar;
      [injection H as <- <-; reflexivity|].
    unfold bind in H.
    destruct (mkdir_parents n (PurePath.parent p) w) as [[u|e] w2] eqn:Epp;
      pose proof (IH _ _ _ _ Epp) as Hpp; simpl in Hpp.
    + destruct Hpp as [Hd2 [Hp2 [Hs2 [_ Hfr2]]]].
      pose proof (parent_shorter p Epar) as Hlen.
      assert (Hnone2 : kind_of (fs w2) p = None)
        by (rewrite (Hfr2 p Hlen); exact He).
      unfold mkdir_plain, os_mkdir in H. rewrite Hnone2 in H.
      unfold is_dir in Hd2.
      destruct (kind_of (fs w2) (PurePath.parent p)) as [[|]|]; try discriminate.
      injection H as <- <-. simpl.
      unfold is_dir; simpl. rewrite path_eqb_refl.
      repeat split; auto.
      * rewrite He. discriminate.
      * intros q Hq. rewrite (path_eqb_longer p q Hq). apply Hfr2.
        simpl in Hlen. lia.
    + subst w2. injection H as <- <-. reflexivity.
Qed.

End Mkdir.

(** ** Construction *)

Section Construction.

Variable env : Env.

(** Without an installation path on the command line [__init__] never
    returns: the locator is called before [self.verbose] is assigned. *)
Lemma init_auto (a : Args) (w : World) :
  explicit_path a = None ->
  FaceFusionBatch.__init__ env a w
  = (Raise (if existsb (installed (fs w)) (FaceFusionBatch.possible_paths env)
            then no_verbose_attribute
            else FileNotFoundError FaceFusionBatch.not_found_message),
     w).
Proof.
  unfold explicit_path, FaceFusionBatch.__init__. intros H.
  destruct (arg_facefusion_path a) as [s|];
    [destruct (String.eqb s ""); [|discriminate]|];
    unfold bind at 1, FaceFusionBatch._find_facefusion;
    now rewrite find_loop_unassigned.
Qed.

Lemma init_explicit (a : Args) (w : World) (ffp : Path) :
  explicit_path a = Some ffp ->
  FaceFusionBatch.__init__ env a w
  = match FaceFusionBatch._validate_inputs (instance_of a ffp) w with
    | (Ok _, w1) =>
        match FaceFusionBatch._prepare_output_dir (instance_of a ffp) w1 with
        | (Ok _, w2) => (Ok (instance_of a ffp), w2)
        | (Raise e, w2) => (Raise e, w2)
        end
    | (Raise e, w1) => (Raise e, w1)
    end.
Proof.
  unfold explicit_path, FaceFusionBatch.__init__. intros H.
  destruct (arg_facefusion_path a) as [s|]; [|discriminate].
  destruct (String.eqb s ""); [discriminate|]. injection H as <-.
  unfold bind, ret, instance_of.
  destruct (FaceFusionBatch._validate_inputs _ w) as [[u|e] w1]; [|reflexivity].
  destruct (FaceFusionBatch._prepare_output_dir _ w1) as [[u'|e] w2]; reflexivity.
Qed.

Lemma prepare_output_dir_spec (self : FaceFusionBatch.t) (w : World)
      (r : Result unit) (w' : World) :
  FaceFusionBatch._prepare_output_dir self w = (r, w') ->
  match r with
  | Raise _ => w' = w
  | Ok _ =>
      is_dir (fs w') (FaceFusionBatch.output_dir self) = true
      /\ spawned w' = spawned w
      /\ (is_dir (fs w) (FaceFusionBatch.output_dir self) = true -> fs w' = fs w)
  end.
Proof.
  unfold FaceFusionBatch._prepare_output_dir, bind, path_mkdir, when, print, ret.
  destruct (mkdir_parents _ _ w) as [[u|e] w1] eqn:E;
    pose proof (mkdir_parents_spec _ _ _ _ _ E) as Hm; simpl in Hm.
  - destruct Hm as [Hd [_ [Hs [Hsame _]]]].
    destruct (FaceFusionBatch.verbose self); intros H; injection H as <- <-;
      simpl; repeat split; auto; intros Hd0; now rewrite (Hsame Hd0).
  - intros H; injection H as <- <-. exact Hm.
Qed.

Lemma existsb_none {A} (f : A -> bool) (l : list A) :
  (forall x, In x l -> f x = false) -> existsb f l = false.
Proof.
  induction l as [|x l IH]; intros H; simpl; [reflexivity|].
  rewrite (H x (or_introl eq_refl)). apply IH. intros y Hy. apply H. now right.
Qed.

Lemma existsb_some {A} (f : A -> bool) (l : list A) (x : A) :
  In x l -> f x = true -> existsb f l = true.
Proof. intros Hin Hf. apply existsb_exists. eauto. Qed.

(** A failed construction leaves the world as it found it. *)
Lemma init_raise_world (a : Args) (w : World) (e : Exn) (w' : World) :
  FaceFusionBatch.__init__ env a w = (Raise e, w') -> w' = w.
Proof.
  destruct (explicit_path a) as [ffp|] eqn:Ex.
  - rewrite (init_explicit a w ffp Ex).
    destruct (FaceFusionBatch._validate_inputs _ w) as [[u|e1] w1] eqn:Ev;
      apply validate_world in Ev; subst w1.
    + destruct (FaceFusionBatch._prepare_output_dir _ w) as [[u'|e2] w2] eqn:Ep;
        [discriminate|].
      apply prepare_output_dir_spec in Ep. congruence.
    + congruence.
  - rewrite (init_auto a w Ex). congruence.
Qed.

End Construction.

(** ** [main] *)

Section MainFacts.

Variable env : Env.

Lemma main_init_raise (a : Args) (w : World) (e : Exn) (w1 : World) :
  FaceFusionBatch.__init__ env a w = (Raise e, w1) ->
  fst (main env a w) = (match e with KeyboardInterrupt => 130 | _ => 1 end)%Z
  /\ fs (snd (main env a w)) = fs w1
  /\ spawned (snd (main env a w)) = spawned w1.
Proof.
  intros H. unfold main, bind. rewrite H.
  destruct e; simpl; try destruct (arg_verbose a); auto.
Qed.

Lemma main_batch_done (a : Args) (w : World) (self : FaceFusionBatch.t)
      (w1 : World) (s f : nat) (w2 : World) :
  FaceFusionBatch.__init__ env a w = (Ok self, w1) ->
  FaceFusionBatch.process_batch env self w1 = (Ok (s, f), w2) ->
  main env a w = ((if (f =? 0)%nat then 0 else 1)%Z, w2).
Proof. intros H1 H2. unfold main, bind. now rewrite H1, H2. Qed.

Lemma main_batch_raise (a : Args) (w : World) (self : FaceFusionBatch.t)
      (w1 : World) (e : Exn) (w2 : World) :
  FaceFusionBatch.__init__ env a w = (Ok self, w1) ->
  FaceFusionBatch.process_batch env self w1 = (Raise e, w2) ->
  fst (main env a w) = (match e with KeyboardInterrupt => 130 | _ => 1 end)%Z.
Proof.
  intros H1 H2. unfold main, bind. rewrite H1, H2.
  destruct e; simpl; try destruct (arg_verbose a); auto.
Qed.

Lemma process_batch_tally (self : FaceFusionBatch.t) (w : World)
      (s f : nat) (w' : World) :
  FaceFusionBatch.process_batch env self w = (Ok (s, f), w') ->
  exists targets,
    FaceFusionBatch._get_target_images self w = (Ok targets, w)
    /\ (s + f)%nat = List.length targets.
Proof.
  intros H.
  destruct (FaceFusionBatch._get_target_images self w) as [[targets|e] w1] eqn:E;
    pose proof (get_target_images_world _ _ _ _ E) as ->.
  - exists targets. split; [reflexivity|].
    rewrite (process_batch_eq env self w targets E) in H.
    destruct (FaceFusionBatch.batch_loop _ _ _ _ _ _ _ _) as [[[s' f']|e] w2] eqn:El;
      [|discriminate].
    injection H as <- <- _. apply batch_loop_tally in El. lia.
  - unfold FaceFusionBatch.process_batch, bind in H. rewrite E in H. discriminate.
Qed.

Lemma process_batch_all_skipped (self : FaceFusionBatch.t) (w : World)
      (targets : list Path) :
  FaceFusionBatch.verbose self = false ->
  (forall idx, sigint_in_sleep env idx = false) ->
  FaceFusionBatch._get_target_images self w = (Ok targets, w) ->
  (forall t, In t targets ->
             exists_ (fs w) (FaceFusionBatch.output_path self t) = true) ->
  exists w',
    FaceFusionBatch.process_batch env self w = (Ok (List.length targets, 0%nat), w')
    /\ fs w' = fs w /\ spawned w' = spawned w.
Proof.
  intros Hv Hsleep Hget Hex.
  rewrite (process_batch_eq env self w targets Hget).
  destruct (batch_loop_all_skipped env self targets Hv Hsleep
              (List.length targets) 1%nat 0%nat 0%nat
              (mkWorld (fs w) (printed w ++ [BatchHeader (List.length targets)])
                       (spawned w)) Hex)
    as [w' [-> [Hf Hs]]].
  eexists. split; [reflexivity|]. simpl. auto.
Qed.

End MainFacts.

(** C2: what the code does when no installation path is given and a
    default candidate exists and holds [facefusion.py]: the locator is
    entered before [self.verbose] is assigned, so on its first matching
    candidate it raises [AttributeError] instead of returning it;
    construction fails, the world is untouched and [main] exits with
    status 1.  (The specification expects construction to succeed with
    that candidate.) *)
Theorem C2_auto_detection_raises (env : Env) (a : Args) (w : World) :
  explicit_path a = None ->
  (exists c, In c (FaceFusionBatch.possible_paths env)
             /\ exists_ (fs w) c = true
             /\ exists_ (fs w) (c // "facefusion.py") = true) ->
  FaceFusionBatch.__init__ env a w = (Raise no_verbose_attribute, w)
  /\ fst (main env a w) = 1%Z.
Proof.
  intros Hex [c [Hin [Hc Hpy]]].
  assert (Hinit : FaceFusionBatch.__init__ env a w = (Raise no_verbose_attribute, w)).
  { rewrite (init_auto env a w Hex).
    rewrite (existsb_some _ _ c Hin); [reflexivity|].
    unfold installed. now rewrite Hc, Hpy. }
  split; [exact Hinit|].
  apply (main_init_raise env a w _ _ Hinit).
Qed.

Lemma C2_auto_detection_raises_witness :
  FaceFusionBatch.__init__ Demo.env Demo.args_auto (Demo.world Demo.disk_home)
  = (Raise no_verbose_attribute, Demo.world Demo.disk_home)
  /\ fst (main Demo.env Demo.args_auto (Demo.world Demo.disk_home)) = 1%Z.
Proof.
  apply (C2_auto_detection_raises Demo.env Demo.args_auto
           (Demo.world Demo.disk_home) eq_refl).
  exists (PurePath.of_str "/home/u/facefusion").
  split; [left; reflexivity|split; reflexivity].
Defined.

(** The locator on its own, once [verbose] is assigned, does return the
    first candidate that exists and holds the entry point. *)
Lemma find_facefusion_with_verbose (env : Env) (self : FaceFusionBatch.Partial)
      (v : bool) (w : World) (c : Path) :
  FaceFusionBatch.p_verbose self = Some v ->
  find (installed (fs w)) (FaceFusionBatch.possible_paths env) = Some c ->
  fst (FaceFusionBatch._find_facefusion env self w) = Ok c.
Proof.
  intros Hv Hc. unfold FaceFusionBatch._find_facefusion.
  rewrite (find_loop_assigned self v _ w Hv), Hc. reflexivity.
Qed.

(** C9: what the code does when no installation path is given and no
    default candidate matches: construction fails with
    [FileNotFoundError]; its message names [~/facefusion],
    [./facefusion] and [/opt/facefusion], and does not name the fourth
    probed candidate, the [projects/facefusion] directory under the
    home directory.  (The specification expects all probed candidates
    to be named.) *)
Theorem C9_not_found_message (env : Env) (a : Args) (w : World) :
  explicit_path a = None ->
  (forall c, In c (FaceFusionBatch.possible_paths env) -> installed (fs w) c = false) ->
  FaceFusionBatch.__init__ env a w
  = (Raise (FileNotFoundError FaceFusionBatch.not_found_message), w)
  /\ map (fun s => Str.contains s FaceFusionBatch.not_found_message)
         ["~/facefusion"; "./facefusion"; "/opt/facefusion"; "projects"]
     = [true; true; true; false]
  /\ List.length (FaceFusionBatch.possible_paths env) = 4%nat
  /\ parts (nth 3 (FaceFusionBatch.possible_paths env) (home env))
     = parts (home env) ++ ["projects"; "facefusion"].
Proof.
  intros Hex Hnone. split; [|split; [|split]].
  - rewrite (init_auto env a w Hex), (existsb_none _ _ Hnone). reflexivity.
  - vm_compute. reflexivity.
  - reflexivity.
  - simpl. now rewrite <- app_assoc.
Qed.

Lemma C9_not_found_message_witness :
  FaceFusionBatch.__init__ Demo.env Demo.args_auto (Demo.world Demo.disk)
  = (Raise (FileNotFoundError FaceFusionBatch.not_found_message),
     Demo.world Demo.disk)
  /\ Str.contains "projects" FaceFusionBatch.not_found_message = false.
Proof.
  destruct (C9_not_found_message Demo.env Demo.args_auto (Demo.world Demo.disk)
              eq_refl) as [H1 [H2 _]].
  - intros c Hc. simpl in Hc.
    repeat (destruct Hc as [<-|Hc]; [reflexivity|]). contradiction.
  - split; [exact H1|].
    exact (f_equal (fun l => nth 3 l true) H2).
Defined.

(** ** Validation order *)

Lemma validate_no_images_raises (self : FaceFusionBatch.t) (w : World) :
  FaceFusionBatch._get_target_images self w = (Ok [], w) ->
  exists e, FaceFusionBatch._validate_inputs self w = (Raise e, w)
            /\ match e with
               | FileNotFoundError _ | ValueError _ => True
               | _ => False
               end.
Proof.
  intros Hget.
  unfold FaceFusionBatch._validate_inputs, bind, path_exists, raise.
  destruct (negb (exists_ (fs w) (FaceFusionBatch.source_image self)));
    [eexists; split; [reflexivity|exact I]|].
  destruct (negb (exists_ (fs w) (FaceFusionBatch.target_dir self)));
    [eexists; split; [reflexivity|exact I]|].
  destruct (negb (exists_ (fs w) _));
    [eexists; split; [reflexivity|exact I]|].
  rewrite Hget. eexists; split; [reflexivity|exact I].
Qed.

Lemma get_target_images_none (self : FaceFusionBatch.t) (w : World) :
  is_dir (fs w) (FaceFusionBatch.target_dir self) = true ->
  (forall n, In n (listdir (fs w) (FaceFusionBatch.target_dir self)) ->
             FaceFusionBatch.keep_image (fs w)
               (PurePath.make_child (FaceFusionBatch.target_dir self) n) = false) ->
  FaceFusionBatch._get_target_images self w = (Ok [], w).
Proof.
  intros Hd Hnone. rewrite (get_target_images_eq self w Hd).
  rewrite filter_all_false; [reflexivity|].
  intros p Hp. apply in_map_iff in Hp. destruct Hp as [n [<- Hn]]. now apply Hnone.
Qed.

Lemma get_target_images_some (self : FaceFusionBatch.t) (w : World) (n : string) :
  is_dir (fs w) (FaceFusionBatch.target_dir self) = true ->
  In n (listdir (fs w) (FaceFusionBatch.target_dir self)) ->
  FaceFusionBatch.keep_image (fs w)
    (PurePath.make_child (FaceFusionBatch.target_dir self) n) = true ->
  exists t l, FaceFusionBatch._get_target_images self w = (Ok (t :: l), w).
Proof.
  intros Hd Hn Hk. rewrite (get_target_images_eq self w Hd).
  set (raw := filter _ _).
  assert (Hne : raw <> [])
    by (apply (filter_some_true _ _ (PurePath.make_child
                                       (FaceFusionBatch.target_dir self) n));
        [now apply in_map|exact Hk]).
  destruct (sorted raw) as [|t l] eqn:Es; [|eauto].
  exfalso. apply Hne.
  apply Permutation_nil. rewrite <- Es. apply Permutation_sym, sorted_perm.
Qed.

(** C7: [_validate_inputs] checks, in this order, that the source
    exists, that the target directory exists, that [facefusion.py]
    exists under the installation path, and that the target directory
    lists a supported image; the first check that fails decides the
    exception, whatever the later checks would say, and the four
    exceptions differ from one another; when all four pass the
    validator returns.  A target directory without supported images
    makes construction fail: [__init__] raises, the world is
    unchanged, no child process is spawned and [main] exits 1. *)
Theorem C7_validation_order :
  (forall (self : FaceFusionBatch.t) (w : World),
      (exists_ (fs w) (FaceFusionBatch.source_image self) = false ->
       FaceFusionBatch._validate_inputs self w
       = (Raise (FileNotFoundError
                   ("Source image not found: "
                    ++ PurePath.str (FaceFusionBatch.source_image self))), w))
      /\ (exists_ (fs w) (FaceFusionBatch.source_image self) = true ->
          exists_ (fs w) (FaceFusionBatch.target_dir self) = false ->
          FaceFusionBatch._validate_inputs self w
          = (Raise (FileNotFoundError
                      ("Target directory not found: "
                       ++ PurePath.str (FaceFusionBatch.target_dir self))), w))
      /\ (exists_ (fs w) (FaceFusionBatch.source_image self) = true ->
          exists_ (fs w) (FaceFusionBatch.target_dir self) = true ->
          exists_ (fs w) (FaceFusionBatch.facefusion_path self // "facefusion.py")
          = false ->
          FaceFusionBatch._validate_inputs self w
          = (Raise (FileNotFoundError
                      ("facefusion.py not found in: "
                       ++ PurePath.str (FaceFusionBatch.facefusion_path self))), w))
      /\ (exists_ (fs w) (FaceFusionBatch.source_image self) = true ->
          is_dir (fs w) (FaceFusionBatch.target_dir self) = true ->
          exists_ (fs w) (FaceFusionBatch.facefusion_path self // "facefusion.py")
          = true ->
          (forall n, In n (listdir (fs w) (FaceFusionBatch.target_dir self)) ->
                     FaceFusionBatch.keep_image (fs w)
                       (PurePath.make_child (FaceFusionBatch.target_dir self) n)
                     = false) ->
          FaceFusionBatch._validate_inputs self w
          = (Raise (ValueError
                      ("No valid image files found in target directory: "
                       ++ PurePath.str (FaceFusionBatch.target_dir self))), w))
      /\ (exists_ (fs w) (FaceFusionBatch.source_image self) = true ->
          is_dir (fs w) (FaceFusionBatch.target_dir self) = true ->
          exists_ (fs w) (FaceFusionBatch.facefusion_path self // "facefusion.py")
          = true ->
          (exists n, In n (listdir (fs w) (FaceFusionBatch.target_dir self))
                     /\ FaceFusionBatch.keep_image (fs w)
                          (PurePath.make_child (FaceFusionBatch.target_dir self) n)
                        = true) ->
          FaceFusionBatch._validate_inputs self w = (Ok tt, w)))
  /\ (forall x y z u : string,
         let e1 := FileNotFoundError ("Source image not found: " ++ x) in
         let e2 := FileNotFoundError ("Target directory not found: " ++ y) in
         let e3 := FileNotFoundError ("facefusion.py not found in: " ++ z) in
         let e4 := ValueError ("No valid image files found in target directory: "
                               ++ u) in
         e1 <> e2 /\ e1 <> e3 /\ e1 <> e4 /\ e2 <> e3 /\ e2 <> e4 /\ e3 <> e4)
  /\ (forall (env : Env) (a : Args) (w : World),
         is_dir (fs w) (PurePath.of_str (arg_target_dir a)) = true ->
         (forall n, In n (listdir (fs w) (PurePath.of_str (arg_target_dir a))) ->
                    FaceFusionBatch.keep_image (fs w)
                      (PurePath.make_child (PurePath.of_str (arg_target_dir a)) n)
                    = false) ->
         (exists e, FaceFusionBatch.__init__ env a w = (Raise e, w))
         /\ fst (main env a w) = 1%Z
         /\ spawned (snd (main env a w)) = spawned w).
Proof.
  split; [|split].
  - intros self w.
    assert (Hdir : is_dir (fs w) (FaceFusionBatch.target_dir self) = true ->
                   exists_ (fs w) (FaceFusionBatch.target_dir self) = true).
    { unfold is_dir, exists_.
      destruct (kind_of (fs w) (FaceFusionBatch.target_dir self)) as [[|]|];
        congruence. }
    split; [|split; [|split; [|split]]].
    + intros H1. unfold FaceFusionBatch._validate_inputs, bind, path_exists.
      now rewrite H1.
    + intros H1 H2. unfold FaceFusionBatch._validate_inputs, bind, path_exists.
      rewrite H1; cbv beta iota delta [negb]. now rewrite H2.
    + intros H1 H2 H3. unfold FaceFusionBatch._validate_inputs, bind, path_exists.
      rewrite H1; cbv beta iota delta [negb].
      rewrite H2; cbv beta iota delta [negb]. now rewrite H3.
    + intros H1 Hd H3 Hnone.
      rewrite (validate_after_existence self w H1 (Hdir Hd) H3).
      now rewrite (get_target_images_none self w Hd Hnone).
    + intros H1 Hd H3 [n [Hn Hk]].
      rewrite (validate_after_existence self w H1 (Hdir Hd) H3).
      destruct (get_target_images_some self w n Hd Hn Hk) as [t [l ->]].
      reflexivity.
  - intros x y z u. cbv zeta. repeat split; discriminate.
  - intros env a w Hd Hnone.
    assert (Hinit : exists e,
               FaceFusionBatch.__init__ env a w = (Raise e, w)
               /\ e <> KeyboardInterrupt).
    { destruct (explicit_path a) as [ffp|] eqn:Ex.
      - rewrite (init_explicit env a w ffp Ex).
        destruct (validate_no_images_raises (instance_of a ffp) w) as [e [-> He]];
          [now apply get_target_images_none|].
        exists e. split; [reflexivity|]. now destruct e.
      - rewrite (init_auto env a w Ex). eexists. split; [reflexivity|].
        now destruct (existsb _ _). }
    destruct Hinit as [e [Hinit Hne]].
    destruct (main_init_raise env a w e w Hinit) as [Hcode [_ Hsp]].
    split; [eauto|]. split; [|exact Hsp].
    rewrite Hcode. destruct e; congruence.
Qed.

Lemma C7_validation_order_witness :
  let inst src td ff :=
    FaceFusionBatch.mk (PurePath.of_str src) (PurePath.of_str td)
                       (PurePath.of_str "out") (PurePath.of_str ff)
                       "cpu" "inswapper_128" false in
  let w := Demo.world Demo.disk in
  fst (FaceFusionBatch._validate_inputs (inst "nope.jpg" "nodir" "/opt/none") w)
  = Raise (FileNotFoundError "Source image not found: nope.jpg")
  /\ fst (FaceFusionBatch._validate_inputs (inst "face.jpg" "nodir" "/opt/none") w)
     = Raise (FileNotFoundError "Target directory not found: nodir")
  /\ fst (FaceFusionBatch._validate_inputs (inst "face.jpg" "empty" "/opt/none") w)
     = Raise (FileNotFoundError "facefusion.py not found in: /opt/none")
  /\ fst (FaceFusionBatch._validate_inputs (inst "face.jpg" "empty" "/opt/ff") w)
     = Raise (ValueError "No valid image files found in target directory: empty")
  /\ fst (FaceFusionBatch._validate_inputs (inst "face.jpg" "targets" "/opt/ff") w)
     = Ok tt
  /\ fst (main Demo.env Demo.args_empty w) = 1%Z
  /\ spawned (snd (main Demo.env Demo.args_empty w)) = [].
Proof.
  intros inst w.
  destruct C7_validation_order as [Hval [_ Hinit]].
  split; [|split; [|split; [|split; [|split]]]].
  - destruct (Hval (inst "nope.jpg" "nodir" "/opt/none") w) as [H _].
    now rewrite (H eq_refl).
  - destruct (Hval (inst "face.jpg" "nodir" "/opt/none") w) as [_ [H _]].
    now rewrite (H eq_refl eq_refl).
  - destruct (Hval (inst "face.jpg" "empty" "/opt/none") w) as [_ [_ [H _]]].
    now rewrite (H eq_refl eq_refl eq_refl).
  - destruct (Hval (inst "face.jpg" "empty" "/opt/ff") w) as [_ [_ [_ [H _]]]].
    rewrite (H eq_refl eq_refl eq_refl); [reflexivity|].
    intros n [<-|[]]. reflexivity.
  - destruct (Hval (inst "face.jpg" "targets" "/opt/ff") w) as [_ [_ [_ [_ H]]]].
    rewrite (H eq_refl eq_refl eq_refl); [reflexivity|].
    exists "a.jpg". split; [simpl; tauto|reflexivity].
  - destruct (Hinit Demo.env Demo.args_empty w eq_refl) as [_ [H1 H2]].
    + intros n [<-|[]]. reflexivity.
    + split; [exact H1|exact H2].
Defined.

Section ConstructionOrder.

Variable env : Env.






End ConstructionOrder.



Example init_creates_missing_parents :
  let a := mkArgs "face.jpg" "targets" "results/run1/out" (Some "/opt/ff")
                  "cpu" "inswapper_128" false in
  let w' := snd (FaceFusionBatch.__init__ Demo.env a (Demo.world Demo.disk)) in
  map (fun s => kind_of (fs w') (PurePath.of_str s))
      ["results"; "results/run1"; "results/run1/out"]
  = [Some Directory; Some Directory; Some Directory].
Proof. reflexivity. Qed.

Example init_output_is_a_file :
  let a := mkArgs "face.jpg" "targets" "face.jpg/out" (Some "/opt/ff")
                  "cpu" "inswapper_128" false in
  FaceFusionBatch.__init__ Demo.env a (Demo.world Demo.disk)
  = (Raise (NotADirectoryError "face.jpg/out"), Demo.world Demo.disk).
Proof. reflexivity. Qed.

Lemma failures_zero_iff (results : list bool) :
  failures results = 0%nat <-> forall ok, In ok results -> ok = true.
Proof.
  unfold failures. induction results as [|[|] l IH]; simpl.
  - split; [intros _ ok []|reflexivity].
  - rewrite IH. split; [intros H ok [<-|Hin]; auto|intros H ok Hin; auto].
  - split; [discriminate|intros H]. discriminate (H false (or_introl eq_refl)).
Qed.

(** C8: [main] exits with status 0 when the batch completes with a
    failure count of zero, with status 1 when it completes with one or
    more failures or when construction or the batch raises an exception
    of class [Exception] (a validation error or any other), and with
    status 130 when [KeyboardInterrupt] is raised.  The pair the batch
    controller returns is (successes, failures): the first component
    is the number of jobs that returned [True], the second the number
    that returned [False], one job having been run per enumerated
    target; so the failure count is zero exactly when every job
    returned [True], and [main] exits 0 when every job returned [True]
    and 1 when some job returned [False].  A job skipped because its
    output exists returns [True] and counts as a success. *)
Theorem C8_exit_status (env : Env) :
  (forall (a : Args) (w : World) (self : FaceFusionBatch.t) (w1 : World)
          (s f : nat) (w2 : World),
      FaceFusionBatch.__init__ env a w = (Ok self, w1) ->
      FaceFusionBatch.process_batch env self w1 = (Ok (s, f), w2) ->
      (f = 0%nat -> fst (main env a w) = 0%Z)
      /\ (f <> 0%nat -> fst (main env a w) = 1%Z))
  /\ (forall (a : Args) (w : World) (e : Exn) (w1 : World),
         FaceFusionBatch.__init__ env a w = (Raise e, w1) ->
         is_Exception e = true ->
         fst (main env a w) = 1%Z)
  /\ (forall (a : Args) (w : World) (self : FaceFusionBatch.t) (w1 : World)
             (e : Exn) (w2 : World),
         FaceFusionBatch.__init__ env a w = (Ok self, w1) ->
         FaceFusionBatch.process_batch env self w1 = (Raise e, w2) ->
         (is_Exception e = true -> fst (main env a w) = 1%Z)
         /\ (e = KeyboardInterrupt -> fst (main env a w) = 130%Z))
  /\ (forall (self : FaceFusionBatch.t) (w : World) (s f : nat) (w' : World),
         FaceFusionBatch.process_batch env self w = (Ok (s, f), w') ->
         exists targets results w2,
           FaceFusionBatch._get_target_images self w = (Ok targets, w)
           /\ batch_run env self (List.length targets) 1 targets
                 (after_header w (List.length targets)) results w2
           /\ s = successes results
           /\ f = failures results
           /\ (s + f)%nat = List.length targets
           /\ (f = 0%nat <-> forall ok, In ok results -> ok = true))
  /\ (forall (a : Args) (w : World) (self : FaceFusionBatch.t) (w1 : World)
             (targets : list Path) (results : list bool) (w2 : World),
         FaceFusionBatch.__init__ env a w = (Ok self, w1) ->
         FaceFusionBatch._get_target_images self w1 = (Ok targets, w1) ->
         batch_run env self (List.length targets) 1 targets
           (after_header w1 (List.length targets)) results w2 ->
         ((forall ok, In ok results -> ok = true) -> fst (main env a w) = 0%Z)
         /\ (In false results -> fst (main env a w) = 1%Z))
  /\ (forall (self : FaceFusionBatch.t) (w : World) (targets : list Path),
         FaceFusionBatch.verbose self = false ->
         (forall idx, sigint_in_sleep env idx = false) ->
         FaceFusionBatch._get_target_images self w = (Ok targets, w) ->
         (forall t, In t targets ->
                    exists_ (fs w) (FaceFusionBatch.output_path self t) = true) ->
         exists w',
           FaceFusionBatch.process_batch env self w
           = (Ok (List.length targets, 0%nat), w')
           /\ spawned w' = spawned w).
Proof.
  split; [|split; [|split; [|split; [|split]]]].
  - intros a w self w1 s f w2 Hinit Hbatch.
    rewrite (main_batch_done env a w self w1 s f w2 Hinit Hbatch). simpl.
    split.
    + now intros ->.
    + intros Hf. apply Nat.eqb_neq in Hf. now rewrite Hf.
  - intros a w e w1 Hinit He.
    destruct (main_init_raise env a w e w1 Hinit) as [-> _].
    now destruct e.
  - intros a w self w1 e w2 Hinit Hbatch.
    rewrite (main_batch_raise env a w self w1 e w2 Hinit Hbatch).
    split; [now destruct e|now intros ->].
  - intros self w s f w' H.
    destruct (process_batch_tally env self w s f w' H) as [targets [Hget Hsum]].
    rewrite (process_batch_eq env self w targets Hget) in H.
    destruct (FaceFusionBatch.batch_loop env self _ 1 targets 0 0 _)
      as [[[s0 f0]|e] w2] eqn:El; [|discriminate].
    injection H as <- <- _.
    destruct (run_of_batch_loop env self _ _ _ _ _ _ _ _ _ El)
      as [results [Hrun [-> ->]]].
    exists targets, results, w2. simpl in *.
    repeat split; auto; apply failures_zero_iff.
  - intros a w self w1 targets results w2 Hinit Hget Hrun.
    assert (Hb : FaceFusionBatch.process_batch env self w1
                 = (Ok (successes results, failures results),
                    after_summary w2 (successes results) (failures results)
                                  (List.length targets))).
    { rewrite (process_batch_eq env self w1 targets Hget).
      unfold after_header in Hrun.
      now rewrite (batch_loop_of_run env self _ _ _ _ _ _ Hrun 0%nat 0%nat). }
    rewrite (main_batch_done env a w self w1 _ _ _ Hinit Hb). cbn [fst].
    split.
    + intros Hall. now rewrite (proj2 (failures_zero_iff results) Hall).
    + intros Hin.
      destruct (failures results =? 0)%nat eqn:E; [|reflexivity].
      apply Nat.eqb_eq in E.
      discriminate (proj1 (failures_zero_iff results) E false Hin).
  - intros self w targets Hv Hsleep Hget Hex.
    destruct (process_batch_all_skipped env self w targets Hv Hsleep Hget Hex)
      as [w' [H [_ Hs]]].
    eauto.
Qed.

Lemma C8_exit_status_witness :
  fst (main Demo.env Demo.args_pics (Demo.world Demo.disk)) = 0%Z
  /\ fst (main Demo.env Demo.args (Demo.world Demo.disk)) = 1%Z
  /\ fst (main Demo.env Demo.args_empty (Demo.world Demo.disk)) = 1%Z
  /\ fst (main Demo.env_interrupted Demo.args (Demo.world Demo.disk)) = 130%Z
  /\ (exists targets results w2,
         FaceFusionBatch._get_target_images Demo.self (Demo.world Demo.disk)
         = (Ok targets, Demo.world Demo.disk)
         /\ batch_run Demo.env Demo.self (List.length targets) 1 targets
               (after_header (Demo.world Demo.disk) (List.length targets))
               results w2
         /\ 1%nat = successes results
         /\ 1%nat = failures results
         /\ (1 + 1)%nat = List.length targets
         /\ (1%nat = 0%nat <-> forall ok, In ok results -> ok = true))
  /\ fst (main Demo.env_broken Demo.args (Demo.world Demo.disk)) = 1%Z
  /\ (exists w',
         FaceFusionBatch.process_batch Demo.env Demo.self_done (Demo.world Demo.disk)
         = (Ok (2%nat, 0%nat), w')
         /\ spawned w' = []).
Proof.
  split; [|split; [|split; [|split; [|split; [|split]]]]].
  - eapply (proj1 (proj1 (C8_exit_status Demo.env)
                     Demo.args_pics (Demo.world Demo.disk) _ _ 2%nat 0%nat _
                     eq_refl eq_refl)).
    reflexivity.
  - eapply (proj2 (proj1 (C8_exit_status Demo.env)
                     Demo.args (Demo.world Demo.disk) _ _ 1%nat 1%nat _
                     eq_refl eq_refl)).
    discriminate.
  - eapply (proj1 (proj2 (C8_exit_status Demo.env))
                  Demo.args_empty (Demo.world Demo.disk)
                  (ValueError "No valid image files found in target directory: empty")
                  _ eq_refl).
    reflexivity.
  - eapply (proj2 (proj1 (proj2 (proj2 (C8_exit_status Demo.env_interrupted)))
                     Demo.args (Demo.world Demo.disk) _ _ KeyboardInterrupt _
                     eq_refl eq_refl)).
    reflexivity.
  - exact (proj1 (proj2 (proj2 (proj2 (C8_exit_status Demo.env))))
                 Demo.self (Demo.world Demo.disk) 1%nat 1%nat
                 (snd (FaceFusionBatch.process_batch Demo.env Demo.self
                         (Demo.world Demo.disk)))
                 eq_refl).
  - set (wi := snd (FaceFusionBatch.__init__ Demo.env_broken Demo.args
                      (Demo.world Demo.disk))).
    set (w0 := after_header wi 2).
    set (w1 := snd (FaceFusionBatch.process_single_image Demo.env_broken Demo.self
                      (PurePath.of_str "targets/a.jpg")
                      (mkWorld (fs w0) (printed w0 ++ [Processing 1 2 "a.jpg"])
                               (spawned w0)))).
    set (w2 := snd (FaceFusionBatch.process_single_image Demo.env_broken Demo.self
                      (PurePath.of_str "targets/b.PNG")
                      (mkWorld (fs w1) (printed w1 ++ [Processing 2 2 "b.PNG"])
                               (spawned w1)))).
    assert (Hrun : batch_run Demo.env_broken Demo.self 2 1
                     [PurePath.of_str "targets/a.jpg"; PurePath.of_str "targets/b.PNG"]
                     w0 [false; false] w2).
    { apply batch_run_cons with (w2 := w1); [reflexivity|intros _; reflexivity|].
      apply batch_run_cons with (w2 := w2);
        [reflexivity|intros _; reflexivity|apply batch_run_nil]. }
    apply (proj2 (proj1 (proj2 (proj2 (proj2 (proj2 (C8_exit_status Demo.env_broken)))))
                    Demo.args (Demo.world Demo.disk) Demo.self wi _ _ w2
                    eq_refl eq_refl Hrun)).
    simpl. auto.
  - apply (proj2 (proj2 (proj2 (proj2 (proj2 (C8_exit_status Demo.env)))))
                 Demo.self_done (Demo.world Demo.disk)
                 [PurePath.of_str "pics/a.jpg"; PurePath.of_str "pics/b.png"]
                 eq_refl (fun _ => eq_refl) eq_refl).
    intros t [<-|[<-|[]]]; reflexivity.
Defined.

(** ** Worked runs *)

Example of_str_rel :
  PurePath.of_str "./targets/a.JPG" = mkPath "" ["targets"; "a.JPG"].
Proof. reflexivity. Qed.

Example of_str_abs :
  PurePath.of_str "/opt//facefusion/" = mkPath "/" ["opt"; "facefusion"].
Proof. reflexivity. Qed.

Example str_div :
  PurePath.str (PurePath.of_str "/opt/facefusion" // "facefusion.py")
  = "/opt/facefusion/facefusion.py".
Proof. reflexivity. Qed.

Example suffix_examples :
  map (fun s => PurePath.suffix (PurePath.of_str s))
      ["a.jpg"; "a.tar.gz"; ".jpg"; "a."; "a"; "..jpg"]
  = [".jpg"; ".gz"; ""; ""; ""; ".jpg"].
Proof. reflexivity. Qed.

Example stem_examples :
  map (fun s => PurePath.stem (PurePath.of_str s))
      ["a.jpg"; "a.tar.gz"; ".jpg"; "a."; "a"; "dir/b.png"]
  = ["a"; "a.tar"; ".jpg"; "a."; "a"; "b"].
Proof. reflexivity. Qed.

(** Source [face.jpg], a target directory holding [a.jpg], [b.png] and
    [notes.txt], a tool that exits 0 and writes the expected file: two
    successes, no failure, exit status 0, and [notes.txt] is never
    handed to the tool. *)
Example end_to_end :
  let r := main Demo.env Demo.args_pics (Demo.world Demo.disk) in
  fst r = 0%Z
  /\ printed (snd r)
     = [BatchHeader 2;
        Processing 1 2 "a.jpg"; SuccessLine "a.jpg" "face_to_a.jpg";
        Processing 2 2 "b.png"; SuccessLine "b.png" "face_to_b.png";
        Summary 2 0 2]
  /\ map (fun c => nth 6 (fst c) "") (spawned (snd r)) = ["pics/a.jpg"; "pics/b.png"]
  /\ map (fun c => nth 8 (fst c) "") (spawned (snd r))
     = ["out/face_to_a.jpg"; "out/face_to_b.png"].
Proof. vm_compute. repeat split. Qed.

Example interrupted_run :
  let r := main Demo.env_interrupted Demo.args (Demo.world Demo.disk) in
  fst r = 130%Z
  /\ printed (snd r) = [BatchHeader 2; Processing 1 2 "a.jpg"; InterruptedLine].
Proof. vm_compute. repeat split. Qed.

(** A target path that exists but is a regular file passes the second
    check and makes the enumeration itself raise. *)
Example target_dir_is_a_file :
  FaceFusionBatch._validate_inputs
    (FaceFusionBatch.mk (PurePath.of_str "face.jpg") (PurePath.of_str "face.jpg")
       (PurePath.of_str "out") (PurePath.of_str "/opt/ff") "cpu" "inswapper_128" false)
    (Demo.world Demo.disk)
  = (Raise (NotADirectoryError "face.jpg"), Demo.world Demo.disk).
Proof. reflexivity. Qed.

(** * Further properties of the script *)

(** ** Where the output goes *)

Section OutputPlace.

Lemma split_no_slash (s : string) :
  no_slash s = true -> Str.split PurePath.slash s = [s].
Proof.
  induction s as [|a s IH]; simpl; [reflexivity|].
  intros H. apply andb_true_iff in H. destruct H as [Ha Hs].
  apply negb_true_iff in Ha. rewrite Ha, (IH Hs). reflexivity.
Qed.

Lemma split_fields_no_slash (s : string) :
  Forall (fun c => no_slash c = true) (Str.split PurePath.slash s).
Proof.
  induction s as [|a s IH]; simpl; [repeat constructor|].
  destruct (Ascii.eqb a PurePath.slash) eqn:Ea; [constructor; auto|].
  destruct (Str.split PurePath.slash s) as [|f fs]; inversion IH; subst;
    constructor; simpl; auto; rewrite Ea; simpl; auto.
Qed.

Lemma of_str_parts_no_slash (s : string) :
  Forall (fun c => no_slash c = true) (parts (PurePath.of_str s)).
Proof.
  unfold PurePath.of_str. destruct (PurePath.splitroot s) as [r rel]. simpl.
  apply Forall_forall. intros c Hc. apply filter_In in Hc. destruct Hc as [Hc _].
  revert c Hc. apply Forall_forall, split_fields_no_slash.
Qed.

Lemma name_of_str_no_slash (s : string) :
  no_slash (PurePath.name (PurePath.of_str s)) = true.
Proof.
  unfold PurePath.name.
  pose proof (of_str_parts_no_slash s) as H.
  induction H as [|c l Hc Hl IH]; [reflexivity|].
  destruct l; [exact Hc|exact IH].
Qed.

Lemma no_slash_app (a b : string) :
  no_slash (a ++ b) = no_slash a && no_slash b.
Proof.
  induction a as [|c a IH]; simpl; [reflexivity|].
  now rewrite IH, andb_assoc.
Qed.

Lemma no_slash_take (n : nat) (s : string) :
  no_slash s = true -> no_slash (Str.take n s) = true.
Proof.
  revert s; induction n as [|n IH]; intros [|a s]; simpl; auto.
  intros H. apply andb_true_iff in H. destruct H as [-> Hs]. simpl. auto.
Qed.

Lemma no_slash_stem (p : Path) :
  no_slash (PurePath.name p) = true -> no_slash (PurePath.stem p) = true.
Proof.
  unfold PurePath.stem. destruct (_ && _); [apply no_slash_take|auto].
Qed.

Lemma of_str_component (s : string) :
  no_slash s = true -> s <> "" -> s <> "." ->
  PurePath.of_str s = mkPath "" [s].
Proof.
  intros Hs He Hd. unfold PurePath.of_str.
  assert (Hroot : PurePath.splitroot s = ("", s)).
  { destruct s as [|a s]; [reflexivity|]. simpl in *.
    apply andb_true_iff in Hs. destruct Hs as [Ha _].
    apply negb_true_iff in Ha. now rewrite Ha. }
  rewrite Hroot, (split_no_slash s Hs). simpl.
  apply String.eqb_neq in He, Hd. now rewrite He, Hd.
Qed.

Lemma div_component (p : Path) (s : string) :
  no_slash s = true -> s <> "" -> s <> "." ->
  p // s = PurePath.make_child p s.
Proof.
  intros Hs He Hd. unfold PurePath.div. now rewrite (of_str_component s Hs He Hd).
Qed.

Lemma length_app_str (a b : string) :
  String.length (a ++ b) = (String.length a + String.length b)%nat.
Proof. induction a as [|c a IH]; simpl; [reflexivity|now rewrite IH]. Qed.

Lemma output_filename_long (self : FaceFusionBatch.t) (target : Path) :
  (4 <= String.length (FaceFusionBatch.output_filename self target))%nat.
Proof.
  unfold FaceFusionBatch.output_filename.
  rewrite length_app_str, (length_app_str "_to_"). simpl. lia.
Qed.

Lemma parent_make_child (d : Path) (n : string) :
  PurePath.parent (PurePath.make_child d n) = d.
Proof.
  destruct d as [r ps]. unfold PurePath.parent, PurePath.make_child; simpl.
  now rewrite removelast_last.
Qed.

End OutputPlace.

(** X1: the output name is the source stem, ["_to_"] and the whole
    file name of the target; so two targets get the same output name
    exactly when they have the same file name (targets [a.jpg] and
    [a.png], equal in stem, are kept apart). *)
Theorem X1_output_filename_keeps_target_name
        (self : FaceFusionBatch.t) (t1 t2 : Path) :
  FaceFusionBatch.output_filename self t1
  = (PurePath.stem (FaceFusionBatch.source_image self) ++ "_to_"
     ++ PurePath.name t1)%string
  /\ (FaceFusionBatch.output_filename self t1
      = FaceFusionBatch.output_filename self t2
      <-> PurePath.name t1 = PurePath.name t2).
Proof.
  split; [apply output_filename_name|]. split.
  - apply output_filename_inj.
  - intros H. rewrite !output_filename_name. now rewrite H.
Qed.

(** X2: for an instance built from command-line arguments and a target
    that is a directory entry (a name without a separator), the output
    path is the child of the output directory named by the output file
    name: the output is written directly inside the output directory,
    never above it or in a subdirectory. *)
Theorem X2_output_inside_output_dir (a : Args) (ffp : Path) (n : string) :
  no_slash n = true ->
  let self := instance_of a ffp in
  let target := PurePath.make_child (FaceFusionBatch.target_dir self) n in
  FaceFusionBatch.output_path self target
  = PurePath.make_child (FaceFusionBatch.output_dir self)
                        (FaceFusionBatch.output_filename self target)
  /\ PurePath.parent (FaceFusionBatch.output_path self target)
     = FaceFusionBatch.output_dir self
  /\ PurePath.name (FaceFusionBatch.output_path self target)
     = FaceFusionBatch.output_filename self target.
Proof.
  intros Hn self target.
  assert (Hout : FaceFusionBatch.output_path self target
                 = PurePath.make_child (FaceFusionBatch.output_dir self)
                     (FaceFusionBatch.output_filename self target)).
  { unfold FaceFusionBatch.output_path. apply div_component.
    - rewrite output_filename_name, !no_slash_app.
      unfold target. rewrite name_make_child, Hn.
      unfold self, instance_of; simpl.
      rewrite (no_slash_stem _ (name_of_str_no_slash (arg_source a))).
      reflexivity.
    - intros E. pose proof (output_filename_long self target) as H.
      rewrite E in H. simpl in H. lia.
    - intros E. pose proof (output_filename_long self target) as H.
      rewrite E in H. simpl in H. lia. }
  rewrite Hout. split; [reflexivity|]. split.
  - apply parent_make_child.
  - apply name_make_child.
Qed.

Lemma X2_output_inside_output_dir_witness :
  FaceFusionBatch.output_path Demo.self (PurePath.of_str "targets/a.jpg")
  = PurePath.of_str "out/face_to_a.jpg"
  /\ PurePath.parent (FaceFusionBatch.output_path Demo.self
                        (PurePath.of_str "targets/a.jpg"))
     = PurePath.of_str "out"
  /\ PurePath.name (FaceFusionBatch.output_path Demo.self
                      (PurePath.of_str "targets/a.jpg"))
     = "face_to_a.jpg".
Proof.
  exact (X2_output_inside_output_dir Demo.args (PurePath.of_str "/opt/ff")
           "a.jpg" eq_refl).
Defined.

(** ** Locating the installation *)

Section LocatorMore.

Lemma find_split {A} (f : A -> bool) (l : list A) (c : A) :
  find f l = Some c ->
  exists pre post, l = pre ++ c :: post
                   /\ f c = true
                   /\ forall x, In x pre -> f x = false.
Proof.
  induction l as [|x l IH]; simpl; [discriminate|].
  destruct (f x) eqn:Ex.
  - intros H; injection H as <-. exists [], l. repeat split; auto.
    intros y [].
  - intros H. destruct (IH H) as [pre [post [-> [Hc Hpre]]]].
    exists (x :: pre), post. repeat split; auto.
    intros y [<-|Hy]; auto.
Qed.

End LocatorMore.

(** X3: when no installation path is given (the argument is absent or
    the empty string), construction never returns: [__init__] raises,
    the world is left as it was, and [main] exits with status 1
    without spawning the tool or touching the disk. *)
Theorem X3_auto_detection_never_succeeds (env : Env) (a : Args) (w : World) :
  arg_facefusion_path a = None \/ arg_facefusion_path a = Some "" ->
  (exists e, FaceFusionBatch.__init__ env a w = (Raise e, w)
             /\ (e = no_verbose_attribute
                 \/ e = FileNotFoundError FaceFusionBatch.not_found_message))
  /\ fst (main env a w) = 1%Z
  /\ fs (snd (main env a w)) = fs w
  /\ spawned (snd (main env a w)) = spawned w.
Proof.
  intros Harg.
  assert (Hex : explicit_path a = None)
    by (unfold explicit_path; destruct Harg as [-> | ->]; reflexivity).
  pose proof (init_auto env a w Hex) as Hinit.
  destruct (main_init_raise env a w _ w Hinit) as [Hcode [Hfs Hsp]].
  split; [|split; [|split]]; auto.
  - eexists. split; [exact Hinit|]. destruct (existsb _ _); auto.
  - rewrite Hcode. now destruct (existsb _ _).
Qed.

Lemma X3_auto_detection_never_succeeds_witness :
  fst (main Demo.env
         (mkArgs "face.jpg" "targets" "out" (Some "") "cpu" "inswapper_128" false)
         (Demo.world Demo.disk_home)) = 1%Z
  /\ fst (main Demo.env Demo.args_auto (Demo.world Demo.disk)) = 1%Z.
Proof.
  split.
  - apply (X3_auto_detection_never_succeeds Demo.env
             (mkArgs "face.jpg" "targets" "out" (Some "") "cpu" "inswapper_128" false)
             (Demo.world Demo.disk_home) (or_intror eq_refl)).
  - apply (X3_auto_detection_never_succeeds Demo.env Demo.args_auto
             (Demo.world Demo.disk) (or_introl eq_refl)).
Defined.

(** X4: called on an instance whose [verbose] attribute is assigned,
    [_find_facefusion] returns the first of its four candidates, in
    list order, that exists and holds [facefusion.py] (every earlier
    candidate failing that test), and raises [FileNotFoundError] exactly
    when no candidate passes; it prints the find only when verbose and
    never touches the disk. *)
Theorem X4_find_facefusion_first_match (env : Env)
        (self : FaceFusionBatch.Partial) (v : bool) (w : World) :
  FaceFusionBatch.p_verbose self = Some v ->
  match FaceFusionBatch._find_facefusion env self w with
  | (Ok c, w') =>
      (exists pre post,
          FaceFusionBatch.possible_paths env = pre ++ c :: post
          /\ installed (fs w) c = true
          /\ forall x, In x pre -> installed (fs w) x = false)
      /\ fs w' = fs w /\ spawned w' = spawned w
      /\ printed w' = printed w ++ (if v then [FoundAt c] else [])
  | (Raise e, w') =>
      e = FileNotFoundError FaceFusionBatch.not_found_message
      /\ (forall c, In c (FaceFusionBatch.possible_paths env) ->
                    installed (fs w) c = false)
      /\ w' = w
  end.
Proof.
  intros Hv. unfold FaceFusionBatch._find_facefusion.
  rewrite (find_loop_assigned self v _ w Hv).
  destruct (find (installed (fs w)) (FaceFusionBatch.possible_paths env))
    as [c|] eqn:Ef.
  - split; [now apply find_split|].
    destruct v; simpl; rewrite ?app_nil_r; auto.
  - split; [reflexivity|]. split; [|reflexivity].
    intros c Hc. exact (find_none _ _ Ef c Hc).
Qed.

Lemma X4_find_facefusion_first_match_witness :
  let self := FaceFusionBatch.mkPartial None None None None None None (Some true) in
  let w := Demo.world Demo.disk_home in
  match FaceFusionBatch._find_facefusion Demo.env self w with
  | (Ok c, w') =>
      (exists pre post,
          FaceFusionBatch.possible_paths Demo.env = pre ++ c :: post
          /\ installed (fs w) c = true
          /\ forall x, In x pre -> installed (fs w) x = false)
      /\ fs w' = fs w /\ spawned w' = spawned w
      /\ printed w' = printed w ++ [FoundAt c]
  | (Raise e, w') =>
      e = FileNotFoundError FaceFusionBatch.not_found_message
      /\ (forall c, In c (FaceFusionBatch.possible_paths Demo.env) ->
                    installed (fs w) c = false)
      /\ w' = w
  end.
Proof.
  exact (X4_find_facefusion_first_match Demo.env
           (FaceFusionBatch.mkPartial None None None None None None (Some true))
           true (Demo.world Demo.disk_home) eq_refl).
Defined.

Example find_facefusion_demo :
  fst (FaceFusionBatch._find_facefusion Demo.env
         (FaceFusionBatch.mkPartial None None None None None None (Some true))
         (Demo.world Demo.disk_home))
  = Ok (PurePath.of_str "/home/u/facefusion").
Proof. reflexivity. Qed.

(** ** What construction does to the disk *)

Section ConstructionMore.

Lemma path_eqb_eq (p q : Path) : PurePath.eqb p q = true -> p = q.
Proof.
  destruct p as [r ps], q as [r' ps']. unfold PurePath.eqb; simpl.
  intros H. apply andb_true_iff in H. destruct H as [Hr Hp].
  apply String.eqb_eq in Hr.
  destruct (list_eq_dec string_dec ps ps'); [congruence|discriminate].
Qed.

(** [os.mkdir] only adds: what existed keeps its kind. *)
Lemma os_mkdir_keeps (p : Path) (w : World) (r : Result unit) (w' : World) :
  os_mkdir p w = (r, w') ->
  forall q k, kind_of (fs w) q = Some k -> kind_of (fs w') q = Some k.
Proof.
  intros H q k Hq. destruct r as [u|e];
    pose proof (os_mkdir_spec _ _ _ _ H) as Hs; simpl in Hs.
  - destruct Hs as [Hnone [_ [_ [_ [_ Hfr]]]]].
    destruct (PurePath.eqb q p) eqn:E.
    + apply path_eqb_eq in E. subst q. congruence.
    + now rewrite (Hfr q E).
  - destruct Hs as [-> _]. exact Hq.
Qed.

Lemma mkdir_exist_ok_world (p : Path) (e : Exn) (w : World)
      (r : Result unit) (w' : World) :
  mkdir_exist_ok p e w = (r, w') -> w' = w.
Proof.
  unfold mkdir_exist_ok, bind, path_is_dir, ret, raise.
  destruct (is_dir (fs w) p); congruence.
Qed.

Lemma mkdir_plain_keeps (p : Path) (w : World) (r : Result unit) (w' : World) :
  mkdir_plain p w = (r, w') ->
  forall q k, kind_of (fs w) q = Some k -> kind_of (fs w') q = Some k.
Proof.
  unfold mkdir_plain. intros H q k Hq.
  destruct (os_mkdir p w) as [[u|e] w1] eqn:E;
    pose proof (os_mkdir_keeps _ _ _ _ E q k Hq) as Hk.
  - now injection H as _ <-.
  - destruct e; try (apply mkdir_exist_ok_world in H; now subst);
      now injection H as _ <-.
Qed.

Lemma mkdir_parents_keeps (n : nat) :
  forall (p : Path) (w : World) (r : Result unit) (w' : World),
    mkdir_parents n p w = (r, w') ->
    forall q k, kind_of (fs w) q = Some k -> kind_of (fs w') q = Some k.
Proof.
  induction n as [|n IH]; intros p w r w' H q k Hq; simpl in H;
    destruct (os_mkdir p w) as [[u|e] w1] eqn:E;
    pose proof (os_mkdir_keeps _ _ _ _ E q k Hq) as Hk.
  - now injection H as _ <-.
  - destruct e; try (apply mkdir_exist_ok_world in H; now subst).
    destruct (PurePath.eqb (PurePath.parent p) p); now injection H as _ <-.
  - now injection H as _ <-.
  - destruct e; try (apply mkdir_exist_ok_world in H; now subst).
    destruct (PurePath.eqb (PurePath.parent p) p); [now injection H as _ <-|].
    unfold bind in H.
    destruct (mkdir_parents n (PurePath.parent p) w1) as [[u|e] w2] eqn:Ep.
    + eapply mkdir_plain_keeps; [exact H|].
      eapply IH; [exact Ep|exact Hk].
    + injection H as _ <-. eapply IH; [exact Ep|exact Hk].
Qed.

Lemma prepare_output_dir_keeps (self : FaceFusionBatch.t) (w : World)
      (r : Result unit) (w' : World) :
  FaceFusionBatch._prepare_output_dir self w = (r, w') ->
  forall q k, kind_of (fs w) q = Some k -> kind_of (fs w') q = Some k.
Proof.
  unfold FaceFusionBatch._prepare_output_dir, bind, path_mkdir, when, print, ret.
  intros H q k Hq.
  destruct (mkdir_parents _ _ w) as [[u|e] w1] eqn:E;
    pose proof (mkdir_parents_keeps _ _ _ _ _ E q k Hq) as Hk.
  - destruct (FaceFusionBatch.verbose self); now injection H as _ <-.
  - now injection H as _ <-.
Qed.

(** The exceptions of [mkdir] are of class [Exception]. *)
Lemma os_mkdir_Exception (p : Path) (w : World) (e : Exn) (w' : World) :
  os_mkdir p w = (Raise e, w') -> is_Exception e = true.
Proof.
  intros H. pose proof (os_mkdir_spec _ _ _ _ H) as [_ He].
  now destruct e.
Qed.

Lemma mkdir_exist_ok_Exception (p : Path) (e0 : Exn) (w : World)
      (e : Exn) (w' : World) :
  is_Exception e0 = true ->
  mkdir_exist_ok p e0 w = (Raise e, w') -> is_Exception e = true.
Proof.
  unfold mkdir_exist_ok, bind, path_is_dir, ret, raise.
  destruct (is_dir (fs w) p); [discriminate|]. now intros He0 [= <- _].
Qed.

Lemma mkdir_plain_Exception (p : Path) (w : World) (e : Exn) (w' : World) :
  mkdir_plain p w = (Raise e, w') -> is_Exception e = true.
Proof.
  unfold mkdir_plain.
  destruct (os_mkdir p w) as [[u|e0] w1] eqn:E; [discriminate|].
  apply os_mkdir_Exception in E.
  destruct e0; try (now apply mkdir_exist_ok_Exception);
    now intros [= <- _].
Qed.

Lemma mkdir_parents_Exception (n : nat) :
  forall (p : Path) (w : World) (e : Exn) (w' : World),
    mkdir_parents n p w = (Raise e, w') -> is_Exception e = true.
Proof.
  induction n as [|n IH]; intros p w e w'; simpl;
    destruct (os_mkdir p w) as [[u|e0] w1] eqn:E; try discriminate;
    apply os_mkdir_Exception in E.
  - destruct e0; try (now apply mkdir_exist_ok_Exception).
    destruct (PurePath.eqb _ _); now intros [= <- _].
  - destruct e0; try (now apply mkdir_exist_ok_Exception).
    destruct (PurePath.eqb _ _); [now intros [= <- _]|].
    unfold bind.
    destruct (mkdir_parents n (PurePath.parent p) w1) as [[u|e1] w2] eqn:Ep.
    + apply mkdir_plain_Exception.
    + intros [= <- _]. eapply IH; exact Ep.
Qed.

Lemma validate_Exception (self : FaceFusionBatch.t) (w : World)
      (e : Exn) (w' : World) :
  FaceFusionBatch._validate_inputs self w = (Raise e, w') ->
  is_Exception e = true.
Proof.
  unfold FaceFusionBatch._validate_inputs, bind, path_exists, raise, ret.
  destruct (negb (exists_ (fs w) (FaceFusionBatch.source_image self)));
    [now intros [= <- _]|].
  destruct (negb (exists_ (fs w) (FaceFusionBatch.target_dir self)));
    [now intros [= <- _]|].
  destruct (negb (exists_ (fs w) _)); [now intros [= <- _]|].
  unfold FaceFusionBatch._get_target_images, bind, path_iterdir, iterdir.
  destruct (kind_of (fs w) (FaceFusionBatch.target_dir self)) as [[|]|];
    try (now intros [= <- _]).
  destruct (sorted _); [now intros [= <- _]|discriminate].
Qed.

(** [__init__] raises exceptions of class [Exception] only. *)
Lemma init_Exception (env : Env) (a : Args) (w : World) (e : Exn) (w' : World) :
  FaceFusionBatch.__init__ env a w = (Raise e, w') -> is_Exception e = true.
Proof.
  destruct (explicit_path a) as [ffp|] eqn:Ex.
  - rewrite (init_explicit env a w ffp Ex).
    destruct (FaceFusionBatch._validate_inputs _ w) as [[u|e1] w1] eqn:Ev.
    + unfold FaceFusionBatch._prepare_output_dir, bind, path_mkdir, when, print, ret.
      destruct (mkdir_parents _ _ w1) as [[u'|e2] w2] eqn:Em.
      * simpl. destruct (arg_verbose a); discriminate.
      * intros [= <- _]. eapply mkdir_parents_Exception; exact Em.
    + intros [= <- _]. eapply validate_Exception; exact Ev.
  - rewrite (init_auto env a w Ex). intros H. injection H as <- _.
    match goal with
    | |- is_Exception (if ?b then _ else _) = _ => destruct b
    end; reflexivity.
Qed.

End ConstructionMore.

(** X5: construction never deletes or replaces anything: whatever
    [__init__] does, returning or raising, every path that existed
    before it still exists afterwards with the same kind; it spawns no
    child process. *)
Theorem X5_construction_only_adds (env : Env) (a : Args) (w : World)
        (r : Result FaceFusionBatch.t) (w' : World) :
  FaceFusionBatch.__init__ env a w = (r, w') ->
  (forall q k, kind_of (fs w) q = Some k -> kind_of (fs w') q = Some k)
  /\ spawned w' = spawned w.
Proof.
  intros H.
  destruct (explicit_path a) as [ffp|] eqn:Ex.
  - rewrite (init_explicit env a w ffp Ex) in H.
    destruct (FaceFusionBatch._validate_inputs _ w) as [[u|e1] w1] eqn:Ev;
      pose proof (validate_world _ _ _ _ Ev) as ->.
    + destruct (FaceFusionBatch._prepare_output_dir _ w) as [[u'|e2] w2] eqn:Ep;
        injection H as _ <-.
      * split; [now apply (prepare_output_dir_keeps _ _ _ _ Ep)|].
        now apply prepare_output_dir_spec in Ep.
      * apply prepare_output_dir_spec in Ep. subst. auto.
    + injection H as _ <-. auto.
  - rewrite (init_auto env a w Ex) in H. injection H as _ <-. auto.
Qed.

Lemma X5_construction_only_adds_witness :
  kind_of (fs (snd (FaceFusionBatch.__init__ Demo.env Demo.args
                      (Demo.world Demo.disk))))
          (PurePath.of_str "targets/a.jpg") = Some RegularFile
  /\ spawned (snd (FaceFusionBatch.__init__ Demo.env Demo.args
                     (Demo.world Demo.disk))) = [].
Proof.
  destruct (X5_construction_only_adds Demo.env Demo.args (Demo.world Demo.disk)
              (fst (FaceFusionBatch.__init__ Demo.env Demo.args (Demo.world Demo.disk)))
              (snd (FaceFusionBatch.__init__ Demo.env Demo.args (Demo.world Demo.disk)))
              eq_refl) as [Hk Hs].
  split; [apply Hk; reflexivity|exact Hs].
Defined.

Lemma mkdir_parents_on_file (n : nat) (p : Path) (w : World) :
  kind_of (fs w) p = Some RegularFile ->
  mkdir_parents n p w = (Raise (FileExistsError (PurePath.str p)), w).
Proof.
  intros H. destruct n; simpl; unfold os_mkdir; rewrite H;
    unfold mkdir_exist_ok, bind, path_is_dir, is_dir; rewrite H; reflexivity.
Qed.

(** X6: when the checks pass but the output path already exists as a
    regular file, construction raises [FileExistsError] and changes
    nothing; [main] reports it through its catch-all branch (as an
    unexpected error, with a traceback only when verbose), exits with
    status 1 and spawns nothing. *)
Theorem X6_output_path_is_a_file (env : Env) (a : Args) (w : World) (ffp : Path) :
  explicit_path a = Some ffp ->
  FaceFusionBatch._validate_inputs (instance_of a ffp) w = (Ok tt, w) ->
  kind_of (fs w) (PurePath.of_str (arg_output_dir a)) = Some RegularFile ->
  let e := FileExistsError (PurePath.str (PurePath.of_str (arg_output_dir a))) in
  FaceFusionBatch.__init__ env a w = (Raise e, w)
  /\ main env a w
     = (1%Z, mkWorld (fs w)
                     (printed w ++ UnexpectedLine e
                                :: (if arg_verbose a then [Traceback] else []))
                     (spawned w)).
Proof.
  intros Hex Hval Hfile e.
  assert (Hinit : FaceFusionBatch.__init__ env a w = (Raise e, w)).
  { rewrite (init_explicit env a w ffp Hex), Hval.
    unfold FaceFusionBatch._prepare_output_dir, bind, path_mkdir.
    simpl FaceFusionBatch.output_dir.
    now rewrite (mkdir_parents_on_file _ _ w Hfile). }
  split; [exact Hinit|].
  unfold main, bind. rewrite Hinit. unfold e, print, when, bind, ret; simpl.
  destruct (arg_verbose a); simpl; rewrite <- ?app_assoc; reflexivity.
Qed.

Lemma X6_output_path_is_a_file_witness :
  let a := mkArgs "face.jpg" "targets" "face.jpg" (Some "/opt/ff")
                  "cpu" "inswapper_128" false in
  main Demo.env a (Demo.world Demo.disk)
  = (1%Z, mkWorld Demo.disk [UnexpectedLine (FileExistsError "face.jpg")] []).
Proof.
  exact (proj2 (X6_output_path_is_a_file Demo.env
                  (mkArgs "face.jpg" "targets" "face.jpg" (Some "/opt/ff")
                          "cpu" "inswapper_128" false)
                  (Demo.world Demo.disk) (PurePath.of_str "/opt/ff")
                  eq_refl eq_refl eq_refl)).
Defined.

(** X7: when construction fails with an exception of class
    [Exception], [main] exits with status 1 without running the batch:
    it spawns nothing, adds nothing to what construction did to the
    disk, and prints one error line: the plain one for
    [FileNotFoundError] and [ValueError], the "unexpected" one for any
    other exception, followed by a traceback only when verbose. *)
Theorem X7_construction_failure_exits_1 (env : Env) (a : Args) (w : World)
        (e : Exn) (w' : World) :
  FaceFusionBatch.__init__ env a w = (Raise e, w') ->
  is_Exception e = true ->
  main env a w
  = (1%Z,
     mkWorld (fs w')
             (printed w'
              ++ match e with
                 | FileNotFoundError _ | ValueError _ => [ErrorLine e]
                 | _ => UnexpectedLine e
                        :: (if arg_verbose a then [Traceback] else [])
                 end)
             (spawned w')).
Proof.
  intros H He. unfold main, bind. rewrite H.
  destruct e; try discriminate He;
    unfold print, when, bind, ret; simpl;
    try reflexivity;
    destruct (arg_verbose a); simpl; rewrite <- ?app_assoc; reflexivity.
Qed.

Lemma X7_construction_failure_exits_1_witness :
  main Demo.env Demo.args_empty (Demo.world Demo.disk)
  = (1%Z,
     mkWorld Demo.disk
             [ErrorLine (ValueError
                           "No valid image files found in target directory: empty")]
             [])
  /\ main Demo.env Demo.args_auto (Demo.world Demo.disk_home)
     = (1%Z, mkWorld Demo.disk_home [UnexpectedLine no_verbose_attribute] []).
Proof.
  split.
  - exact (X7_construction_failure_exits_1 Demo.env Demo.args_empty
             (Demo.world Demo.disk)
             (ValueError "No valid image files found in target directory: empty")
             (Demo.world Demo.disk) eq_refl eq_refl).
  - exact (X7_construction_failure_exits_1 Demo.env Demo.args_auto
             (Demo.world Demo.disk_home) no_verbose_attribute
             (Demo.world Demo.disk_home) eq_refl eq_refl).
Defined.

(** ** What a batch spawns and writes *)

Section BatchEffects.

Variable env : Env.
Variable self : FaceFusionBatch.t.

(** A job either spawns nothing and leaves the disk alone, or spawns
    its one child process and leaves the disk as the tool left it. *)
Lemma process_single_image_effects (t : Path) (w : World)
      (r : Result bool) (w' : World) :
  FaceFusionBatch.process_single_image env self t w = (r, w') ->
  (spawned w' = spawned w /\ fs w' = fs w /\ r = Ok true)
  \/ (spawned w' = spawned w ++ [job env self t]
      /\ fs w' = snd (subprocess_run env (fs w) (fst (job env self t))
                        (snd (job env self t)))).
Proof.
  intros H.
  destruct (exists_ (fs w) (FaceFusionBatch.output_path self t)
            && negb (FaceFusionBatch.verbose self)) eqn:Hskip.
  - apply andb_true_iff in Hskip. destruct Hskip as [Hex Hv].
    apply negb_true_iff in Hv.
    rewrite (process_single_image_skip env self t w Hex Hv) in H.
    injection H as <- <-. left. auto.
  - destruct (subprocess_run env (fs w) (fst (job env self t))
                (snd (job env self t))) as [o f'] eqn:Hrun.
    destruct (process_single_image_run env self t w o f' Hskip Hrun)
      as [lines [E _]].
    rewrite E in H. injection H as _ <-. right. auto.
Qed.

(** The child processes of a loop are those of a selection of its
    targets, in order: each target at most once. *)
Lemma batch_loop_spawned (targets : list Path) :
  forall total idx s f w r w',
    FaceFusionBatch.batch_loop env self total idx targets s f w = (r, w') ->
    exists mask,
      (List.length mask <= List.length targets)%nat
      /\ spawned w' = spawned w ++ map (job env self) (select mask targets).
Proof.
  induction targets as [|t rest IH]; intros total idx s f w r w' H.
  - cbn in H. injection H as _ <-. exists []. simpl.
    now rewrite app_nil_r.
  - rewrite batch_loop_cons in H.
    destruct (FaceFusionBatch.process_single_image _ _ _ _) as [r1 w1] eqn:E1.
    assert (Hstep : exists b : bool,
               spawned w1 = spawned w ++ map (job env self) (if b then [t] else [])).
    { apply process_single_image_effects in E1. simpl in E1.
      destruct E1 as [[Hs _]|[Hs _]].
      - exists false. simpl. now rewrite app_nil_r.
      - exists true. exact Hs. }
    destruct Hstep as [b Hs1].
    assert (Hstop : w1 = w' ->
              exists mask,
                (List.length mask <= List.length (t :: rest))%nat
                /\ spawned w' = spawned w ++ map (job env self) (select mask (t :: rest))).
    { intros <-. exists [b]. split; [simpl; lia|].
      rewrite Hs1. simpl. now destruct b. }
    destruct r1 as [ok|e]; [|apply Hstop; now injection H].
    destruct (when _ _ w1) as [[u|e] w2] eqn:E2;
      pose proof (pause_world env _ _ _ _ _ E2) as ->;
      [|apply Hstop; now injection H].
    destruct (IH _ _ _ _ _ _ _ H) as [mask [Hlen Hs]].
    exists (b :: mask). split; [simpl; lia|].
    rewrite Hs, Hs1, <- app_assoc. f_equal. simpl.
    destruct b; reflexivity.
Qed.

(** In verbose mode every job that is started spawns its child
    process. *)
Lemma process_single_image_verbose_spawns (t : Path) (w : World)
      (r : Result bool) (w' : World) :
  FaceFusionBatch.verbose self = true ->
  FaceFusionBatch.process_single_image env self t w = (r, w') ->
  spawned w' = spawned w ++ [job env self t].
Proof.
  intros Hv H.
  destruct (subprocess_run env (fs w) (fst (job env self t))
              (snd (job env self t))) as [o f'] eqn:Hrun.
  destruct (process_single_image_run env self t w o f') as [lines [E _]];
    [now rewrite Hv, andb_false_r|exact Hrun|].
  rewrite E in H. now injection H as _ <-.
Qed.

(** So the child processes of a verbose loop are those of the first
    [k] targets, all of them when the loop returns. *)
Lemma batch_loop_verbose_prefix (targets : list Path) :
  FaceFusionBatch.verbose self = true ->
  forall total idx s f w r w',
    FaceFusionBatch.batch_loop env self total idx targets s f w = (r, w') ->
    exists k,
      (k <= List.length targets)%nat
      /\ spawned w' = spawned w ++ map (job env self) (firstn k targets)
      /\ (forall p, r = Ok p -> k = List.length targets).
Proof.
  intros Hv.
  induction targets as [|t rest IH]; intros total idx s f w r w' H.
  - cbn in H. injection H as _ <-. exists 0%nat. simpl.
    rewrite app_nil_r. auto.
  - rewrite batch_loop_cons in H.
    destruct (FaceFusionBatch.process_single_image _ _ _ _) as [r1 w1] eqn:E1.
    pose proof (process_single_image_verbose_spawns _ _ _ _ Hv E1) as Hs1.
    simpl in Hs1.
    assert (Hstop : forall e, (Raise e, w1) = (r, w') ->
              exists k,
                (k <= List.length (t :: rest))%nat
                /\ spawned w' = spawned w ++ map (job env self) (firstn k (t :: rest))
                /\ (forall p, r = Ok p -> k = List.length (t :: rest))).
    { intros e E. injection E as <- <-. exists 1%nat. simpl.
      split; [lia|]. split; [exact Hs1|discriminate]. }
    destruct r1 as [ok|e]; [|now apply (Hstop e)].
    destruct (when _ _ w1) as [[u|e] w2] eqn:E2;
      pose proof (pause_world env _ _ _ _ _ E2) as ->;
      [|now apply (Hstop e)].
    destruct (IH _ _ _ _ _ _ _ H) as [k [Hlen [Hs Hall]]].
    exists (S k). split; [simpl; lia|]. split.
    + rewrite Hs, Hs1, <- app_assoc. reflexivity.
    + intros p Hp. simpl. f_equal. now apply (Hall p).
Qed.

(** A tool that writes nothing means a batch that writes nothing. *)
Lemma batch_loop_writes_nothing (targets : list Path) :
  tool_writes_nothing env ->
  forall total idx s f w r w',
    FaceFusionBatch.batch_loop env self total idx targets s f w = (r, w') ->
    fs w' = fs w.
Proof.
  intros Htool.
  induction targets as [|t rest IH]; intros total idx s f w r w' H.
  - cbn in H. now injection H as _ <-.
  - rewrite batch_loop_cons in H.
    destruct (FaceFusionBatch.process_single_image _ _ _ _) as [r1 w1] eqn:E1.
    assert (Hfs : fs w1 = fs w).
    { apply process_single_image_effects in E1. simpl in E1.
      destruct E1 as [[_ [Hf _]]|[_ Hf]]; [exact Hf|].
      rewrite Hf. apply Htool. }
    destruct r1 as [ok|e]; [|now injection H as _ <-].
    destruct (when _ _ w1) as [[u|e] w2] eqn:E2;
      pose proof (pause_world env _ _ _ _ _ E2) as ->.
    + rewrite (IH _ _ _ _ _ _ _ H). exact Hfs.
    + now injection H as _ <-.
Qed.

End BatchEffects.

Lemma process_batch_cases (env : Env) (self : FaceFusionBatch.t) (w : World) :
  (exists e, FaceFusionBatch._get_target_images self w = (Raise e, w)
             /\ FaceFusionBatch.process_batch env self w = (Raise e, w)
             /\ is_Exception e = true)
  \/ (exists targets,
         FaceFusionBatch._get_target_images self w = (Ok targets, w)).
Proof.
  destruct (FaceFusionBatch._get_target_images self w) as [[targets|e] w1] eqn:E;
    pose proof (get_target_images_world _ _ _ _ E) as ->.
  - right. eauto.
  - left. exists e. split; [reflexivity|]. split.
    + unfold FaceFusionBatch.process_batch, bind. now rewrite E.
    + unfold FaceFusionBatch._get_target_images, bind, path_iterdir, iterdir in E.
      destruct (kind_of (fs w) (FaceFusionBatch.target_dir self)) as [[|]|];
        try discriminate; now injection E as <-.
Qed.

(** X8: however the batch ends, the child processes it has spawned
    are those of a selection of the enumerated targets, taken in
    enumeration order and each target at most once (no retry, no other
    file), every one with the command built for its target and with
    the installation directory as working directory. *)
Theorem X8_batch_spawns_only_targets (env : Env) (self : FaceFusionBatch.t)
        (w : World) (targets : list Path) (r : Result (nat * nat)) (w' : World) :
  FaceFusionBatch._get_target_images self w = (Ok targets, w) ->
  FaceFusionBatch.process_batch env self w = (r, w') ->
  exists mask,
    (List.length mask <= List.length targets)%nat
    /\ spawned w' = spawned w ++ map (job env self) (select mask targets).
Proof.
  intros Hget H. rewrite (process_batch_eq env self w targets Hget) in H.
  destruct (FaceFusionBatch.batch_loop _ _ _ _ _ _ _ _) as [[p|e] w2] eqn:El;
    apply batch_loop_spawned in El; injection H as _ <-; exact El.
Qed.

Lemma X8_batch_spawns_only_targets_witness :
  exists mask,
    (List.length mask <= 2)%nat
    /\ spawned (snd (FaceFusionBatch.process_batch Demo.env Demo.self
                       (Demo.world Demo.disk)))
       = [] ++ map (job Demo.env Demo.self)
                   (select mask [PurePath.of_str "targets/a.jpg";
                                 PurePath.of_str "targets/b.PNG"]).
Proof.
  exact (X8_batch_spawns_only_targets Demo.env Demo.self (Demo.world Demo.disk)
           [PurePath.of_str "targets/a.jpg"; PurePath.of_str "targets/b.PNG"]
           (fst (FaceFusionBatch.process_batch Demo.env Demo.self
                   (Demo.world Demo.disk)))
           (snd (FaceFusionBatch.process_batch Demo.env Demo.self
                   (Demo.world Demo.disk)))
           eq_refl eq_refl).
Defined.

(** X9: a verbose batch skips nothing.  However it ends, the child
    processes it has spawned are those of the first [k] enumerated
    targets, one each and in order, for some [k]; and when it returns,
    [k] is the number of targets: every target has been handed to the
    tool, whether or not its output existed. *)
Theorem X9_verbose_batch_spawns_every_target (env : Env)
        (self : FaceFusionBatch.t) (w : World) (targets : list Path)
        (r : Result (nat * nat)) (w' : World) :
  FaceFusionBatch.verbose self = true ->
  FaceFusionBatch._get_target_images self w = (Ok targets, w) ->
  FaceFusionBatch.process_batch env self w = (r, w') ->
  (exists k,
      (k <= List.length targets)%nat
      /\ spawned w' = spawned w ++ map (job env self) (firstn k targets))
  /\ (forall p, r = Ok p ->
                spawned w' = spawned w ++ map (job env self) targets).
Proof.
  intros Hv Hget H. rewrite (process_batch_eq env self w targets Hget) in H.
  destruct (FaceFusionBatch.batch_loop _ _ _ _ _ _ _ _) as [r0 w2] eqn:El.
  destruct (batch_loop_verbose_prefix env self targets Hv _ _ _ _ _ _ _ El)
    as [k [Hlen [Hs Hall]]].
  simpl in Hs.
  assert (Hw : spawned w' = spawned w2)
    by (destruct r0; injection H as _ <-; reflexivity).
  rewrite Hw. split; [eauto|].
  intros p Hp. destruct r0 as [p0|e]; [|subst r; discriminate H].
  rewrite Hs, (Hall p0 eq_refl), firstn_all. reflexivity.
Qed.

Lemma X9_verbose_batch_spawns_every_target_witness :
  spawned (snd (FaceFusionBatch.process_batch Demo.env Demo.self_done_verbose
                  (Demo.world Demo.disk)))
  = [] ++ map (job Demo.env Demo.self_done_verbose)
              [PurePath.of_str "pics/a.jpg"; PurePath.of_str "pics/b.png"].
Proof.
  exact (proj2 (X9_verbose_batch_spawns_every_target Demo.env Demo.self_done_verbose
                  (Demo.world Demo.disk)
                  [PurePath.of_str "pics/a.jpg"; PurePath.of_str "pics/b.png"]
                  (fst (FaceFusionBatch.process_batch Demo.env Demo.self_done_verbose
                          (Demo.world Demo.disk)))
                  (snd (FaceFusionBatch.process_batch Demo.env Demo.self_done_verbose
                          (Demo.world Demo.disk)))
                  eq_refl eq_refl eq_refl)
               (2%nat, 0%nat) eq_refl).
Defined.

(** X10: the batch controller writes nothing to the disk itself: if
    the tool leaves the disk as it finds it, the disk after the batch
    is the disk before it, however the batch ends. *)
Theorem X10_batch_writes_nothing_itself (env : Env) (self : FaceFusionBatch.t)
        (w : World) (r : Result (nat * nat)) (w' : World) :
  tool_writes_nothing env ->
  FaceFusionBatch.process_batch env self w = (r, w') ->
  fs w' = fs w.
Proof.
  intros Htool H.
  destruct (process_batch_cases env self w) as [[e [_ [Hp _]]]|[targets Hget]].
  - rewrite Hp in H. now injection H as _ <-.
  - rewrite (process_batch_eq env self w targets Hget) in H.
    destruct (FaceFusionBatch.batch_loop _ _ _ _ _ _ _ _) as [[p|e] w2] eqn:El;
      apply (batch_loop_writes_nothing env self targets Htool) in El;
      injection H as _ <-; exact El.
Qed.

Lemma X10_batch_writes_nothing_itself_witness :
  fs (snd (FaceFusionBatch.process_batch Demo.env_broken Demo.self
             (Demo.world Demo.disk))) = Demo.disk.
Proof.
  exact (X10_batch_writes_nothing_itself Demo.env_broken Demo.self
           (Demo.world Demo.disk)
           (fst (FaceFusionBatch.process_batch Demo.env_broken Demo.self
                   (Demo.world Demo.disk)))
           (snd (FaceFusionBatch.process_batch Demo.env_broken Demo.self
                   (Demo.world Demo.disk)))
           (fun f cmd dir => eq_refl) eq_refl).
Defined.

(** ** Interrupts and pauses *)

(** X11: an interrupt during a job ends the batch at once: when the
    tool's run for the first enumerated target ends in
    [KeyboardInterrupt], the batch controller raises it (the job
    runner's [except Exception] does not catch it), exactly that one
    child process has been spawned, and the remaining targets are not
    processed. *)
Theorem X11_interrupt_stops_the_batch (env : Env) (self : FaceFusionBatch.t)
        (w : World) (t : Path) (rest : list Path) (f' : FS) :
  FaceFusionBatch._get_target_images self w = (Ok (t :: rest), w) ->
  exists_ (fs w) (FaceFusionBatch.output_path self t)
  && negb (FaceFusionBatch.verbose self) = false ->
  subprocess_run env (fs w) (fst (job env self t)) (snd (job env self t))
  = (Raised KeyboardInterrupt, f') ->
  let r := FaceFusionBatch.process_batch env self w in
  fst r = Raise KeyboardInterrupt
  /\ spawned (snd r) = spawned w ++ [job env self t]
  /\ processing_names (printed (snd r))
     = processing_names (printed w) ++ [PurePath.name t].
Proof.
  intros Hget Hskip Hrun r. unfold r.
  rewrite (process_batch_eq env self w _ Hget), batch_loop_cons.
  set (w0 := mkWorld _ _ _).
  destruct (process_single_image_run env self t w0 _ f' Hskip Hrun)
    as [lines [-> Hl]].
  simpl. repeat split.
  rewrite !processing_names_app, Hl. simpl. now rewrite !app_nil_r.
Qed.

Lemma X11_interrupt_stops_the_batch_witness :
  let r := FaceFusionBatch.process_batch Demo.env_interrupted Demo.self
             (Demo.world Demo.disk) in
  fst r = Raise KeyboardInterrupt
  /\ spawned (snd r) = [] ++ [job Demo.env_interrupted Demo.self
                                (PurePath.of_str "targets/a.jpg")]
  /\ processing_names (printed (snd r)) = [] ++ ["a.jpg"].
Proof.
  exact (X11_interrupt_stops_the_batch Demo.env_interrupted Demo.self
           (Demo.world Demo.disk) (PurePath.of_str "targets/a.jpg")
           [PurePath.of_str "targets/b.PNG"] Demo.disk eq_refl eq_refl eq_refl).
Defined.

(** X12: the pause is taken between jobs, never after the last one.
    Suppose the jobs before target [t] have returned and the job on [t]
    returns.  If [t] is the last target, the batch returns with its
    counts at once, whatever would happen in a pause after it.  If
    targets remain, the pause follows: an interrupt in it makes the
    batch raise [KeyboardInterrupt] before the next target is started,
    and without one the batch goes on with the next target. *)
Theorem X12_no_pause_after_last_job (env : Env) (self : FaceFusionBatch.t)
        (w : World) (pre : list Path) (t : Path) (rest : list Path)
        (results : list bool) (w1 : World) (ok : bool) (w2 : World) :
  let targets := pre ++ t :: rest in
  let total := List.length targets in
  let idx := S (List.length pre) in
  let s := if ok then S (successes results) else successes results in
  let f := if ok then failures results else S (failures results) in
  FaceFusionBatch._get_target_images self w = (Ok targets, w) ->
  batch_run env self total 1 pre (after_header w total) results w1 ->
  FaceFusionBatch.process_single_image env self t
    (mkWorld (fs w1) (printed w1 ++ [Processing idx total (PurePath.name t)])
             (spawned w1))
  = (Ok ok, w2) ->
  (rest = [] ->
   FaceFusionBatch.process_batch env self w
   = (Ok (s, f), after_summary w2 s f total))
  /\ (rest <> [] -> sigint_in_sleep env idx = true ->
      FaceFusionBatch.process_batch env self w = (Raise KeyboardInterrupt, w2))
  /\ (rest <> [] -> sigint_in_sleep env idx = false ->
      FaceFusionBatch.process_batch env self w
      = match FaceFusionBatch.batch_loop env self total (S idx) rest s f w2 with
        | (Ok r, w3) => (Ok r, after_summary w3 (fst r) (snd r) total)
        | (Raise e, w3) => (Raise e, w3)
        end).
Proof.
  intros targets total idx s f. subst targets total idx s f.
  intros Hget Hrun Hjob.
  set (total := List.length (pre ++ t :: rest)) in *.
  set (idx := S (List.length pre)) in *.
  assert (Hloop :
            FaceFusionBatch.process_batch env self w
            = match (match when (idx <? total)%nat (time_sleep env idx) w2 with
                     | (Ok _, w3) =>
                         FaceFusionBatch.batch_loop env self total (S idx) rest
                           (if ok then S (successes results) else successes results)
                           (if ok then failures results else S (failures results))
                           w3
                     | (Raise e, w3) => (Raise e, w3)
                     end) with
              | (Ok r, w3) => (Ok r, after_summary w3 (fst r) (snd r) total)
              | (Raise e, w3) => (Raise e, w3)
              end).
  { rewrite (process_batch_eq env self w _ Hget).
    fold total. unfold after_header in Hrun.
    rewrite (batch_loop_app env self _ _ _ _ _ _ Hrun (t :: rest) 0%nat 0%nat).
    rewrite batch_loop_cons. change (1 + List.length pre)%nat with idx.
    rewrite Hjob. simpl Nat.add.
    destruct (when (idx <? total)%nat (time_sleep env idx) w2) as [[u|e] w3];
      [|reflexivity].
    destruct (FaceFusionBatch.batch_loop env self total (S idx) rest _ _ w3)
      as [[r|e] w4]; reflexivity. }
  assert (Hlast : rest = [] -> (idx <? total)%nat = false).
  { intros ->. apply Nat.ltb_ge. unfold total, idx.
    rewrite length_app. simpl. lia. }
  assert (Hmore : rest <> [] -> (idx <? total)%nat = true).
  { intros Hne. apply Nat.ltb_lt. unfold total, idx.
    rewrite length_app. destruct rest; [contradiction|]. simpl. lia. }
  split; [|split].
  - intros Hr. rewrite Hloop, (Hlast Hr). subst rest. reflexivity.
  - intros Hne Hsig. rewrite Hloop, (Hmore Hne).
    unfold when, time_sleep. rewrite Hsig. reflexivity.
  - intros Hne Hsig. rewrite Hloop, (Hmore Hne).
    unfold when, time_sleep. rewrite Hsig. reflexivity.
Qed.

Lemma X12_no_pause_after_last_job_witness :
  let late := mkEnv "/usr/bin/python3" Demo.home_u Demo.work Demo.stub_tool
                    (fun i => (2 <=? i)%nat) in
  let early := mkEnv "/usr/bin/python3" Demo.home_u Demo.work Demo.stub_tool
                     (fun i => (1 <=? i)%nat) in
  fst (FaceFusionBatch.process_batch late Demo.self (Demo.world Demo.disk))
  = Ok (1%nat, 1%nat)
  /\ (fst (FaceFusionBatch.process_batch early Demo.self (Demo.world Demo.disk))
      = Raise KeyboardInterrupt
      /\ List.length
           (spawned (snd (FaceFusionBatch.process_batch early Demo.self
                            (Demo.world Demo.disk)))) = 1%nat).
Proof.
  intros late early.
  set (w0 := after_header (Demo.world Demo.disk) 2).
  set (a := PurePath.of_str "targets/a.jpg").
  set (b := PurePath.of_str "targets/b.PNG").
  split.
  - set (w1 := snd (FaceFusionBatch.process_single_image late Demo.self a
                      (mkWorld (fs w0) (printed w0 ++ [Processing 1 2 "a.jpg"])
                               (spawned w0)))).
    set (w2 := snd (FaceFusionBatch.process_single_image late Demo.self b
                      (mkWorld (fs w1) (printed w1 ++ [Processing 2 2 "b.PNG"])
                               (spawned w1)))).
    assert (Hrun : batch_run late Demo.self 2 1 [a] w0 [true] w1).
    { apply batch_run_cons with (w2 := w1);
        [reflexivity|intros _; reflexivity|apply batch_run_nil]. }
    rewrite (proj1 (X12_no_pause_after_last_job late Demo.self (Demo.world Demo.disk)
                      [a] b [] [true] w1 false w2 eq_refl Hrun eq_refl) eq_refl).
    reflexivity.
  - set (w2 := snd (FaceFusionBatch.process_single_image early Demo.self a
                      (mkWorld (fs w0) (printed w0 ++ [Processing 1 2 "a.jpg"])
                               (spawned w0)))).
    rewrite (proj1 (proj2 (X12_no_pause_after_last_job early Demo.self
                             (Demo.world Demo.disk)
                             [] a [b] [] w0 true w2 eq_refl
                             (batch_run_nil early Demo.self 2 1 w0) eq_refl))
                   ltac:(discriminate) eq_refl).
    split; reflexivity.
Defined.

(** X13: without a user interrupt, [main] always terminates with
    status 0 or 1: status 130 is produced by an interrupt only. *)
Theorem X13_exit_status_without_interrupt (env : Env) (a : Args) (w : World) :
  uninterrupted env ->
  fst (main env a w) = 0%Z \/ fst (main env a w) = 1%Z.
Proof.
  intros Hun.
  destruct (FaceFusionBatch.__init__ env a w) as [[self|e] w1] eqn:Hinit.
  - destruct (process_batch_cases env self w1) as [[e [_ [Hp He]]]|[targets Hget]].
    + right. rewrite (main_batch_raise env a w self w1 e w1 Hinit Hp).
      now destruct e.
    + destruct (batch_loop_uninterrupted env self targets Hun
                  (List.length targets) 1%nat 0%nat 0%nat
                  (mkWorld (fs w1) (printed w1 ++ [BatchHeader (List.length targets)])
                           (spawned w1)))
        as [s [f [w' [Hl _]]]].
      assert (Hb : FaceFusionBatch.process_batch env self w1
                   = (Ok (s, f),
                      mkWorld (fs w')
                              (printed w' ++ [Summary s f (List.length targets)])
                              (spawned w')))
        by (rewrite (process_batch_eq env self w1 targets Hget), Hl; reflexivity).
      rewrite (main_batch_done env a w self w1 s f _ Hinit Hb).
      cbn [fst]. destruct (f =? 0)%nat; [left|right]; reflexivity.
  - right. destruct (main_init_raise env a w e w1 Hinit) as [-> _].
    apply init_Exception in Hinit. now destruct e.
Qed.

Lemma X13_exit_status_without_interrupt_witness :
  fst (main Demo.env Demo.args (Demo.world Demo.disk)) = 0%Z
  \/ fst (main Demo.env Demo.args (Demo.world Demo.disk)) = 1%Z.
Proof.
  exact (X13_exit_status_without_interrupt Demo.env Demo.args
           (Demo.world Demo.disk) demo_uninterrupted).
Defined.

(** X14: verbosity does not change the outcome of a job whose output
    is not there yet: a quiet and a verbose instance, alike otherwise,
    spawn the same command, leave the same disk and return the same
    result; only the printed lines differ. *)
Theorem X14_verbose_changes_printing_only (env : Env)
        (src td od ffp : Path) (prov model : string) (t : Path) (w : World) :
  let quiet := FaceFusionBatch.mk src td od ffp prov model false in
  let loud := FaceFusionBatch.mk src td od ffp prov model true in
  exists_ (fs w) (FaceFusionBatch.output_path quiet t) = false ->
  let rq := FaceFusionBatch.process_single_image env quiet t w in
  let rl := FaceFusionBatch.process_single_image env loud t w in
  fst rq = fst rl
  /\ fs (snd rq) = fs (snd rl)
  /\ spawned (snd rq) = spawned (snd rl).
Proof.
  intros quiet loud Hex rq rl. unfold rq, rl.
  destruct (subprocess_run env (fs w) (fst (job env quiet t)) (snd (job env quiet t)))
    as [o f'] eqn:Hrun.
  destruct (process_single_image_run env quiet t w o f') as [l1 [-> _]];
    [now rewrite Hex|exact Hrun|].
  destruct (process_single_image_run env loud t w o f') as [l2 [-> _]];
    [now rewrite andb_false_r|exact Hrun|].
  repeat split.
Qed.

Lemma X14_verbose_changes_printing_only_witness :
  fst (FaceFusionBatch.process_single_image Demo.env Demo.self
         (PurePath.of_str "targets/a.jpg") (Demo.world Demo.disk))
  = fst (FaceFusionBatch.process_single_image Demo.env Demo.self_verbose
           (PurePath.of_str "targets/a.jpg") (Demo.world Demo.disk)).
Proof.
  exact (proj1 (X14_verbose_changes_printing_only Demo.env
                  (PurePath.of_str "face.jpg") (PurePath.of_str "targets")
                  (PurePath.of_str "out") (PurePath.of_str "/opt/ff")
                  "cpu" "inswapper_128" (PurePath.of_str "targets/a.jpg")
                  (Demo.world Demo.disk) eq_refl)).
Defined.

(** ** The enumerator, further *)

Section EnumeratorMore.

Lemma filter_perm {A} (f : A -> bool) (l l' : list A) :
  Permutation l l' -> Permutation (filter f l) (filter f l').
Proof.
  induction 1 as [|x l l' Hp IH|x y l|l l' l'' H1 IH1 H2 IH2]; simpl.
  - constructor.
  - destruct (f x); [now constructor|exact IH].
  - destruct (f x), (f y); try reflexivity. apply perm_swap.
  - now transitivity (filter f l').
Qed.

Lemma filter_pointwise {A} (f g : A -> bool) (l : list A) :
  (forall x, f x = g x) -> filter f l = filter g l.
Proof.
  intros H. induction l as [|x l IH]; simpl; [reflexivity|].
  now rewrite H, IH.
Qed.

(** Among the children of one directory, a list sorted by name is
    determined by its members. *)
Lemma sorted_siblings_unique (d : Path) (l1 : list Path) :
  forall l2,
    StronglySorted name_le l1 -> StronglySorted name_le l2 ->
    Permutation l1 l2 ->
    (forall p, In p l1 -> exists n, p = PurePath.make_child d n) ->
    l1 = l2.
Proof.
  induction l1 as [|x l1 IH]; intros [|y l2] S1 S2 Hp Hch.
  - reflexivity.
  - now apply Permutation_nil in Hp.
  - apply Permutation_sym in Hp. now apply Permutation_nil in Hp.
  - inversion S1 as [|? ? S1' F1]; inversion S2 as [|? ? S2' F2]; subst.
    assert (Hxy : x = y).
    { assert (Hx : In x (y :: l2)) by (eapply Permutation_in; [exact Hp|now left]).
      assert (Hy : In y (x :: l1))
        by (eapply Permutation_in; [apply Permutation_sym, Hp|now left]).
      destruct Hx as [->|Hx]; [reflexivity|].
      destruct Hy as [<-|Hy]; [reflexivity|].
      rewrite Forall_forall in F1, F2.
      pose proof (F1 y Hy) as Hle1. pose proof (F2 x Hx) as Hle2.
      destruct (Hch x (or_introl eq_refl)) as [nx ->].
      destruct (Hch y (or_intror Hy)) as [ny ->].
      unfold name_le in Hle1, Hle2. rewrite !name_make_child in Hle1, Hle2.
      now rewrite (String.leb_antisym nx ny Hle1 Hle2). }
    subst y. f_equal. apply IH; auto.
    + now apply Permutation_cons_inv in Hp.
    + intros p Hin. apply Hch. now right.
Qed.

End EnumeratorMore.

(** X15: the enumeration does not depend on the order in which the
    operating system lists the directory: on two disks that agree on
    what every path is and whose listings of the target directory are
    permutations of one another, [_get_target_images] returns the same
    list (or raises the same exception). *)
Theorem X15_enumeration_ignores_listing_order (self : FaceFusionBatch.t)
        (w1 w2 : World) :
  (forall p, kind_of (fs w1) p = kind_of (fs w2) p) ->
  Permutation (listdir (fs w1) (FaceFusionBatch.target_dir self))
              (listdir (fs w2) (FaceFusionBatch.target_dir self)) ->
  fst (FaceFusionBatch._get_target_images self w1)
  = fst (FaceFusionBatch._get_target_images self w2).
Proof.
  intros Hk Hp.
  unfold FaceFusionBatch._get_target_images, bind, path_iterdir, iterdir.
  rewrite <- (Hk (FaceFusionBatch.target_dir self)).
  destruct (kind_of (fs w1) (FaceFusionBatch.target_dir self)) as [[|]|];
    simpl; try reflexivity.
  f_equal.
  set (D := FaceFusionBatch.target_dir self).
  assert (Hkeep : forall p, FaceFusionBatch.keep_image (fs w1) p
                            = FaceFusionBatch.keep_image (fs w2) p).
  { intros p. unfold FaceFusionBatch.keep_image, is_file. now rewrite Hk. }
  rewrite <- (filter_pointwise _ _ _ Hkeep).
  assert (Hch : forall l p,
             In p (filter (FaceFusionBatch.keep_image (fs w1))
                          (map (PurePath.make_child D) l)) ->
             exists n, p = PurePath.make_child D n).
  { intros l p Hin. apply filter_In in Hin. destruct Hin as [Hin _].
    apply in_map_iff in Hin. destruct Hin as [n [<- _]]. eauto. }
  apply sorted_siblings_unique with (d := D).
  - apply sorted_siblings with (d := D). apply Hch.
  - apply sorted_siblings with (d := D). apply Hch.
  - rewrite <- !sorted_perm. apply filter_perm, Permutation_map, Hp.
  - intros p Hin. apply (Hch (listdir (fs w1) D)).
    eapply Permutation_in; [apply Permutation_sym, sorted_perm|exact Hin].
Qed.

Lemma X15_enumeration_ignores_listing_order_witness :
  fst (FaceFusionBatch._get_target_images Demo.self (Demo.world Demo.disk))
  = fst (FaceFusionBatch._get_target_images Demo.self
           (Demo.world
              (mkFS (kind_of Demo.disk)
                    (fun p => rev (listdir Demo.disk p))))).
Proof.
  apply (X15_enumeration_ignores_listing_order Demo.self (Demo.world Demo.disk)
           (Demo.world (mkFS (kind_of Demo.disk)
                             (fun p => rev (listdir Demo.disk p))))).
  - intros p. reflexivity.
  - apply Permutation_rev.
Defined.

Section ExtensionRule.

Lemma rfind_no_dot (s : string) :
  no_dot s = true -> Str.rfind PurePath.dot s = (-1)%Z.
Proof.
  induction s as [|a s IH]; simpl; [reflexivity|].
  intros H. apply andb_true_iff in H. destruct H as [Ha Hs].
  apply negb_true_iff in Ha. rewrite (IH Hs), Ha. reflexivity.
Qed.

Lemma rfind_last_dot (base e : string) :
  no_dot e = true ->
  Str.rfind PurePath.dot (base ++ String PurePath.dot e)
  = Z.of_nat (String.length base).
Proof.
  intros He. induction base as [|a base IH].
  - simpl. rewrite (rfind_no_dot e He). reflexivity.
  - change (Str.rfind PurePath.dot ((String a base) ++ String PurePath.dot e))
      with (let r := Str.rfind PurePath.dot (base ++ String PurePath.dot e) in
            if (0 <=? r)%Z then (r + 1)%Z
            else if Ascii.eqb a PurePath.dot then 0%Z else (-1)%Z).
    rewrite IH. cbv zeta.
    destruct (0 <=? Z.of_nat (String.length base))%Z eqn:E;
      [|apply Z.leb_gt in E; lia].
    simpl String.length. lia.
Qed.

Lemma drop_app (a b : string) : Str.drop (String.length a) (a ++ b) = b.
Proof. induction a as [|c a IH]; simpl; [now destruct b|exact IH]. Qed.

Lemma lower_char_dot (c : ascii) :
  Ascii.eqb (Str.lower_char c) PurePath.dot = Ascii.eqb c PurePath.dot.
Proof. destruct c as [[] [] [] [] [] [] [] []]; reflexivity. Qed.

Lemma no_dot_lower (s : string) : no_dot (Str.lower s) = no_dot s.
Proof.
  induction s as [|c s IH]; simpl; [reflexivity|].
  now rewrite lower_char_dot, IH.
Qed.

Lemma supported_no_dot (e : string) :
  In (Str.lower e) supported_extensions -> no_dot e = true /\ e <> "".
Proof.
  intros H. split.
  - rewrite <- no_dot_lower. simpl in H.
    repeat (destruct H as [<-|H]; [reflexivity|]). contradiction.
  - intros ->. simpl in H.
    repeat (destruct H as [H|H]; [discriminate|]). contradiction.
Qed.

Lemma suffix_of_dotted_name (p : Path) (base e : string) :
  PurePath.name p = (base ++ String PurePath.dot e)%string ->
  no_dot e = true ->
  PurePath.suffix p
  = if (negb (String.eqb base "") && negb (String.eqb e ""))%bool
    then String PurePath.dot e else "".
Proof.
  intros Hn He. unfold PurePath.suffix. rewrite Hn, (rfind_last_dot base e He).
  rewrite length_app_str. rewrite Nat2Z.id, drop_app.
  change (String.length (String PurePath.dot e)) with (S (String.length e)).
  destruct base as [|b base], e as [|c e];
    cbn [String.length String.eqb negb andb];
    repeat match goal with
           | |- context [(?a <? ?b)%Z] => destruct (Z.ltb_spec a b)
           end;
    cbn [andb]; try reflexivity; lia.
Qed.

End ExtensionRule.

(** X16: which names can never be picked by the enumerator, whatever
    kind of file they name: a name without any dot, a name whose only
    dot is its first character (a hidden file such as [.jpg]), and a
    name that ends in its last dot. *)
Theorem X16_names_never_enumerated (f : FS) (p : Path) :
  (no_dot (PurePath.name p) = true ->
   FaceFusionBatch.keep_image f p = false)
  /\ (forall e, PurePath.name p = String PurePath.dot e -> no_dot e = true ->
                FaceFusionBatch.keep_image f p = false)
  /\ (forall base, PurePath.name p = (base ++ ".")%string ->
                   FaceFusionBatch.keep_image f p = false).
Proof.
  assert (Hempty : PurePath.suffix p = "" -> FaceFusionBatch.keep_image f p = false).
  { intros H. unfold FaceFusionBatch.keep_image. rewrite H. simpl.
    apply andb_false_r. }
  split; [|split].
  - intros H. apply Hempty. unfold PurePath.suffix.
    now rewrite (rfind_no_dot _ H).
  - intros e Hn He. apply Hempty.
    now rewrite (suffix_of_dotted_name p "" e Hn He).
  - intros base Hn. apply Hempty.
    rewrite (suffix_of_dotted_name p base "" Hn eq_refl).
    now rewrite andb_false_r.
Qed.

Lemma X16_names_never_enumerated_witness :
  FaceFusionBatch.keep_image Demo.disk (PurePath.of_str "targets/README") = false
  /\ FaceFusionBatch.keep_image Demo.disk (PurePath.of_str "targets/.jpg") = false
  /\ FaceFusionBatch.keep_image Demo.disk (PurePath.of_str "targets/a.jpg.") = false.
Proof.
  split; [|split].
  - apply (proj1 (X16_names_never_enumerated Demo.disk
                    (PurePath.of_str "targets/README"))).
    reflexivity.
  - apply (proj1 (proj2 (X16_names_never_enumerated Demo.disk
                           (PurePath.of_str "targets/.jpg"))) "jpg");
      reflexivity.
  - apply (proj2 (proj2 (X16_names_never_enumerated Demo.disk
                           (PurePath.of_str "targets/a.jpg."))) "a.jpg").
    reflexivity.
Defined.

(** X17: which names are always picked: a regular file named
    [base.EXT], with a non-empty [base] (which may itself contain dots)
    and [EXT] spelling one of jpg, jpeg, png, bmp, tiff, webp in any
    mix of upper and lower case, is kept by the enumerator; with an
    empty [base], or when the path is not a regular file, it is not. *)
Theorem X17_names_always_enumerated (f : FS) (p : Path) (base e : string) :
  PurePath.name p = (base ++ "." ++ e)%string ->
  In (Str.lower e) supported_extensions ->
  FaceFusionBatch.keep_image f p = is_file f p && negb (String.eqb base "").
Proof.
  intros Hn He. destruct (supported_no_dot e He) as [Hnd Hne].
  unfold FaceFusionBatch.keep_image.
  rewrite (suffix_of_dotted_name p base e Hn Hnd).
  apply String.eqb_neq in Hne. rewrite Hne. simpl negb. rewrite andb_true_r.
  destruct (String.eqb base ""); simpl negb.
  - simpl. reflexivity.
  - assert (Hin : FaceFusionBatch.in_extensions
                    (Str.lower (String PurePath.dot e)) = true).
    { apply in_extensions_spec. exists (Str.lower e). split; [exact He|].
      reflexivity. }
    cbv iota. now rewrite Hin.
Qed.

Lemma X17_names_always_enumerated_witness :
  FaceFusionBatch.keep_image Demo.disk (PurePath.of_str "targets/b.PNG")
  = is_file Demo.disk (PurePath.of_str "targets/b.PNG") && negb (String.eqb "b" "").
Proof.
  apply (X17_names_always_enumerated Demo.disk (PurePath.of_str "targets/b.PNG")
           "b" "PNG" eq_refl).
  simpl. tauto.
Defined.

(** ** When validation and construction succeed *)

Lemma existsb_false_all {A} (f : A -> bool) (l : list A) :
  existsb f l = false -> forall x, In x l -> f x = false.
Proof.
  intros H x Hx. destruct (f x) eqn:E; [|reflexivity].
  rewrite (existsb_some f l x Hx E) in H. discriminate.
Qed.

(** X18: the validator returns exactly when the source exists, the
    target path is a directory, [facefusion.py] exists under the
    installation path, and some entry of the target directory is a
    regular file with a supported extension; in every other case it
    raises.  It never changes the world. *)
Theorem X18_validation_passes_iff (self : FaceFusionBatch.t) (w : World) :
  FaceFusionBatch._validate_inputs self w = (Ok tt, w)
  <-> (exists_ (fs w) (FaceFusionBatch.source_image self) = true
       /\ is_dir (fs w) (FaceFusionBatch.target_dir self) = true
       /\ exists_ (fs w) (FaceFusionBatch.facefusion_path self // "facefusion.py")
          = true
       /\ exists n, In n (listdir (fs w) (FaceFusionBatch.target_dir self))
                    /\ FaceFusionBatch.keep_image (fs w)
                         (PurePath.make_child (FaceFusionBatch.target_dir self) n)
                       = true).
Proof.
  assert (Hdir : is_dir (fs w) (FaceFusionBatch.target_dir self) = true ->
                 exists_ (fs w) (FaceFusionBatch.target_dir self) = true).
  { unfold is_dir, exists_.
    destruct (kind_of (fs w) (FaceFusionBatch.target_dir self)) as [[|]|];
      congruence. }
  split.
  - intros H.
    destruct (exists_ (fs w) (FaceFusionBatch.source_image self)) eqn:E1;
      [|unfold FaceFusionBatch._validate_inputs, bind, path_exists in H;
        rewrite E1 in H; discriminate].
    destruct (exists_ (fs w) (FaceFusionBatch.target_dir self)) eqn:E2;
      [|unfold FaceFusionBatch._validate_inputs, bind, path_exists in H;
        rewrite E1 in H; cbv beta iota delta [negb] in H;
        rewrite E2 in H; discriminate].
    destruct (exists_ (fs w)
                (FaceFusionBatch.facefusion_path self // "facefusion.py")) eqn:E3;
      [|unfold FaceFusionBatch._validate_inputs, bind, path_exists in H;
        rewrite E1 in H; cbv beta iota delta [negb] in H;
        rewrite E2 in H; cbv beta iota delta [negb] in H;
        rewrite E3 in H; discriminate].
    rewrite (validate_after_existence self w E1 E2 E3) in H.
    destruct (is_dir (fs w) (FaceFusionBatch.target_dir self)) eqn:Ed.
    + repeat split.
      destruct (existsb (fun n => FaceFusionBatch.keep_image (fs w)
                                    (PurePath.make_child
                                       (FaceFusionBatch.target_dir self) n))
                        (listdir (fs w) (FaceFusionBatch.target_dir self))) eqn:Ee.
      * apply existsb_exists in Ee. exact Ee.
      * rewrite (get_target_images_none self w Ed (existsb_false_all _ _ Ee)) in H.
        discriminate.
    + unfold FaceFusionBatch._get_target_images, bind, path_iterdir, iterdir in H.
      unfold is_dir, exists_ in Ed, E2.
      destruct (kind_of (fs w) (FaceFusionBatch.target_dir self)) as [[|]|];
        discriminate.
  - intros [H1 [Hd [H3 [n [Hn Hk]]]]].
    rewrite (validate_after_existence self w H1 (Hdir Hd) H3).
    destruct (get_target_images_some self w n Hd Hn Hk) as [t [l ->]].
    reflexivity.
Qed.

Lemma X18_validation_passes_iff_witness :
  exists_ Demo.disk (PurePath.of_str "face.jpg") = true
  /\ is_dir Demo.disk (PurePath.of_str "targets") = true
  /\ exists_ Demo.disk (PurePath.of_str "/opt/ff" // "facefusion.py") = true
  /\ exists n, In n (listdir Demo.disk (PurePath.of_str "targets"))
               /\ FaceFusionBatch.keep_image Demo.disk
                    (PurePath.make_child (PurePath.of_str "targets") n) = true.
Proof.
  exact (proj1 (X18_validation_passes_iff Demo.self (Demo.world Demo.disk)) eq_refl).
Defined.

(** X19: a construction that returns was given an installation path on
    the command line; the instance carries the arguments as they are
    (the four paths parsed, provider, model and verbosity unchanged);
    nothing is printed except, when verbose, the one line on the
    prepared output directory. *)
Theorem X19_successful_construction (env : Env) (a : Args) (w : World)
        (self : FaceFusionBatch.t) (w' : World) :
  FaceFusionBatch.__init__ env a w = (Ok self, w') ->
  (exists s, arg_facefusion_path a = Some s /\ s <> ""
             /\ self = instance_of a (PurePath.of_str s))
  /\ printed w'
     = printed w ++ (if arg_verbose a
                     then [OutputPrepared (PurePath.of_str (arg_output_dir a))]
                     else []).
Proof.
  intros H.
  destruct (explicit_path a) as [ffp|] eqn:Ex;
    [|rewrite (init_auto env a w Ex) in H; discriminate].
  rewrite (init_explicit env a w ffp Ex) in H.
  destruct (FaceFusionBatch._validate_inputs _ w) as [[u|e1] w1] eqn:Ev;
    [|discriminate].
  pose proof (validate_world _ _ _ _ Ev) as ->.
  unfold FaceFusionBatch._prepare_output_dir, bind, path_mkdir, when, print, ret in H.
  destruct (mkdir_parents _ _ w) as [[u'|e2] w2] eqn:Em; [|discriminate].
  apply mkdir_parents_spec in Em. destruct Em as [_ [Hp _]].
  split.
  - unfold explicit_path in Ex.
    destruct (arg_facefusion_path a) as [s|]; [|discriminate].
    destruct (String.eqb_spec s ""); [discriminate|].
    injection Ex as <-. exists s. repeat split; auto.
    simpl in H. destruct (arg_verbose a); now injection H as <- _.
  - simpl in H. destruct (arg_verbose a); injection H as _ <-; simpl;
      rewrite Hp; [reflexivity|now rewrite app_nil_r].
Qed.

Lemma X19_successful_construction_witness :
  (exists s, arg_facefusion_path Demo.args = Some s /\ s <> ""
             /\ Demo.self = instance_of Demo.args (PurePath.of_str s))
  /\ printed (snd (FaceFusionBatch.__init__ Demo.env Demo.args
                     (Demo.world Demo.disk))) = [] ++ [].
Proof.
  exact (X19_successful_construction Demo.env Demo.args (Demo.world Demo.disk)
           Demo.self
           (snd (FaceFusionBatch.__init__ Demo.env Demo.args (Demo.world Demo.disk)))
           eq_refl).
Defined.

(** ** A tool that always does its work *)

Section Reliable.

Variable env : Env.
Variable self : FaceFusionBatch.t.

Lemma process_single_image_reliable (targets : list Path) (t : Path) (w : World) :
  tool_reliable env self targets -> In t targets ->
  exists w', FaceFusionBatch.process_single_image env self t w = (Ok true, w').
Proof.
  intros Hrel Hin.
  destruct (exists_ (fs w) (FaceFusionBatch.output_path self t)
            && negb (FaceFusionBatch.verbose self)) eqn:Hskip.
  - apply andb_true_iff in Hskip. destruct Hskip as [Hex Hv].
    apply negb_true_iff in Hv.
    rewrite (process_single_image_skip env self t w Hex Hv). eauto.
  - destruct (Hrel (fs w) t Hin) as [r [f' [Hrun [Hrc Hout]]]].
    destruct (process_single_image_run env self t w _ f' Hskip Hrun)
      as [lines [-> _]].
    simpl. rewrite Hrc, Hout. simpl. eauto.
Qed.

Lemma batch_loop_reliable (targets rest : list Path) :
  tool_reliable env self targets ->
  (forall idx, sigint_in_sleep env idx = false) ->
  incl rest targets ->
  forall total idx s f w,
  exists w',
    FaceFusionBatch.batch_loop env self total idx rest s f w
    = (Ok ((s + List.length rest)%nat, f), w').
Proof.
  intros Hrel Hsleep.
  induction rest as [|t rest IH]; intros Hincl total idx s f w.
  - exists w. cbn. now rewrite Nat.add_0_r.
  - rewrite batch_loop_cons.
    destruct (process_single_image_reliable targets t
                (mkWorld (fs w)
                         (printed w ++ [Processing idx total (PurePath.name t)])
                         (spawned w)) Hrel (Hincl t (or_introl eq_refl)))
      as [w1 ->].
    rewrite (pause_quiet env _ _ _ (Hsleep idx)).
    destruct (IH (fun x Hx => Hincl x (or_intror Hx)) total (S idx) (S s) f w1)
      as [w' ->].
    exists w'. simpl. now rewrite <- plus_n_Sm.
Qed.

End Reliable.

(** X20: when construction succeeds, the tool does its work for every
    enumerated target and no interrupt arrives in a pause, the batch
    counts every target as a success and none as a failure, and [main]
    exits with status 0. *)
Theorem X20_reliable_tool_exits_0 (env : Env) (a : Args) (w : World)
        (self : FaceFusionBatch.t) (w1 : World) (targets : list Path) :
  FaceFusionBatch.__init__ env a w = (Ok self, w1) ->
  FaceFusionBatch._get_target_images self w1 = (Ok targets, w1) ->
  tool_reliable env self targets ->
  (forall idx, sigint_in_sleep env idx = false) ->
  (exists w2, FaceFusionBatch.process_batch env self w1
              = (Ok (List.length targets, 0%nat), w2))
  /\ fst (main env a w) = 0%Z.
Proof.
  intros Hinit Hget Hrel Hsleep.
  destruct (batch_loop_reliable env self targets targets Hrel Hsleep
              (incl_refl _) (List.length targets) 1%nat 0%nat 0%nat
              (mkWorld (fs w1) (printed w1 ++ [BatchHeader (List.length targets)])
                       (spawned w1)))
    as [w' Hl].
  assert (Hb : FaceFusionBatch.process_batch env self w1
               = (Ok (List.length targets, 0%nat),
                  mkWorld (fs w')
                          (printed w' ++ [Summary (List.length targets) 0
                                                  (List.length targets)])
                          (spawned w')))
    by (rewrite (process_batch_eq env self w1 targets Hget), Hl; reflexivity).
  split; [eauto|].
  now rewrite (main_batch_done env a w self w1 _ _ _ Hinit Hb).
Qed.

Lemma X20_reliable_tool_exits_0_witness :
  (exists w2,
      FaceFusionBatch.process_batch Demo.env (instance_of Demo.args_pics
                                                (PurePath.of_str "/opt/ff"))
        (snd (FaceFusionBatch.__init__ Demo.env Demo.args_pics (Demo.world Demo.disk)))
      = (Ok (2%nat, 0%nat), w2))
  /\ fst (main Demo.env Demo.args_pics (Demo.world Demo.disk)) = 0%Z.
Proof.
  apply (X20_reliable_tool_exits_0 Demo.env Demo.args_pics (Demo.world Demo.disk)
           (instance_of Demo.args_pics (PurePath.of_str "/opt/ff"))
           (snd (FaceFusionBatch.__init__ Demo.env Demo.args_pics
                   (Demo.world Demo.disk)))
           [PurePath.of_str "pics/a.jpg"; PurePath.of_str "pics/b.png"]).
  - reflexivity.
  - reflexivity.
  - intros f t [<-|[<-|[]]]; do 2 eexists; (split; [reflexivity|split; reflexivity]).
  - reflexivity.
Defined.
